(** * HALLOW demo firmware: sender (Demo_TX_Hallow_V1) and receiver
  (Demo_RX_Hallow_V1) sketches for the ESP32-C6 + HT-HC01P module.

  Shallow embedding of [src/Demo/Demo_TX_Hallow_V1.ino], which holds both
  sketches one after the other.  The globals of a sketch become a record,
  every function of the sketch becomes a computation in a small
  state/outcome monad, and every observation of the outside world
  ([millis()], [mqtt.connected()], the byte clocked in by
  [hspi.transfer], the pending HTTP request) is an explicit input named
  after the place in the source where it is read. *)

From Stdlib Require Import ZArith Lia Bool.
From Stdlib Require Import Strings.String Strings.Ascii Strings.Byte.
From stdpp Require Import base option list strings gmap.

#[local] Open Scope Z_scope.

(** ** The platform: machine integers, C strings, Arduino core helpers *)

Module Platform.

(** [unsigned long] is 32 bits wide on the ESP32-C6 (RV32). *)
Definition wrap32 (z : Z) : Z := z mod 2 ^ 32.
(** [uint16_t]. *)
Definition wrap16 (z : Z) : Z := z mod 2 ^ 16.

(** [millis()]: the low 32 bits of the uptime in milliseconds. *)
Definition millis (uptime : Z) : Z := wrap32 uptime.

(** [a - b] and [a + b] on [unsigned long]. *)
Definition u32_sub (a b : Z) : Z := wrap32 (a - b).
Definition u32_add (a b : Z) : Z := wrap32 (a + b).

(** [long] is 32 bits as well. *)
Definition LONG_MAX : Z := 2 ^ 31 - 1.
Definition LONG_MIN : Z := - 2 ^ 31.

(** *** Characters and C strings *)

Definition NUL : ascii := "000"%char.

(** The numeric value of a [uint8_t]. *)
Definition u8 (b : byte) : N := Byte.to_N b.

(** [(char)b]. *)
Definition to_char (b : byte) : ascii := ascii_of_byte b.

(** The C string held by a char array: the characters before the first
    NUL ([None] when the array holds no NUL, i.e. is not terminated). *)
Fixpoint c_str (buf : list ascii) : option (list ascii) :=
  match buf with
  | [] => None
  | c :: rest =>
      if Ascii.eqb c NUL then Some []
      else cs ← c_str rest; Some (c :: cs)
  end.

(** [buf[i] = c] on a fixed-size array; a store past the end is undefined
    behaviour and is reported as [None]. *)
Definition poke (buf : list ascii) (i : nat) (c : ascii) : option (list ascii) :=
  if decide (i < length buf)%nat then Some (<[i:=c]> buf) else None.

(** Store the characters [cs] at offsets [p], [p+1], ... *)
Fixpoint poke_all (buf : list ascii) (p : nat) (cs : list ascii)
  : option (list ascii) :=
  match cs with
  | [] => Some buf
  | c :: cs' => buf' ← poke buf p c; poke_all buf' (S p) cs'
  end.

(** One uppercase hexadecimal digit, as printf's [%X] prints it. *)
Definition hex_digit (d : N) : ascii :=
  nth (N.to_nat d) (list_ascii_of_string "0123456789ABCDEF") "?"%char.

(** The characters [sprintf(p, "%02X ", b)] stores for a [uint8_t] [b]:
    two digits, a space and the terminating NUL.  The call returns 3. *)
Definition fmt_02X_sp (b : byte) : list ascii :=
  [hex_digit (u8 b / 16); hex_digit (u8 b mod 16); " "%char; NUL].

Definition sprintf_02X_sp (buf : list ascii) (p : nat) (b : byte)
  : option (list ascii * nat) :=
  buf' ← poke_all buf p (fmt_02X_sp b); Some (buf', 3%nat).

(** *** [String::toInt] and [String::toCharArray] of the Arduino core *)

Definition isspace (c : ascii) : bool :=
  let n := N_of_ascii c in ((9 <=? n) && (n <=? 13))%N || (n =? 32)%N.

Definition digit_of (c : ascii) : option Z :=
  let n := N_of_ascii c in
  if ((48 <=? n) && (n <=? 57))%N then Some (Z.of_N n - 48) else None.

Fixpoint skip_spaces (s : list ascii) : list ascii :=
  match s with
  | c :: rest => if isspace c then skip_spaces rest else s
  | [] => []
  end.

(** The value of the longest prefix of decimal digits, [acc] being the
    value read so far. *)
Fixpoint read_digits (s : list ascii) (acc : Z) : Z :=
  match s with
  | c :: rest =>
      match digit_of c with
      | Some d => read_digits rest (10 * acc + d)
      | None => acc
      end
  | [] => acc
  end.

Definition clamp_long (z : Z) : Z := Z.max LONG_MIN (Z.min LONG_MAX z).

(** [atol]: optional white space, optional sign, decimal digits; it stops
    at the first other character (the NUL included) and yields 0 when
    there is no digit to convert.  Out-of-range values saturate, as
    [strtol] does. *)
Definition atol (s : list ascii) : Z :=
  match skip_spaces s with
  | c :: rest =>
      if Ascii.eqb c "-" then clamp_long (- read_digits rest 0)
      else if Ascii.eqb c "+" then clamp_long (read_digits rest 0)
      else clamp_long (read_digits (c :: rest) 0)
  | [] => 0
  end.

(** [String::toInt()] returns [atol] of the string's buffer. *)
Definition toInt (s : string) : Z := atol (list_ascii_of_string s).

(** The characters of [s] before its first NUL (what a C routine sees). *)
Fixpoint until_nul (s : list ascii) : list ascii :=
  match s with
  | c :: rest => if Ascii.eqb c NUL then [] else c :: until_nul rest
  | [] => []
  end.

(** [s.toCharArray(buf, bufsize)] for [bufsize > 0], as every call in the
    sketches has it: [strncpy] of at most [bufsize - 1] characters followed
    by a terminating NUL.  The result is the C string the array holds
    afterwards. *)
Definition toCharArray (s : string) (bufsize : nat) : string :=
  string_of_list_ascii (until_nul (take (bufsize - 1) (list_ascii_of_string s))).

End Platform.

(** ** What both sketches share: configuration, the NVS store, the effects *)

Module Runtime.
Import Platform.

(** The section "CONFIG (from NVS)" of the globals.  A [char] array is
    represented by the C string it holds. *)
Record Config := mkConfig {
  cfgSSID : string;        (* char[33] *)
  cfgPass : string;        (* char[65] *)
  cfgMqttServer : string;  (* char[65] *)
  cfgMqttPort : Z;         (* uint16_t *)
  cfgMqttTopic : string;   (* char[65] *)
  cfgMqttUser : string;    (* char[33] *)
  cfgMqttPass : string     (* char[65] *)
}.

Definition set_cfgSSID v c := mkConfig v (cfgPass c) (cfgMqttServer c)
  (cfgMqttPort c) (cfgMqttTopic c) (cfgMqttUser c) (cfgMqttPass c).
Definition set_cfgPass v c := mkConfig (cfgSSID c) v (cfgMqttServer c)
  (cfgMqttPort c) (cfgMqttTopic c) (cfgMqttUser c) (cfgMqttPass c).
Definition set_cfgMqttServer v c := mkConfig (cfgSSID c) (cfgPass c) v
  (cfgMqttPort c) (cfgMqttTopic c) (cfgMqttUser c) (cfgMqttPass c).
Definition set_cfgMqttPort v c := mkConfig (cfgSSID c) (cfgPass c)
  (cfgMqttServer c) v (cfgMqttTopic c) (cfgMqttUser c) (cfgMqttPass c).
Definition set_cfgMqttTopic v c := mkConfig (cfgSSID c) (cfgPass c)
  (cfgMqttServer c) (cfgMqttPort c) v (cfgMqttUser c) (cfgMqttPass c).
Definition set_cfgMqttUser v c := mkConfig (cfgSSID c) (cfgPass c)
  (cfgMqttServer c) (cfgMqttPort c) (cfgMqttTopic c) v (cfgMqttPass c).
Definition set_cfgMqttPass v c := mkConfig (cfgSSID c) (cfgPass c)
  (cfgMqttServer c) (cfgMqttPort c) (cfgMqttTopic c) (cfgMqttUser c) v.

(** [s[0] == '\0'] on a C string. *)
Definition is_empty (s : string) : bool :=
  match s with EmptyString => true | String _ _ => false end.

(** Values kept by [Preferences] (one namespace per device). *)
Inductive NvsVal := NvsStr (s : string) | NvsU16 (n : Z).

(** An HTTP request as the [WebServer] hands it to a handler. *)
Inductive Method := GET | POST | OTHER.
Definition is_post (m : Method) : bool :=
  match m with POST => true | _ => false end.
Record Request := mkRequest {
  method : Method;
  uri : string;
  args : list (string * string)
}.

(** [server.hasArg(name)] and [server.arg(name)]: the first argument
    of that name, the empty string when there is none. *)
Definition hasArg (r : Request) (name : string) : bool :=
  bool_decide (is_Some (list_find (λ kv, kv.1 = name) (args r))).
Definition arg (r : Request) (name : string) : string :=
  match list_find (λ kv, kv.1 = name) (args r) with
  | Some (_, kv) => kv.2
  | None => EmptyString
  end.

Inductive Page := Dashboard | ConfigForm (c : Config) | Saved | Rebooting.

(** The fields of the status JSON that come from the sketch's own state;
    [hex_ascii] is present in the receiver's answer only. *)
Record Status := mkStatus {
  st_count : Z;
  st_spi : string;
  st_mqtt : bool;
  st_uptime : Z;
  st_hex_ascii : option (list ascii * list ascii)
}.

(** What a published message is built from; the JSON text [snprintf]
    makes of it, cut to the size of its buffer, is not modelled. *)
Inductive Publication :=
| PubTx (count : Z)
| PubRx (count : Z) (hex ascii : list ascii).

(** Calls into the hardware and the libraries, in the order made.
    [Serial] output and [delay] are not recorded. *)
Inductive Event :=
| DigitalWrite (pin : Z) (high : bool)
| SpiBeginTransaction
| SpiTransfer (mosi miso : byte)
| SpiEndTransaction
| OtaHandle
| MqttLoop
| MqttSetServer (host : string) (port : Z)
| MqttConnect (client : string) (cred : option (string * string))
| MqttPublish (topic : string) (p : Publication)
| WifiBegin (ssid pass : string)
| WifiSoftAP
| HttpPage (p : Page)
| HttpStatus (s : Status).

(** The whole device: configuration, the sketch's other globals [V], the
    non-volatile store and the record of calls made since power-on. *)
Record Machine (V : Type) := mkMachine {
  cfg : Config;
  vars : V;
  nvs : gmap string NvsVal;
  trace : list Event
}.
Arguments mkMachine {V}.
Arguments cfg {V}.
Arguments vars {V}.
Arguments nvs {V}.
Arguments trace {V}.

(** How a computation ends: it returns, it calls [ESP.restart()] (which
    does not return), or it stores outside an array. *)
Inductive Outcome (S A : Type) :=
| Done (a : A) (s : S)
| Restarted (s : S)
| Fault.
Arguments Done {S A}.
Arguments Restarted {S A}.
Arguments Fault {S A}.

Definition M (S A : Type) : Type := S → Outcome S A.

#[global] Instance M_ret {S} : MRet (M S) := λ A a s, Done a s.
#[global] Instance M_bind {S} : MBind (M S) := λ A B f m s,
  match m s with
  | Done a s' => f a s'
  | Restarted s' => Restarted s'
  | Fault => Fault
  end.

Definition gets {S A} (f : S → A) : M S A := λ s, Done (f s) s.
Definition modify {S} (f : S → S) : M S unit := λ s, Done tt (f s).
Definition restart {S A} : M S A := λ s, Restarted s.
Definition checked {S A} (o : option A) : M S A :=
  λ s, match o with Some a => Done a s | None => Fault end.
Definition when {S} (b : bool) (m : M S unit) : M S unit :=
  if b then m else mret tt.

(** [for (i = from; <count more iterations>; i++) l = body(i, l);] with the
    loop's local variables [l] threaded through. *)
Fixpoint for_loop {St L} (from count : nat) (body : nat → L → M St L) (l : L)
  : M St L :=
  match count with
  | O => mret l
  | S count' => l' ← body from l; for_loop (S from) count' body l'
  end.

(** [prefs.getString(key, default)] and [prefs.getUShort(key, default)]. *)
Definition getString (n : gmap string NvsVal) (key def : string) : string :=
  match n !! key with Some (NvsStr s) => s | _ => def end.
Definition getUShort (n : gmap string NvsVal) (key : string) (def : Z) : Z :=
  match n !! key with Some (NvsU16 v) => v | _ => def end.

(** What one call of [loop()] observes of the outside world, one field
    per place in the source where it is read.  The [_t_] fields are the
    uptime in milliseconds at the corresponding call of [millis()]. *)
Record Obs := mkObs {
  pending : option Request;  (* the request server.handleClient() serves *)
  status_mqtt_up : bool;     (* mqtt.connected() in handleStatus *)
  status_t : Z;              (* millis() in handleStatus *)
  loop_mqtt_up : bool;       (* mqtt.connected() in loop *)
  rc_mqtt_up : bool;         (* mqtt.connected() in mqttReconnect *)
  rc_t_check : Z;            (* millis() in the backoff test *)
  rc_t_mark : Z;             (* millis() stored in lastMqttReconnect *)
  rc_connect_ok : bool;      (* what mqtt.connect(...) returns *)
  bus_t_check : Z;           (* millis() in the interval test of loop *)
  bus_t_mark : Z;            (* millis() stored in lastTx / lastRx *)
  miso : nat → byte;         (* what the i-th hspi.transfer returns *)
  led_t_arm : Z;             (* millis() when the LED is switched on *)
  pub_mqtt_up : bool;        (* mqtt.connected() before publishing *)
  led_t_check : Z;           (* millis() in the LED-off test *)
  ap_t_check : Z             (* millis() in the AP timeout test *)
}.

(** What [setup()] observes. *)
Record Boot := mkBoot {
  wifi_joined : bool;        (* WiFi.status() == WL_CONNECTED after the wait *)
  ap_t_start : Z             (* millis() in startAP *)
}.

(** The state a computation ends in, whether it returned or restarted. *)
Definition final {St A} (out : Outcome St A) : option St :=
  match out with
  | Done _ s => Some s
  | Restarted s => Some s
  | Fault => None
  end.

(** Reading a trace: how many bus transactions were opened and how many
    times [mqtt.connect] was called. *)
Definition is_bus_transaction (e : Event) : bool :=
  match e with SpiBeginTransaction => true | _ => false end.
Definition is_connect (e : Event) : bool :=
  match e with MqttConnect _ _ => true | _ => false end.
Fixpoint occurrences (f : Event → bool) (tr : list Event) : nat :=
  match tr with
  | [] => 0
  | e :: rest => (if f e then 1 else 0) + occurrences f rest
  end.
Definition bus_transactions (tr : list Event) : nat :=
  occurrences is_bus_transaction tr.
Definition connect_attempts (tr : list Event) : nat :=
  occurrences is_connect tr.

(** The pending request is one whose handler ends in [ESP.restart()]:
    a POST to /save, or /reboot. *)
Definition restart_requested (o : Obs) : bool :=
  match pending o with
  | Some r =>
      (String.eqb (uri r) "/save" && is_post (method r))
      || String.eqb (uri r) "/reboot"
  | None => false
  end.

Section Generic.
Context {V : Type}.

Definition with_cfg (f : Config → Config) : M (Machine V) unit :=
  modify (λ m, mkMachine (f (cfg m)) (vars m) (nvs m) (trace m)).
Definition with_vars (f : V → V) : M (Machine V) unit :=
  modify (λ m, mkMachine (cfg m) (f (vars m)) (nvs m) (trace m)).
Definition with_nvs (f : gmap string NvsVal → gmap string NvsVal)
  : M (Machine V) unit :=
  modify (λ m, mkMachine (cfg m) (vars m) (f (nvs m)) (trace m)).
Definition emit (e : Event) : M (Machine V) unit :=
  modify (λ m, mkMachine (cfg m) (vars m) (nvs m) (trace m ++ [e])).
Definition config : M (Machine V) Config := gets cfg.
Definition var {A} (f : V → A) : M (Machine V) A := gets (λ m, f (vars m)).

(** [saveConfig()]. *)
Definition saveConfig : M (Machine V) unit :=
  c ← config;
  with_nvs (λ n,
    <["mqttPass" := NvsStr (cfgMqttPass c)]>
    (<["mqttUser" := NvsStr (cfgMqttUser c)]>
    (<["mqttTopic" := NvsStr (cfgMqttTopic c)]>
    (<["mqttPort" := NvsU16 (cfgMqttPort c)]>
    (<["mqttSrv" := NvsStr (cfgMqttServer c)]>
    (<["pass" := NvsStr (cfgPass c)]>
    (<["ssid" := NvsStr (cfgSSID c)]> n))))))).

(** [handleSave()], the same in both sketches.  The assignment to the
    [uint16_t] port keeps the low 16 bits of the [long]. *)
Definition handleSave (r : Request) : M (Machine V) unit :=
  when (hasArg r "ssid") (with_cfg (set_cfgSSID (toCharArray (arg r "ssid") 33)));;
  when (hasArg r "pass") (with_cfg (set_cfgPass (toCharArray (arg r "pass") 65)));;
  when (hasArg r "ms") (with_cfg (set_cfgMqttServer (toCharArray (arg r "ms") 65)));;
  when (hasArg r "mp") (with_cfg (set_cfgMqttPort (wrap16 (toInt (arg r "mp")))));;
  when (hasArg r "mt") (with_cfg (set_cfgMqttTopic (toCharArray (arg r "mt") 65)));;
  when (hasArg r "mu") (with_cfg (set_cfgMqttUser (toCharArray (arg r "mu") 33)));;
  when (hasArg r "mw") (with_cfg (set_cfgMqttPass (toCharArray (arg r "mw") 65)));;
  saveConfig;;
  emit (HttpPage Saved);;
  restart.

(** [handleReboot()]. *)
Definition handleReboot : M (Machine V) unit :=
  emit (HttpPage Rebooting);;
  restart.

(** [handleConfig()]. *)
Definition handleConfig : M (Machine V) unit :=
  c ← config;
  emit (HttpPage (ConfigForm c)).
End Generic.

End Runtime.

(** ** The sender: Demo_TX_Hallow_V1 *)

Module TX.
Import Platform Runtime.

Definition LED_PIN : Z := 8.
Definition SPI_CS : Z := 2.
Definition HIGH : bool := true.
Definition LOW : bool := false.

Definition TX_INTERVAL : Z := 2000.
Definition LED_FLASH_MS : Z := 50.
Definition MQTT_RECONNECT_MS : Z := 5000.
Definition AP_TIMEOUT_MS : Z := 300000.

Definition HELLO_PAYLOAD : list byte := list_byte_of_string "HELLO".
Definition HELLO_LEN : nat := 5.

(** The section "STATE" of the globals. *)
Record Vars := mkVars {
  apMode : bool;
  wifiConnected : bool;
  mqttConnected : bool;
  txCount : Z;            (* unsigned long *)
  lastTx : Z;             (* unsigned long *)
  lastLedOff : Z;         (* unsigned long *)
  lastMqttReconnect : Z;  (* unsigned long *)
  apStartTime : Z;        (* unsigned long *)
  ledOn : bool;
  lastSpiResult : Z       (* int: -1=not yet, 0=ok, 1=fail *)
}.

Definition set_apMode x v := mkVars x (wifiConnected v) (mqttConnected v)
  (txCount v) (lastTx v) (lastLedOff v) (lastMqttReconnect v) (apStartTime v)
  (ledOn v) (lastSpiResult v).
Definition set_wifiConnected x v := mkVars (apMode v) x (mqttConnected v)
  (txCount v) (lastTx v) (lastLedOff v) (lastMqttReconnect v) (apStartTime v)
  (ledOn v) (lastSpiResult v).
Definition set_mqttConnected x v := mkVars (apMode v) (wifiConnected v) x
  (txCount v) (lastTx v) (lastLedOff v) (lastMqttReconnect v) (apStartTime v)
  (ledOn v) (lastSpiResult v).
Definition set_txCount x v := mkVars (apMode v) (wifiConnected v)
  (mqttConnected v) x (lastTx v) (lastLedOff v) (lastMqttReconnect v)
  (apStartTime v) (ledOn v) (lastSpiResult v).
Definition set_lastTx x v := mkVars (apMode v) (wifiConnected v)
  (mqttConnected v) (txCount v) x (lastLedOff v) (lastMqttReconnect v)
  (apStartTime v) (ledOn v) (lastSpiResult v).
Definition set_lastLedOff x v := mkVars (apMode v) (wifiConnected v)
  (mqttConnected v) (txCount v) (lastTx v) x (lastMqttReconnect v)
  (apStartTime v) (ledOn v) (lastSpiResult v).
Definition set_lastMqttReconnect x v := mkVars (apMode v) (wifiConnected v)
  (mqttConnected v) (txCount v) (lastTx v) (lastLedOff v) x (apStartTime v)
  (ledOn v) (lastSpiResult v).
Definition set_apStartTime x v := mkVars (apMode v) (wifiConnected v)
  (mqttConnected v) (txCount v) (lastTx v) (lastLedOff v)
  (lastMqttReconnect v) x (ledOn v) (lastSpiResult v).
Definition set_ledOn x v := mkVars (apMode v) (wifiConnected v)
  (mqttConnected v) (txCount v) (lastTx v) (lastLedOff v)
  (lastMqttReconnect v) (apStartTime v) x (lastSpiResult v).
Definition set_lastSpiResult x v := mkVars (apMode v) (wifiConnected v)
  (mqttConnected v) (txCount v) (lastTx v) (lastLedOff v)
  (lastMqttReconnect v) (apStartTime v) (ledOn v) x.

Abbreviation Device := (Machine Vars).

(** The globals as their initialisers leave them, over the NVS content
    that survived the last power cycle. *)
Definition power_on (store : gmap string NvsVal) : Device :=
  mkMachine
    (mkConfig "" "" "" 1883 "halow/tx" "" "")
    (mkVars false false false 0 0 0 0 0 false (-1))
    store [].

(** [loadConfig()]. *)
Definition loadConfig : M Device unit :=
  n ← gets nvs;
  with_cfg (set_cfgSSID (toCharArray (getString n "ssid" "") 33));;
  with_cfg (set_cfgPass (toCharArray (getString n "pass" "") 65));;
  with_cfg (set_cfgMqttServer (toCharArray (getString n "mqttSrv" "") 65));;
  with_cfg (set_cfgMqttPort (getUShort n "mqttPort" 1883));;
  with_cfg (set_cfgMqttTopic (toCharArray (getString n "mqttTopic" "halow/tx") 65));;
  with_cfg (set_cfgMqttUser (toCharArray (getString n "mqttUser" "") 33));;
  with_cfg (set_cfgMqttPass (toCharArray (getString n "mqttPass" "") 65)).

(** [startAP()]. *)
Definition startAP (b : Boot) : M Device unit :=
  with_vars (set_apMode true);;
  with_vars (set_apStartTime (millis (ap_t_start b)));;
  emit WifiSoftAP.

(** [connectWiFi()].  The bounded wait only lets time pass; what counts
    is the status read after it. *)
Definition connectWiFi (b : Boot) : M Device unit :=
  c ← config;
  emit (WifiBegin (cfgSSID c) (cfgPass c));;
  if wifi_joined b then with_vars (set_wifiConnected true)
  else startAP b.

(** [handleRoot()]. *)
Definition handleRoot : M Device unit :=
  ap ← var apMode;
  if (ap : bool) then handleConfig
  else emit (HttpPage Dashboard).

(** The [spi] field of the status JSON. *)
Definition spiStr (r : Z) : string :=
  if r =? 0 then "OK" else if r <? 0 then "IDLE" else "FAIL".

(** [handleStatus()]. *)
Definition handleStatus (o : Obs) : M Device unit :=
  n ← var txCount;
  r ← var lastSpiResult;
  emit (HttpStatus
          (mkStatus n (spiStr r) (status_mqtt_up o) (millis (status_t o)) None)).

(** The routes registered by [setupWebServer()], as
    [server.handleClient()] dispatches the pending request. *)
Definition handleClient (o : Obs) : M Device unit :=
  match pending o with
  | None => mret tt
  | Some r =>
      if String.eqb (uri r) "/" then handleRoot
      else if String.eqb (uri r) "/config" then handleConfig
      else if String.eqb (uri r) "/save" && is_post (method r)
           then handleSave r
      else if String.eqb (uri r) "/api/status" then handleStatus o
      else if String.eqb (uri r) "/reboot" then handleReboot
      else handleRoot
  end.

(** [setupMQTT()]. *)
Definition setupMQTT : M Device unit :=
  c ← config;
  if is_empty (cfgMqttServer c) then mret tt
  else emit (MqttSetServer (cfgMqttServer c) (cfgMqttPort c)).

(** [mqttReconnect()]. *)
Definition mqttReconnect (o : Obs) : M Device unit :=
  c ← config;
  if is_empty (cfgMqttServer c) then mret tt else
  if rc_mqtt_up o then mret tt else
  last ← var lastMqttReconnect;
  if u32_sub (millis (rc_t_check o)) last <? MQTT_RECONNECT_MS then mret tt else
  with_vars (set_lastMqttReconnect (millis (rc_t_mark o)));;
  (if negb (is_empty (cfgMqttUser c))
   then emit (MqttConnect "Hallow_1" (Some (cfgMqttUser c, cfgMqttPass c)))
   else emit (MqttConnect "Hallow_1" None));;
  if rc_connect_ok o then with_vars (set_mqttConnected true)
  else with_vars (set_mqttConnected false).

(** [spiTransmit()]. *)
Definition spiTransmit (o : Obs) : M Device unit :=
  emit (DigitalWrite SPI_CS LOW);;
  emit SpiBeginTransaction;;
  for_loop 0 HELLO_LEN
    (λ i _, emit (SpiTransfer (nth i HELLO_PAYLOAD "000"%byte) (miso o i))) tt;;
  emit SpiEndTransaction;;
  emit (DigitalWrite SPI_CS HIGH);;
  with_vars (set_lastSpiResult 0);;
  with_vars (λ v, set_txCount (u32_add (txCount v) 1) v);;
  emit (DigitalWrite LED_PIN LOW);;
  with_vars (set_ledOn true);;
  with_vars (set_lastLedOff (u32_add (millis (led_t_arm o)) LED_FLASH_MS));;
  if pub_mqtt_up o then
    c ← config;
    n ← var txCount;
    emit (MqttPublish (cfgMqttTopic c) (PubTx n))
  else mret tt.

(** [setup()].  [setupOTA()] and [setupWebServer()] only register
    callbacks and routes (the routes are those of [handleClient]). *)
Definition setup (b : Boot) : M Device unit :=
  emit (DigitalWrite LED_PIN HIGH);;
  emit (DigitalWrite SPI_CS HIGH);;
  loadConfig;;
  c ← config;
  (if negb (is_empty (cfgSSID c)) then connectWiFi b else startAP b);;
  wc ← var wifiConnected;
  when wc setupMQTT.

(** [loop()], one definition per commented section of its body. *)
Definition loop_ota : M Device unit :=
  wc ← var wifiConnected;
  when wc (emit OtaHandle).

Definition loop_mqtt (o : Obs) : M Device unit :=
  wc ← var wifiConnected;
  when wc (when (negb (loop_mqtt_up o)) (mqttReconnect o);; emit MqttLoop).

Definition loop_bus (o : Obs) : M Device unit :=
  last ← var lastTx;
  when (TX_INTERVAL <=? u32_sub (millis (bus_t_check o)) last)
    (with_vars (set_lastTx (millis (bus_t_mark o)));; spiTransmit o).

Definition loop_led (o : Obs) : M Device unit :=
  on ← var ledOn;
  off ← var lastLedOff;
  when (on && (off <=? millis (led_t_check o)))
    (emit (DigitalWrite LED_PIN HIGH);; with_vars (set_ledOn false)).

Definition loop_ap (o : Obs) : M Device unit :=
  ap ← var apMode;
  start ← var apStartTime;
  when (ap && (AP_TIMEOUT_MS <? u32_sub (millis (ap_t_check o)) start)) restart.

Definition loop (o : Obs) : M Device unit :=
  loop_ota;;
  handleClient o;;
  loop_mqtt o;;
  loop_bus o;;
  loop_led o;;
  loop_ap o.

(** The states the device passes through: after [setup()] on any NVS
    content (every restart begins there), after each call of [loop()],
    and the state in which a call of [loop()] restarts the device. *)
Inductive reachable : Device → Prop :=
| reach_setup store b s :
    setup b (power_on store) = Done tt s → reachable s
| reach_loop o s s' :
    reachable s → loop o s = Done tt s' → reachable s'
| reach_restart o s s' :
    reachable s → loop o s = Restarted s' → reachable s'.

End TX.

(** ** The receiver: Demo_RX_Hallow_V1 *)

Module RX.
Import Platform Runtime.

Definition LED_PIN : Z := 8.
Definition SPI_CS : Z := 2.
Definition HIGH : bool := true.
Definition LOW : bool := false.

Definition RX_INTERVAL : Z := 2000.
Definition LED_FLASH_MS : Z := 80.
Definition MQTT_RECONNECT_MS : Z := 5000.
Definition AP_TIMEOUT_MS : Z := 300000.

Definition RX_BUF_LEN : nat := 32.

(** The sections "RX BUFFER" and "STATE" of the globals. *)
Record Vars := mkVars {
  rxBuf : list byte;        (* uint8_t[RX_BUF_LEN] *)
  rxLen : nat;              (* uint8_t *)
  apMode : bool;
  wifiConnected : bool;
  rxCount : Z;              (* unsigned long *)
  lastRx : Z;               (* unsigned long *)
  lastLedOff : Z;           (* unsigned long *)
  lastMqttReconnect : Z;    (* unsigned long *)
  apStartTime : Z;          (* unsigned long *)
  ledOn : bool;
  lastSpiResult : Z;        (* int: -1=not yet, 0=ok(data), 1=ok(empty), 2=fail *)
  lastRxData : list ascii;  (* char[RX_BUF_LEN * 3 + 1] *)
  lastRxAscii : list ascii  (* char[RX_BUF_LEN + 1] *)
}.

Definition set_rxBuf x v := mkVars x (rxLen v) (apMode v) (wifiConnected v)
  (rxCount v) (lastRx v) (lastLedOff v) (lastMqttReconnect v) (apStartTime v)
  (ledOn v) (lastSpiResult v) (lastRxData v) (lastRxAscii v).
Definition set_rxLen x v := mkVars (rxBuf v) x (apMode v) (wifiConnected v)
  (rxCount v) (lastRx v) (lastLedOff v) (lastMqttReconnect v) (apStartTime v)
  (ledOn v) (lastSpiResult v) (lastRxData v) (lastRxAscii v).
Definition set_apMode x v := mkVars (rxBuf v) (rxLen v) x (wifiConnected v)
  (rxCount v) (lastRx v) (lastLedOff v) (lastMqttReconnect v) (apStartTime v)
  (ledOn v) (lastSpiResult v) (lastRxData v) (lastRxAscii v).
Definition set_wifiConnected x v := mkVars (rxBuf v) (rxLen v) (apMode v) x
  (rxCount v) (lastRx v) (lastLedOff v) (lastMqttReconnect v) (apStartTime v)
  (ledOn v) (lastSpiResult v) (lastRxData v) (lastRxAscii v).
Definition set_rxCount x v := mkVars (rxBuf v) (rxLen v) (apMode v)
  (wifiConnected v) x (lastRx v) (lastLedOff v) (lastMqttReconnect v)
  (apStartTime v) (ledOn v) (lastSpiResult v) (lastRxData v) (lastRxAscii v).
Definition set_lastRx x v := mkVars (rxBuf v) (rxLen v) (apMode v)
  (wifiConnected v) (rxCount v) x (lastLedOff v) (lastMqttReconnect v)
  (apStartTime v) (ledOn v) (lastSpiResult v) (lastRxData v) (lastRxAscii v).
Definition set_lastLedOff x v := mkVars (rxBuf v) (rxLen v) (apMode v)
  (wifiConnected v) (rxCount v) (lastRx v) x (lastMqttReconnect v)
  (apStartTime v) (ledOn v) (lastSpiResult v) (lastRxData v) (lastRxAscii v).
Definition set_lastMqttReconnect x v := mkVars (rxBuf v) (rxLen v) (apMode v)
  (wifiConnected v) (rxCount v) (lastRx v) (lastLedOff v) x (apStartTime v)
  (ledOn v) (lastSpiResult v) (lastRxData v) (lastRxAscii v).
Definition set_apStartTime x v := mkVars (rxBuf v) (rxLen v) (apMode v)
  (wifiConnected v) (rxCount v) (lastRx v) (lastLedOff v)
  (lastMqttReconnect v) x (ledOn v) (lastSpiResult v) (lastRxData v)
  (lastRxAscii v).
Definition set_ledOn x v := mkVars (rxBuf v) (rxLen v) (apMode v)
  (wifiConnected v) (rxCount v) (lastRx v) (lastLedOff v)
  (lastMqttReconnect v) (apStartTime v) x (lastSpiResult v) (lastRxData v)
  (lastRxAscii v).
Definition set_lastSpiResult x v := mkVars (rxBuf v) (rxLen v) (apMode v)
  (wifiConnected v) (rxCount v) (lastRx v) (lastLedOff v)
  (lastMqttReconnect v) (apStartTime v) (ledOn v) x (lastRxData v)
  (lastRxAscii v).
Definition set_lastRxData x v := mkVars (rxBuf v) (rxLen v) (apMode v)
  (wifiConnected v) (rxCount v) (lastRx v) (lastLedOff v)
  (lastMqttReconnect v) (apStartTime v) (ledOn v) (lastSpiResult v) x
  (lastRxAscii v).
Definition set_lastRxAscii x v := mkVars (rxBuf v) (rxLen v) (apMode v)
  (wifiConnected v) (rxCount v) (lastRx v) (lastLedOff v)
  (lastMqttReconnect v) (apStartTime v) (ledOn v) (lastSpiResult v)
  (lastRxData v) x.

Abbreviation Device := (Machine Vars).

(** The globals as their initialisers leave them (statics are zeroed),
    over the NVS content that survived the last power cycle. *)
Definition power_on (store : gmap string NvsVal) : Device :=
  mkMachine
    (mkConfig "" "" "" 1883 "halow/rx" "" "")
    (mkVars (replicate RX_BUF_LEN "000"%byte) 0 false false 0 0 0 0 0 false (-1)
       (replicate (RX_BUF_LEN * 3 + 1) NUL) (replicate (RX_BUF_LEN + 1) NUL))
    store [].

(** [prefs.getString(key, buf, maxLen)]: the array keeps its content when
    the key is absent or the stored string with its NUL does not fit. *)
Definition getString_into (n : gmap string NvsVal) (key : string)
    (maxLen : nat) (cur : string) : string :=
  match n !! key with
  | Some (NvsStr s) => if (String.length s + 1 <=? maxLen)%nat then s else cur
  | _ => cur
  end.

(** [loadConfig()]. *)
Definition loadConfig : M Device unit :=
  n ← gets nvs;
  with_cfg (λ c, set_cfgSSID (getString_into n "ssid" 33 (cfgSSID c)) c);;
  with_cfg (λ c, set_cfgPass (getString_into n "pass" 65 (cfgPass c)) c);;
  with_cfg (λ c, set_cfgMqttServer (getString_into n "mqttSrv" 65 (cfgMqttServer c)) c);;
  with_cfg (set_cfgMqttPort (getUShort n "mqttPort" 1883));;
  with_cfg (λ c, set_cfgMqttTopic (getString_into n "mqttTopic" 65 (cfgMqttTopic c)) c);;
  c ← config;
  when (is_empty (cfgMqttTopic c)) (with_cfg (set_cfgMqttTopic "halow/rx"));;
  with_cfg (λ c, set_cfgMqttUser (getString_into n "mqttUser" 33 (cfgMqttUser c)) c);;
  with_cfg (λ c, set_cfgMqttPass (getString_into n "mqttPass" 65 (cfgMqttPass c)) c).

(** [startAP()]. *)
Definition startAP (b : Boot) : M Device unit :=
  with_vars (set_apMode true);;
  with_vars (set_apStartTime (millis (ap_t_start b)));;
  emit WifiSoftAP.

(** [connectWiFi()].  The bounded wait only lets time pass; what counts
    is the status read after it. *)
Definition connectWiFi (b : Boot) : M Device unit :=
  c ← config;
  emit (WifiBegin (cfgSSID c) (cfgPass c));;
  if wifi_joined b then with_vars (set_wifiConnected true)
  else startAP b.

(** [handleRoot()]. *)
Definition handleRoot : M Device unit :=
  ap ← var apMode;
  if (ap : bool) then handleConfig
  else emit (HttpPage Dashboard).

(** The [switch] of [handleStatus()] that names the [spi] field. *)
Definition spiStr (r : Z) : string :=
  if r =? 0 then "DATA"
  else if r =? 1 then "EMPTY"
  else if r =? 2 then "FAIL"
  else "IDLE".

(** [handleStatus()].  [%s] reads each display array as a C string. *)
Definition handleStatus (o : Obs) : M Device unit :=
  n ← var rxCount;
  r ← var lastSpiResult;
  d ← var lastRxData;
  a ← var lastRxAscii;
  hex ← checked (c_str d);
  asc ← checked (c_str a);
  emit (HttpStatus
          (mkStatus n (spiStr r) (status_mqtt_up o) (millis (status_t o))
             (Some (hex, asc)))).

(** The routes registered by [setupWebServer()], as
    [server.handleClient()] dispatches the pending request. *)
Definition handleClient (o : Obs) : M Device unit :=
  match pending o with
  | None => mret tt
  | Some r =>
      if String.eqb (uri r) "/" then handleRoot
      else if String.eqb (uri r) "/config" then handleConfig
      else if String.eqb (uri r) "/save" && is_post (method r)
           then handleSave r
      else if String.eqb (uri r) "/api/status" then handleStatus o
      else if String.eqb (uri r) "/reboot" then handleReboot
      else handleRoot
  end.

(** [setupMQTT()]. *)
Definition setupMQTT : M Device unit :=
  c ← config;
  if is_empty (cfgMqttServer c) then mret tt
  else emit (MqttSetServer (cfgMqttServer c) (cfgMqttPort c)).

(** [mqttReconnect()]. *)
Definition mqttReconnect (o : Obs) : M Device unit :=
  c ← config;
  if is_empty (cfgMqttServer c) then mret tt else
  if rc_mqtt_up o then mret tt else
  last ← var lastMqttReconnect;
  if u32_sub (millis (rc_t_check o)) last <? MQTT_RECONNECT_MS then mret tt else
  with_vars (set_lastMqttReconnect (millis (rc_t_mark o)));;
  (if negb (is_empty (cfgMqttUser c))
   then emit (MqttConnect "Hallow_2" (Some (cfgMqttUser c, cfgMqttPass c)))
   else emit (MqttConnect "Hallow_2" None)).

(** [b != 0x00 && b != 0xFF]. *)
Definition is_data (b : byte) : bool :=
  negb (Byte.eqb b "000"%byte) && negb (Byte.eqb b "255"%byte).

(** [(b >= 0x20 && b <= 0x7E) ? (char)b : '.']. *)
Definition printable_or_dot (b : byte) : ascii :=
  if ((32 <=? u8 b) && (u8 b <=? 126))%N then to_char b else "."%char.

(** A checked update of a display array. *)
Definition upd_lastRxData (f : list ascii → option (list ascii)) : M Device unit :=
  d ← var lastRxData; d' ← checked (f d); with_vars (set_lastRxData d').
Definition upd_lastRxAscii (f : list ascii → option (list ascii)) : M Device unit :=
  a ← var lastRxAscii; a' ← checked (f a); with_vars (set_lastRxAscii a').
(** [rxBuf[i]]. *)
Definition rxBuf_at (i : nat) : M Device byte :=
  buf ← var rxBuf; checked (buf !! i).

(** [spiReceive()].  The pointers [p] and [a] are offsets into
    [lastRxData] and [lastRxAscii], kept in the pair [pa]; [memset] leaves
    [rxBuf] with its [RX_BUF_LEN] bytes zeroed, so the stores [rxBuf[i]]
    of the transfer loop are in range. *)
Definition spiReceive (o : Obs) : M Device unit :=
  with_vars (set_rxBuf (replicate RX_BUF_LEN "000"%byte));;
  emit (DigitalWrite SPI_CS LOW);;
  emit SpiBeginTransaction;;
  for_loop 0 RX_BUF_LEN
    (λ i _,
       emit (SpiTransfer "000"%byte (miso o i));;
       with_vars (λ v, set_rxBuf (<[i := miso o i]> (rxBuf v)) v)) tt;;
  emit SpiEndTransaction;;
  emit (DigitalWrite SPI_CS HIGH);;
  with_vars (set_rxLen 0);;
  hasData ← for_loop 0 RX_BUF_LEN
    (λ i (hasData : bool),
       b ← rxBuf_at i;
       if is_data b then with_vars (set_rxLen ((i + 1) mod 256));; mret true
       else mret hasData) false;
  upd_lastRxData (λ d, poke d 0 NUL);;
  upd_lastRxAscii (λ d, poke d 0 NUL);;
  n ← var rxLen;
  when (hasData && (0 <? n)%nat)
    (pa ← for_loop 0 (n `min` RX_BUF_LEN)
       (λ i (pa : nat * nat),
          b ← rxBuf_at i;
          d ← var lastRxData;
          dk ← checked (sprintf_02X_sp d pa.1 b);
          with_vars (set_lastRxData dk.1);;
          upd_lastRxAscii (λ d, poke d pa.2 (printable_or_dot b));;
          mret ((pa.1 + dk.2)%nat, S pa.2)) (0%nat, 0%nat);
     upd_lastRxAscii (λ d, poke d pa.2 NUL);;
     when (0 <? pa.1)%nat (upd_lastRxData (λ d, poke d (pa.1 - 1) NUL)));;
  if (hasData : bool) then
    with_vars (set_lastSpiResult 0);;
    with_vars (λ v, set_rxCount (u32_add (rxCount v) 1) v);;
    emit (DigitalWrite LED_PIN LOW);;
    with_vars (set_ledOn true);;
    with_vars (set_lastLedOff (u32_add (millis (led_t_arm o)) LED_FLASH_MS));;
    if pub_mqtt_up o then
      c ← config;
      k ← var rxCount;
      d ← var lastRxData;
      a ← var lastRxAscii;
      hex ← checked (c_str d);
      asc ← checked (c_str a);
      emit (MqttPublish (cfgMqttTopic c) (PubRx k hex asc))
    else mret tt
  else
    with_vars (set_lastSpiResult 1).

(** [setup()].  [setupOTA()] and [setupWebServer()] only register
    callbacks and routes (the routes are those of [handleClient]). *)
Definition setup (b : Boot) : M Device unit :=
  emit (DigitalWrite LED_PIN HIGH);;
  emit (DigitalWrite SPI_CS HIGH);;
  upd_lastRxData (λ d, poke d 0 NUL);;
  upd_lastRxAscii (λ d, poke d 0 NUL);;
  loadConfig;;
  c ← config;
  (if negb (is_empty (cfgSSID c)) then connectWiFi b else startAP b);;
  wc ← var wifiConnected;
  when wc setupMQTT.

(** [loop()], one definition per commented section of its body. *)
Definition loop_ota : M Device unit :=
  wc ← var wifiConnected;
  when wc (emit OtaHandle).

Definition loop_mqtt (o : Obs) : M Device unit :=
  wc ← var wifiConnected;
  when wc (when (negb (loop_mqtt_up o)) (mqttReconnect o);; emit MqttLoop).

Definition loop_bus (o : Obs) : M Device unit :=
  last ← var lastRx;
  when (RX_INTERVAL <=? u32_sub (millis (bus_t_check o)) last)
    (with_vars (set_lastRx (millis (bus_t_mark o)));; spiReceive o).

Definition loop_led (o : Obs) : M Device unit :=
  on ← var ledOn;
  off ← var lastLedOff;
  when (on && (off <=? millis (led_t_check o)))
    (emit (DigitalWrite LED_PIN HIGH);; with_vars (set_ledOn false)).

Definition loop_ap (o : Obs) : M Device unit :=
  ap ← var apMode;
  start ← var apStartTime;
  when (ap && (AP_TIMEOUT_MS <? u32_sub (millis (ap_t_check o)) start)) restart.

Definition loop (o : Obs) : M Device unit :=
  loop_ota;;
  handleClient o;;
  loop_mqtt o;;
  loop_bus o;;
  loop_led o;;
  loop_ap o.

(** The states the device passes through: after [setup()] on any NVS
    content (every restart begins there), after each call of [loop()],
    and the state in which a call of [loop()] restarts the device. *)
Inductive reachable : Device → Prop :=
| reach_setup store b s :
    setup b (power_on store) = Done tt s → reachable s
| reach_loop o s s' :
    reachable s → loop o s = Done tt s' → reachable s'
| reach_restart o s s' :
    reachable s → loop o s = Restarted s' → reachable s'.

(** The display arrays have their declared sizes. *)
Definition sized (v : Vars) : Prop :=
  length (lastRxData v) = (RX_BUF_LEN * 3 + 1)%nat ∧
  length (lastRxAscii v) = (RX_BUF_LEN + 1)%nat.

(** The display arrays hold NUL-terminated strings. *)
Definition terminated (v : Vars) : Prop :=
  is_Some (c_str (lastRxData v)) ∧ is_Some (c_str (lastRxAscii v)).

End RX.


(** ** The specification's vocabulary, in its own words *)

Module Spec.
Import Platform Runtime.

#[global] Instance byte_eq_dec : EqDecision byte.
Proof.
  intros x y. destruct (Byte.eqb x y) eqn:E.
  - left. by apply byte_dec_bl.
  - right. by apply Byte.eqb_false.
Defined.

(** A sentinel byte is [0x00] or [0xFF]. *)
Definition sentinel (b : byte) : Prop := b = "000"%byte ∨ b = "255"%byte.

(** The 32 bytes a receiver's exchange clocks in. *)
Definition response (o : Obs) : list byte := map (miso o) (seq 0 32).

(** The classified length: the index of the last byte that is not a
    sentinel, plus one; zero when every byte is a sentinel. *)
Fixpoint classified_length (resp : list byte) : nat :=
  match resp with
  | [] => 0
  | b :: rest =>
      match classified_length rest with
      | O => if decide (sentinel b) then 0 else 1
      | S n => S (S n)
      end
  end.

Definition payload (resp : list byte) : list byte :=
  take (classified_length resp) resp.

(** One uppercase hexadecimal digit: ['0'..'9'] then ['A'..'F']. *)
Definition upper_hex (d : N) : ascii :=
  if (d <? 10)%N then ascii_of_N (48 + d) else ascii_of_N (55 + d).

(** Space-separated two-digit uppercase hexadecimal. *)
Fixpoint hex_field (bytes : list byte) : list ascii :=
  match bytes with
  | [] => []
  | b :: rest =>
      upper_hex (u8 b / 16) :: upper_hex (u8 b mod 16) ::
      match rest with
      | [] => []
      | _ :: _ => " "%char :: hex_field rest
      end
  end.

(** Printable ASCII, every byte outside [0x20..0x7E] replaced by a dot. *)
Definition ascii_field (bytes : list byte) : list ascii :=
  map (λ b, if decide (32 ≤ u8 b ≤ 126)%N then to_char b else "."%char) bytes.

(** A numeric form value is unparsable when, after leading white space
    and an optional sign, it does not start with a decimal digit. *)
Definition unparsable (v : string) : Prop :=
  match skip_spaces (list_ascii_of_string v) with
  | [] => True
  | c :: rest =>
      if decide (c = "-"%char ∨ c = "+"%char)
      then match rest with
           | [] => True
           | d :: _ => digit_of d = None
           end
      else digit_of c = None
  end.

End Spec.

(** ** Concrete inputs *)

Module Examples.
Import Platform Runtime.

(** A quiet call of [loop()] at uptime [t]: no request pending, the MQTT
    link down, every [millis()] of the call reading [t], the bus
    answering [resp]. *)
Definition quiet (t : Z) (resp : nat → byte) : Obs :=
  mkObs None false t false false t t false t t resp t false t t.

(** Responses of the radio module. *)
Definition silence : nat → byte := λ _, "000"%byte.
Definition hello : nat → byte :=
  λ i, nth i (list_byte_of_string "HELLO") "000"%byte.
Definition lone_byte_at_3 : nat → byte :=
  λ i, if (i =? 3)%nat then "A"%byte else "000"%byte.

(** A boot that finds the network, at uptime 600 ms. *)
Definition joined : Boot := mkBoot true 600.
(** A boot that does not, the access point starting at 15600 ms. *)
Definition stranded : Boot := mkBoot false 15600.

(** A store holding a network name (and nothing else). *)
Definition store_with_ssid : gmap string NvsVal :=
  <["ssid" := NvsStr "home"]> ∅.

(** A store that also names a broker. *)
Definition store_with_broker : gmap string NvsVal :=
  <["mqttSrv" := NvsStr "broker.local"]> store_with_ssid.

(** The sender and the receiver after [setup()]. *)
Definition tx_after (b : Boot) (store : gmap string NvsVal) : TX.Device :=
  match TX.setup b (TX.power_on store) with
  | Done _ s => s
  | _ => TX.power_on store
  end.
Definition rx_after (b : Boot) (store : gmap string NvsVal) : RX.Device :=
  match RX.setup b (RX.power_on store) with
  | Done _ s => s
  | _ => RX.power_on store
  end.

(** Ten milliseconds before the millisecond counter wraps. *)
Definition before_wrap : Z := 2 ^ 32 - 10.

(** The sender in Local mode since uptime 0, and a quiet call exactly
    300000 ms later. *)
Definition tx_local_since_0 : TX.Device :=
  mkMachine (mkConfig "" "" "" 1883 "halow/tx" "" "")
    (TX.mkVars true false false 0 300000 0 0 0 false 0) ∅ [].

(** A POST to /save whose port field is not a number. *)
Definition save_bad_port : Request :=
  mkRequest POST "/save" [("ssid", "home"); ("mp", "abc")]%string.

End Examples.

(** ** Text, portal and observations *)

(** ** Formatted text: the printf conversions the sketches use *)

Module Text.
Import Platform Runtime.

(** The characters of a string literal. *)
Definition lit (s : string) : list ascii := list_ascii_of_string s.

(** The double quote, escaped in the format strings of the source. *)
Definition dquote : ascii := "034"%char.

(** The decimal digit of [d], for [0 <= d <= 9]. *)
Definition dec_digit (d : Z) : ascii := ascii_of_N (Z.to_N (48 + d)).

(** The decimal digits of [n], most significant first, put before [acc];
    [fuel] bounds their number. *)
Fixpoint dec_go (fuel : nat) (n : Z) (acc : list ascii) : list ascii :=
  match fuel with
  | O => acc
  | S fuel' =>
      let acc' := dec_digit (n mod 10) :: acc in
      if n / 10 =? 0 then acc' else dec_go fuel' (n / 10) acc'
  end.

(** printf's [%lu] of an [unsigned long] and [%u] of an [unsigned]: both
    are 32 bits wide and print at most ten digits.  [String(n)] of the
    Arduino core prints a non-negative integer the same way. *)
Definition fmt_lu (n : Z) : list ascii := dec_go 10 n [].

(** printf's [%d] of an [int]. *)
Definition fmt_d (z : Z) : list ascii :=
  if z <? 0 then "-"%char :: fmt_lu (- z) else fmt_lu z.

(** The C string [snprintf(buf, size, ...)] leaves in [buf] when the
    formatted text is [text]: its first [size - 1] characters. *)
Definition snprintf (size : nat) (text : list ascii) : list ascii :=
  take (size - 1) text.

(** The three numbers [formatUptime] prints: hours, minutes of the hour,
    seconds of the minute. *)
Definition uptime_fields (ms : Z) : Z * Z * Z :=
  let s := ms / 1000 in
  let m := s / 60 in
  let h := m / 60 in
  (h, m mod 60, s mod 60).

(** The format ["%luh %lum %lus"] of [formatUptime]. *)
Definition uptime_text (ms : Z) : list ascii :=
  let '(h, m, s) := uptime_fields ms in
  fmt_lu h ++ lit "h " ++ fmt_lu m ++ lit "m " ++ fmt_lu s ++ lit "s".

(** Pieces of the JSON format strings: a quoted key with its colon, a
    quoted [%s], and the [%s] of a flag. *)
Definition key (k : string) : list ascii := dquote :: lit k ++ [dquote; ":"%char].
Definition quoted (s : list ascii) : list ascii := dquote :: s ++ [dquote].
Definition json_bool (b : bool) : list ascii :=
  lit (if b then "true" else "false").

End Text.

(** ** The configuration form, the same in both sketches *)

Module Portal.
Import Platform Runtime Text.





End Portal.

(** ** The sender's text: uptime, status answer, published message *)

Module TXWeb.
Import Platform Runtime Text.

(** [formatUptime(ms)]: the text passes through [char buf[16]]. *)
Definition formatUptime (ms : Z) : list ascii := snprintf 16 (uptime_text ms).

(** The format of [handleStatus()], for the status [st]; [rssi] is the
    third and [heap] the last argument of the [snprintf]. *)
Definition status_text (st : Status) (rssi heap : Z) : list ascii :=
  lit "{" ++ key "tx" ++ fmt_lu (st_count st)
  ++ lit "," ++ key "spi" ++ quoted (lit (st_spi st))
  ++ lit "," ++ key "rssi" ++ fmt_d rssi
  ++ lit "," ++ key "mqtt" ++ json_bool (st_mqtt st)
  ++ lit "," ++ key "uptime" ++ quoted (formatUptime (st_uptime st))
  ++ lit "," ++ key "heap" ++ fmt_lu heap ++ lit "}".

(** The body [handleStatus()] sends: the text passes through
    [char buf[256]]. *)
Definition status_body (st : Status) (rssi heap : Z) : list ascii :=
  snprintf 256 (status_text st rssi heap).

(** The format of the message [spiTransmit()] publishes, and the
    message: the text passes through [char buf[48]]. *)
Definition publish_text (count : Z) : list ascii :=
  lit "{" ++ key "tx" ++ fmt_lu count
  ++ lit "," ++ key "msg" ++ quoted (lit "HELLO") ++ lit "}".
Definition publish_body (count : Z) : list ascii :=
  snprintf 48 (publish_text count).

End TXWeb.

(** ** The receiver's text *)

Module RXWeb.
Import Platform Runtime Text.

(** [formatUptime(ms, out, len)]. *)
Definition formatUptime (ms : Z) (len : nat) : list ascii :=
  snprintf len (uptime_text ms).

(** The format of [handleStatus()]; the uptime passes through
    [char uptBuf[20]], [hex] and [txt] are the display strings. *)
Definition status_text (st : Status) (rssi heap : Z) : list ascii :=
  let display := default ([], []) (st_hex_ascii st) in
  lit "{" ++ key "rx" ++ fmt_lu (st_count st)
  ++ lit "," ++ key "spi" ++ quoted (lit (st_spi st))
  ++ lit "," ++ key "rssi" ++ fmt_d rssi
  ++ lit "," ++ key "mqtt" ++ json_bool (st_mqtt st)
  ++ lit "," ++ key "uptime" ++ quoted (formatUptime (st_uptime st) 20)
  ++ lit "," ++ key "heap" ++ fmt_lu heap
  ++ lit "," ++ key "hex" ++ quoted display.1
  ++ lit "," ++ key "ascii" ++ quoted display.2 ++ lit "}".

(** The body [handleStatus()] sends: the text passes through
    [char buf[384]]. *)
Definition status_body (st : Status) (rssi heap : Z) : list ascii :=
  snprintf 384 (status_text st rssi heap).

(** The format of the message [spiReceive()] publishes, and the
    message: the text passes through [char buf[128]]. *)
Definition publish_text (count : Z) (hex txt : list ascii) : list ascii :=
  lit "{" ++ key "rx" ++ fmt_lu count
  ++ lit "," ++ key "hex" ++ quoted hex
  ++ lit "," ++ key "ascii" ++ quoted txt ++ lit "}".
Definition publish_body (count : Z) (hex txt : list ascii) : list ascii :=
  snprintf 128 (publish_text count hex txt).

End RXWeb.

(** ** Reading states and traces: the vocabulary of the invariants *)

Module Observe.
Import Platform Runtime.

(** A string a [char] array of [size] bytes can hold: shorter than the
    array and free of NUL. *)
Definition fits (size : nat) (s : string) : bool :=
  (String.length s <? size)%nat
  && forallb (λ c, negb (Ascii.eqb c NUL)) (list_ascii_of_string s).

(** A configuration the globals of a sketch can hold. *)
Definition Config_ok (c : Config) : bool :=
  fits 33 (cfgSSID c) && fits 65 (cfgPass c) && fits 65 (cfgMqttServer c)
  && (0 <=? cfgMqttPort c) && (cfgMqttPort c <? 2 ^ 16)
  && fits 65 (cfgMqttTopic c) && fits 33 (cfgMqttUser c)
  && fits 65 (cfgMqttPass c).

(** A store [Preferences] can hold: C strings and 16-bit numbers. *)
Definition Store_ok (n : gmap string NvsVal) : Prop :=
  map_Forall (λ _ v,
    match v with
    | NvsStr s => forallb (λ c, negb (Ascii.eqb c NUL)) (list_ascii_of_string s)
                  = true
    | NvsU16 p => 0 ≤ p < 2 ^ 16
    end) n.

(** The pending request is a POST to /save. *)
Definition saving (o : Obs) : bool :=
  match pending o with
  | Some r => String.eqb (uri r) "/save" && is_post (method r)
  | None => false
  end.

(** Events that answer a request. *)
Definition is_http (e : Event) : bool :=
  match e with HttpPage _ | HttpStatus _ => true | _ => false end.

(** Events that touch neither a pin nor the bus nor publish. *)
Definition is_quiet (e : Event) : bool :=
  match e with
  | DigitalWrite _ _ | SpiBeginTransaction | SpiTransfer _ _
  | SpiEndTransaction | MqttPublish _ _ => false
  | _ => true
  end.

(** Where the bus stands: chip select released (HIGH), selected (LOW),
    or inside a transaction with the bytes exchanged so far. *)
Inductive BusPhase :=
| Released
| Selected
| Open (frame : list (byte * byte)).

(** One call seen by the bus: [None] once the order select, begin,
    transfer..., end, release is broken.  Completed transactions are
    collected with the (MOSI, MISO) bytes of their transfers. *)
Definition bus_step (cs : Z) (st : option (BusPhase * list (list (byte * byte))))
    (e : Event) : option (BusPhase * list (list (byte * byte))) :=
  match st with
  | None => None
  | Some (ph, fs) =>
      match e with
      | DigitalWrite pin level =>
          if pin =? cs then
            match ph with
            | Released => Some (if level then Released else Selected, fs)
            | Selected => if level then Some (Released, fs) else None
            | Open _ => None
            end
          else Some (ph, fs)
      | SpiBeginTransaction =>
          match ph with Selected => Some (Open [], fs) | _ => None end
      | SpiTransfer mosi miso =>
          match ph with
          | Open f => Some (Open (f ++ [(mosi, miso)]), fs)
          | _ => None
          end
      | SpiEndTransaction =>
          match ph with Open f => Some (Selected, fs ++ [f]) | _ => None end
      | _ => Some (ph, fs)
      end
  end.

Definition bus_log (cs : Z) (tr : list Event)
  : option (BusPhase * list (list (byte * byte))) :=
  fold_left (bus_step cs) tr (Some (Released, [])).

(** The level last written to a pin, if any. *)
Definition pin_step (pin : Z) (st : option bool) (e : Event) : option bool :=
  match e with
  | DigitalWrite p level => if p =? pin then Some level else st
  | _ => st
  end.
Definition pin_level (pin : Z) (tr : list Event) : option bool :=
  fold_left (pin_step pin) tr None.

(** The LED (active LOW) is switched on. *)
Definition is_flash (pin : Z) (e : Event) : bool :=
  match e with
  | DigitalWrite p level => (p =? pin) && negb level
  | _ => false
  end.

Definition is_publish (e : Event) : bool :=
  match e with MqttPublish _ _ => true | _ => false end.

(** Calls into the network libraries that need the station link:
    [ArduinoOTA.handle()], [mqtt.connect()], [mqtt.loop()],
    [mqtt.setServer()]. *)
Definition is_network (e : Event) : bool :=
  match e with
  | OtaHandle | MqttLoop | MqttSetServer _ _ | MqttConnect _ _ => true
  | _ => false
  end.

End Observe.

(** ** Scenarios *)

Module Scenarios.
Import Platform Runtime Examples.

(** The state a call of [loop()] leaves. *)
Definition tx_next (o : Obs) (s : TX.Device) : TX.Device :=
  default s (final (TX.loop o s)).
Definition rx_next (o : Obs) (s : RX.Device) : RX.Device :=
  default s (final (RX.loop o s)).

(** A response of 32 letters. *)
Definition full_of_A : nat → byte := λ _, "A"%byte.

(** A call at uptime [t] that finds the MQTT link up when it is time to
    publish. *)
Definition publishing (t : Z) (resp : nat → byte) : Obs :=
  mkObs None false t true false t t false t t resp t true t t.

(** A GET of the status at uptime [t]. *)
Definition asking_status (t : Z) (resp : nat → byte) : Obs :=
  mkObs (Some (mkRequest GET "/api/status" [])) false t false false t t false
    t t resp t false t t.

(** A POST to /save that names a network, a broker and port 8883. *)
Definition save_home : Request :=
  mkRequest POST "/save"
    [("ssid", "home"); ("ms", "broker.local"); ("mp", "8883")]%string.
(** A POST to /save that names a network and blanks the topic. *)
Definition save_no_topic : Request :=
  mkRequest POST "/save" [("ssid", "home"); ("mt", "")]%string.
(** A GET of /save, which is no save. *)
Definition get_save : Request := mkRequest GET "/save" [("ssid", "other")]%string.
Definition posting (r : Request) (t : Z) : Obs :=
  mkObs (Some r) false t false false t t false t t silence t false t t.

End Scenarios.

(** ** Machine arithmetic *)

Module WordFacts.
Import Platform.

Lemma wrap32_range z : 0 ≤ wrap32 z < 2 ^ 32.
Proof. unfold wrap32. apply Z.mod_pos_bound. lia. Qed.

Lemma wrap32_small z : 0 ≤ z < 2 ^ 32 → wrap32 z = z.
Proof. intros. unfold wrap32. by apply Z.mod_small. Qed.

(** The difference of two readings of the counter is the time that
    passed between them, however often the counter wrapped before,
    as long as less than 2^32 ms passed. *)
Lemma u32_sub_elapsed t0 t :
  0 ≤ t - t0 < 2 ^ 32 → u32_sub (millis t) (millis t0) = t - t0.
Proof.
  intros H. unfold u32_sub, millis, wrap32.
  rewrite <- Zminus_mod. by apply Z.mod_small.
Qed.

Lemma u32_succ_small n : 0 ≤ n < 2 ^ 32 - 1 → u32_add n 1 = n + 1.
Proof. intros. unfold u32_add. apply wrap32_small. lia. Qed.

Lemma millis_range t : 0 ≤ millis t < 2 ^ 32.
Proof. apply wrap32_range. Qed.

End WordFacts.

#[global] Arguments Platform.wrap32 : simpl never.
#[global] Arguments Platform.wrap16 : simpl never.
#[global] Arguments Platform.millis : simpl never.
#[global] Arguments Platform.u32_sub : simpl never.
#[global] Arguments Platform.u32_add : simpl never.

(** ** Facts about the monad and the trace *)

Module RunFacts.
Import Platform Runtime.

Lemma occurrences_app f tr1 tr2 :
  occurrences f (tr1 ++ tr2) = (occurrences f tr1 + occurrences f tr2)%nat.
Proof. induction tr1 as [|e tr1 IH]; simpl; [done | rewrite IH; lia]. Qed.

Lemma bind_done {St A B} (m : M St A) (f : A → M St B) s a s' :
  m s = Done a s' → (m ≫= f) s = f a s'.
Proof. intros H. unfold mbind, M_bind. by rewrite H. Qed.

Lemma bind_restarted {St A B} (m : M St A) (f : A → M St B) s s' :
  m s = Restarted s' → (m ≫= f) s = Restarted s'.
Proof. intros H. unfold mbind, M_bind. by rewrite H. Qed.

(** Reduce the projections of explicit records, nothing else. *)
Ltac fields :=
  cbn [cfg vars nvs trace cfgSSID cfgPass cfgMqttServer cfgMqttPort
       cfgMqttTopic cfgMqttUser cfgMqttPass].

(** [handleSave()] stores what the form carries, persists it and
    restarts. *)
Lemma handleSave_eq {V} r (m : Machine V) :
  handleSave r m =
  let c := cfg m in
  let c' :=
    mkConfig
      (if hasArg r "ssid" then toCharArray (arg r "ssid") 33 else cfgSSID c)
      (if hasArg r "pass" then toCharArray (arg r "pass") 65 else cfgPass c)
      (if hasArg r "ms" then toCharArray (arg r "ms") 65 else cfgMqttServer c)
      (if hasArg r "mp" then wrap16 (toInt (arg r "mp")) else cfgMqttPort c)
      (if hasArg r "mt" then toCharArray (arg r "mt") 65 else cfgMqttTopic c)
      (if hasArg r "mu" then toCharArray (arg r "mu") 33 else cfgMqttUser c)
      (if hasArg r "mw" then toCharArray (arg r "mw") 65 else cfgMqttPass c) in
  Restarted
    (mkMachine c' (vars m)
       (<["mqttPass" := NvsStr (cfgMqttPass c')]>
        (<["mqttUser" := NvsStr (cfgMqttUser c')]>
        (<["mqttTopic" := NvsStr (cfgMqttTopic c')]>
        (<["mqttPort" := NvsU16 (cfgMqttPort c')]>
        (<["mqttSrv" := NvsStr (cfgMqttServer c')]>
        (<["pass" := NvsStr (cfgPass c')]>
        (<["ssid" := NvsStr (cfgSSID c')]> (nvs m))))))))
       (trace m ++ [HttpPage Saved])).
Proof.
  destruct m as [[c1 c2 c3 c4 c5 c6 c7] v store tr].
  unfold handleSave, saveConfig.
  cbv [mbind M_bind mret M_ret emit with_cfg with_nvs modify gets config
       when restart set_cfgSSID set_cfgPass set_cfgMqttServer set_cfgMqttPort
       set_cfgMqttTopic set_cfgMqttUser set_cfgMqttPass].
  cbv zeta.
  generalize (hasArg r "ssid"), (hasArg r "pass"), (hasArg r "ms"),
    (hasArg r "mp"), (hasArg r "mt"), (hasArg r "mu"), (hasArg r "mw").
  intros b1 b2 b3 b4 b5 b6 b7.
  destruct b1; fields; destruct b2; fields; destruct b3; fields;
    destruct b4; fields; destruct b5; fields; destruct b6; fields;
    destruct b7; fields; reflexivity.
Qed.

Lemma bind_step {St A B} (m : M St A) (f : A → M St B) s a s' out :
  m s = Done a s' → f a s' = out → (m ≫= f) s = out.
Proof. intros H <-. by apply bind_done. Qed.

(** [toInt] of a value that does not start with a number is 0. *)
Lemma toInt_unparsable v : Spec.unparsable v → toInt v = 0.
Proof.
  unfold Spec.unparsable, toInt, atol.
  destruct (skip_spaces (list_ascii_of_string v)) as [|c rest]; [done|].
  destruct (decide (c = "-"%char ∨ c = "+"%char)) as [[-> | ->] | Hne].
  - destruct rest as [|d rest]; simpl; [done|]. by intros ->.
  - destruct rest as [|d rest]; simpl; [done|]. by intros ->.
  - intros Hd.
    destruct (Ascii.eqb_spec c "-"%char) as [-> | _]; [by destruct Hne; left|].
    destruct (Ascii.eqb_spec c "+"%char) as [-> | _]; [by destruct Hne; right|].
    simpl. by rewrite Hd.
Qed.

Lemma until_nul_id (l : list ascii) :
  Forall (λ c, c ≠ NUL) l → until_nul l = l.
Proof.
  induction 1 as [|c l Hc _ IH]; simpl; [done|].
  destruct (Ascii.eqb_spec c NUL); [done|]. by rewrite IH.
Qed.

(** A string without NUL is copied up to its first [bufsize - 1]
    characters, and whole when it is shorter than the array. *)
Lemma toCharArray_prefix v bufsize :
  Forall (λ c, c ≠ NUL) (list_ascii_of_string v) →
  toCharArray v bufsize
  = string_of_list_ascii (take (bufsize - 1) (list_ascii_of_string v)).
Proof.
  intros H. unfold toCharArray. rewrite until_nul_id; [done|].
  by apply Forall_take.
Qed.

Lemma toCharArray_verbatim v bufsize :
  Forall (λ c, c ≠ NUL) (list_ascii_of_string v) →
  (String.length v < bufsize)%nat →
  toCharArray v bufsize = v.
Proof.
  intros H Hlen. rewrite toCharArray_prefix by done.
  rewrite take_ge.
  - apply string_of_list_ascii_of_string.
  - assert (length (list_ascii_of_string v) = String.length v) as ->
      by (clear; induction v; simpl; congruence).
    lia.
Qed.

End RunFacts.

(** ** The sender *)

Module TXFacts.
Import Platform Runtime TX WordFacts RunFacts.

Ltac run :=
  cbv [mbind M_bind mret M_ret emit with_vars with_cfg with_nvs modify gets
       var config when restart checked];
  simpl.

Ltac open_state s :=
  destruct s as [?c [?ap ?wc ?mc ?n ?ltx ?lled ?lrc ?aps ?on ?r] ?store ?tr].

(** The calls [spiTransmit()] makes before it publishes. *)
Lemma tx_spiTransmit_eq o (s : Device) :
  spiTransmit o s =
  Done tt
    (mkMachine (cfg s)
       (set_lastLedOff (u32_add (millis (led_t_arm o)) LED_FLASH_MS)
          (set_ledOn true
             (set_txCount (u32_add (txCount (vars s)) 1)
                (set_lastSpiResult 0 (vars s)))))
       (nvs s)
       (trace s ++
        [DigitalWrite SPI_CS LOW; SpiBeginTransaction;
         SpiTransfer "H" (miso o 0); SpiTransfer "E" (miso o 1);
         SpiTransfer "L" (miso o 2); SpiTransfer "L" (miso o 3);
         SpiTransfer "O" (miso o 4);
         SpiEndTransaction; DigitalWrite SPI_CS HIGH;
         DigitalWrite LED_PIN LOW] ++
        (if pub_mqtt_up o
         then [MqttPublish (cfgMqttTopic (cfg s))
                 (PubTx (u32_add (txCount (vars s)) 1))]
         else []))).
Proof.
  open_state s. unfold spiTransmit. run.
  destruct (pub_mqtt_up o); simpl; rewrite <- ?app_assoc; simpl;
    by rewrite ?app_nil_r.
Qed.

Lemma tx_loop_ota_eq (s : Device) :
  loop_ota s =
  Done tt (mkMachine (cfg s) (vars s) (nvs s)
             (trace s ++ if wifiConnected (vars s) then [OtaHandle] else [])).
Proof.
  open_state s. unfold loop_ota. run.
  destruct wc; simpl; by rewrite ?app_nil_r.
Qed.

Lemma tx_loop_bus_eq o (s : Device) :
  loop_bus o s =
  if TX_INTERVAL <=? u32_sub (millis (bus_t_check o)) (lastTx (vars s))
  then spiTransmit o
         (mkMachine (cfg s) (set_lastTx (millis (bus_t_mark o)) (vars s))
            (nvs s) (trace s))
  else Done tt s.
Proof.
  open_state s. unfold loop_bus. run.
  by destruct (_ <=? _).
Qed.

Lemma tx_loop_led_eq o (s : Device) :
  loop_led o s =
  if ledOn (vars s) && (lastLedOff (vars s) <=? millis (led_t_check o))
  then Done tt (mkMachine (cfg s) (set_ledOn false (vars s)) (nvs s)
                  (trace s ++ [DigitalWrite LED_PIN HIGH]))
  else Done tt s.
Proof.
  open_state s. unfold loop_led. run.
  by destruct (_ && _).
Qed.

Lemma tx_loop_ap_eq o (s : Device) :
  loop_ap o s =
  if apMode (vars s)
     && (AP_TIMEOUT_MS <? u32_sub (millis (ap_t_check o)) (apStartTime (vars s)))
  then Restarted s
  else Done tt s.
Proof.
  open_state s. unfold loop_ap. run.
  by destruct (_ && _).
Qed.

(** [mqttReconnect()], case by case. *)
Lemma tx_mqttReconnect_eq o (s : Device) :
  mqttReconnect o s =
  if is_empty (cfgMqttServer (cfg s)) then Done tt s
  else if rc_mqtt_up o then Done tt s
  else if u32_sub (millis (rc_t_check o)) (lastMqttReconnect (vars s))
          <? MQTT_RECONNECT_MS then Done tt s
  else Done tt
         (mkMachine (cfg s)
            (set_mqttConnected (rc_connect_ok o)
               (set_lastMqttReconnect (millis (rc_t_mark o)) (vars s)))
            (nvs s)
            (trace s ++
             [MqttConnect "Hallow_1"
                (if is_empty (cfgMqttUser (cfg s)) then None
                 else Some (cfgMqttUser (cfg s), cfgMqttPass (cfg s)))])).
Proof.
  open_state s. unfold mqttReconnect. run.
  destruct (is_empty (cfgMqttServer c)); [done|].
  destruct (rc_mqtt_up o); [done|].
  destruct (_ <? _); [done|].
  destruct (is_empty (cfgMqttUser c)); simpl;
    by destruct (rc_connect_ok o).
Qed.

Lemma tx_handleClient_done o (s : Device) :
  restart_requested o = false →
  ∃ evs,
    handleClient o s
    = Done tt (mkMachine (cfg s) (vars s) (nvs s) (trace s ++ evs))
    ∧ bus_transactions evs = 0%nat
    ∧ connect_attempts evs = 0%nat
    ∧ Forall (λ e, ∀ st, e = HttpStatus st →
                st_spi st = spiStr (lastSpiResult (vars s))) evs.
Proof.
  unfold restart_requested, handleClient. open_state s.
  destruct (pending o) as [rq|]; [|intros _].
  2:{ exists []. run. rewrite app_nil_r. repeat split; constructor. }
  destruct (String.eqb_spec (uri rq) "/") as [->|_]; simpl.
  { intros _. unfold handleRoot, handleConfig. run. destruct ap; simpl;
      eexists; (split; [reflexivity|]); repeat split;
      repeat constructor; intros; discriminate. }
  destruct (String.eqb_spec (uri rq) "/config") as [->|_]; simpl.
  { intros _. unfold handleConfig. run.
    eexists; (split; [reflexivity|]); repeat split;
      repeat constructor; intros; discriminate. }
  destruct (String.eqb (uri rq) "/save" && is_post (method rq)); simpl;
    [discriminate|].
  destruct (String.eqb_spec (uri rq) "/api/status") as [->|_]; simpl.
  { intros _. unfold handleStatus. run.
    eexists; (split; [reflexivity|]); repeat split;
      repeat constructor. intros st [= <-]. reflexivity. }
  destruct (String.eqb (uri rq) "/reboot"); [discriminate|]. 
  intros _. unfold handleRoot, handleConfig. run. destruct ap; simpl;
      eexists; (split; [reflexivity|]); repeat split;
      repeat constructor; intros; discriminate.
Qed.

Lemma tx_handleClient_restart o (s : Device) :
  restart_requested o = true →
  ∃ s', handleClient o s = Restarted s'
        ∧ vars s' = vars s
        ∧ ∃ p, trace s' = trace s ++ [HttpPage p].
Proof.
  unfold restart_requested, handleClient.
  destruct (pending o) as [rq|]; [|discriminate].
  destruct (String.eqb_spec (uri rq) "/") as [->|_]; [discriminate|].
  destruct (String.eqb_spec (uri rq) "/config") as [->|_]; [discriminate|].
  destruct (String.eqb (uri rq) "/save" && is_post (method rq)); simpl.
  { intros _. rewrite handleSave_eq. cbv zeta. eexists.
    split; [reflexivity|]. split; [reflexivity|]. by eexists. }
  destruct (String.eqb_spec (uri rq) "/api/status") as [->|_]; [discriminate|].
  destruct (String.eqb (uri rq) "/reboot"); [|discriminate].
  intros _. open_state s. unfold handleReboot. run. eexists.
  split; [reflexivity|]. split; [reflexivity|]. by eexists.
Qed.

(** [loop()] up to the bus section: the request is served and the MQTT
    link maintained; of the globals only [lastMqttReconnect] and
    [mqttConnected] may change. *)
Lemma tx_loop_mqtt_eq o (s : Device) :
  loop_mqtt o s =
  if wifiConnected (vars s) then
    match (if loop_mqtt_up o then Done tt s else mqttReconnect o s) with
    | Done _ s1 =>
        Done tt (mkMachine (cfg s1) (vars s1) (nvs s1) (trace s1 ++ [MqttLoop]))
    | other => other
    end
  else Done tt s.
Proof.
  open_state s. unfold loop_mqtt. 
  cbv [mbind M_bind mret M_ret emit with_vars modify gets var when]. simpl.
  destruct wc; [|done]. destruct (loop_mqtt_up o); simpl; [done|].
  by destruct (mqttReconnect _ _).
Qed.

(** The MQTT section returns; of the globals it may change only
    [lastMqttReconnect] and [mqttConnected]. *)
Lemma tx_loop_mqtt_frame o (s : Device) :
  ∃ s1 evs,
    loop_mqtt o s = Done tt s1
    ∧ cfg s1 = cfg s ∧ nvs s1 = nvs s
    ∧ apMode (vars s1) = apMode (vars s)
    ∧ wifiConnected (vars s1) = wifiConnected (vars s)
    ∧ txCount (vars s1) = txCount (vars s)
    ∧ lastTx (vars s1) = lastTx (vars s)
    ∧ lastLedOff (vars s1) = lastLedOff (vars s)
    ∧ apStartTime (vars s1) = apStartTime (vars s)
    ∧ ledOn (vars s1) = ledOn (vars s)
    ∧ lastSpiResult (vars s1) = lastSpiResult (vars s)
    ∧ trace s1 = trace s ++ evs
    ∧ bus_transactions evs = 0%nat
    ∧ Forall (λ e, ∀ st, e ≠ HttpStatus st) evs.
Proof.
  rewrite tx_loop_mqtt_eq.
  destruct (wifiConnected (vars s)) eqn:Hwc.
  2:{ exists s, []. rewrite app_nil_r. repeat split; try done; constructor. }
  destruct (loop_mqtt_up o).
  { eexists _, [MqttLoop]. split; [reflexivity|]. cbn [cfg vars nvs trace].
    repeat split; try done; repeat constructor; intros; discriminate. }
  rewrite tx_mqttReconnect_eq.
  destruct (is_empty _);
    [|destruct (rc_mqtt_up o); [|destruct (_ <? _)]].
  1-3: eexists _, [MqttLoop]; (split; [reflexivity|]);
    cbn [cfg vars nvs trace];
    repeat split; try done; repeat constructor; intros; discriminate.
  eexists _, [_; MqttLoop]. split; [reflexivity|].
  cbn [cfg vars nvs trace]. rewrite <- app_assoc.
  repeat split; try done; repeat constructor; intros; discriminate.
Qed.

(** The sections of [loop()] before the bus section. *)
Lemma tx_loop_head o (s : Device) :
  restart_requested o = false →
  ∃ s1,
    loop o s = (loop_bus o ≫= λ _, loop_led o ≫= λ _, loop_ap o) s1
    ∧ cfg s1 = cfg s ∧ nvs s1 = nvs s
    ∧ apMode (vars s1) = apMode (vars s)
    ∧ wifiConnected (vars s1) = wifiConnected (vars s)
    ∧ txCount (vars s1) = txCount (vars s)
    ∧ lastTx (vars s1) = lastTx (vars s)
    ∧ lastLedOff (vars s1) = lastLedOff (vars s)
    ∧ apStartTime (vars s1) = apStartTime (vars s)
    ∧ ledOn (vars s1) = ledOn (vars s)
    ∧ lastSpiResult (vars s1) = lastSpiResult (vars s)
    ∧ ∃ evs, trace s1 = trace s ++ evs
        ∧ bus_transactions evs = 0%nat
        ∧ Forall (λ e, ∀ st, e = HttpStatus st →
                    st_spi st = spiStr (lastSpiResult (vars s))) evs.
Proof.
  intros Hreq. unfold loop.
  rewrite (bind_done _ _ _ _ _ (tx_loop_ota_eq s)).
  destruct (tx_handleClient_done o
              (mkMachine (cfg s) (vars s) (nvs s)
                 (trace s ++ if wifiConnected (vars s) then [OtaHandle] else []))
              Hreq) as (evs & Hweb & Hbus & _ & Hst).
  rewrite (bind_done _ _ _ _ _ Hweb). cbn [cfg vars nvs trace] in *.
  destruct (tx_loop_mqtt_frame o
              (mkMachine (cfg s) (vars s) (nvs s)
                 ((trace s ++ if wifiConnected (vars s) then [OtaHandle] else [])
                  ++ evs)))
    as (s1 & evs1 & Hrun & Hc & Hn & H1 & H2 & H3 & H4 & H5
        & H6 & H7 & H8 & Htr & Hb1 & Hs1).
  cbn [cfg vars nvs trace] in *.
  exists s1. rewrite (bind_done _ _ _ _ _ Hrun).
  repeat (split; [done|]).
  exists ((if wifiConnected (vars s) then [OtaHandle] else []) ++ evs ++ evs1).
  split; [|split].
  - rewrite Htr. by rewrite <- !app_assoc.
  - unfold bus_transactions in *. rewrite !occurrences_app, Hbus, Hb1.
    by destruct (wifiConnected _).
  - rewrite !Forall_app. split; [|split].
    + destruct (wifiConnected _); repeat constructor; intros; discriminate.
    + done.
    + eapply Forall_impl; [exact Hs1|]. intros e He st ->. by destruct (He st).
Qed.

(** The bus, LED and AP sections, which always run to the end. *)
Lemma tx_loop_tail_eq o (s1 : Device) :
  (loop_bus o ≫= λ _, loop_led o ≫= λ _, loop_ap o) s1 =
  match loop_bus o s1 with
  | Done _ s2 =>
      match loop_led o s2 with
      | Done _ s3 => loop_ap o s3
      | other => other
      end
  | other => other
  end.
Proof. reflexivity. Qed.

(** What one call of [loop()] does to the globals and the trace when the
    request it serves, if any, does not restart the device. *)
Lemma tx_loop_effect o (s : Device) :
  restart_requested o = false →
  let due := TX_INTERVAL <=? u32_sub (millis (bus_t_check o)) (lastTx (vars s)) in
  let on2 := if due then true else ledOn (vars s) in
  let off2 := if due then u32_add (millis (led_t_arm o)) LED_FLASH_MS
              else lastLedOff (vars s) in
  let led_off := on2 && (off2 <=? millis (led_t_check o)) in
  let expired :=
    apMode (vars s)
    && (AP_TIMEOUT_MS <? u32_sub (millis (ap_t_check o)) (apStartTime (vars s))) in
  ∃ s' evs,
    loop o s = (if expired then Restarted s' else Done tt s')
    ∧ lastTx (vars s') = (if due then millis (bus_t_mark o) else lastTx (vars s))
    ∧ txCount (vars s')
      = (if due then u32_add (txCount (vars s)) 1 else txCount (vars s))
    ∧ lastSpiResult (vars s') = (if due then 0 else lastSpiResult (vars s))
    ∧ ledOn (vars s') = (if led_off then false else on2)
    ∧ lastLedOff (vars s') = off2
    ∧ apMode (vars s') = apMode (vars s)
    ∧ apStartTime (vars s') = apStartTime (vars s)
    ∧ wifiConnected (vars s') = wifiConnected (vars s)
    ∧ trace s' = trace s ++ evs
    ∧ bus_transactions evs = (if due then 1 else 0)%nat
    ∧ Forall (λ e, ∀ st, e = HttpStatus st →
                st_spi st = spiStr (lastSpiResult (vars s))) evs.
Proof.
  intros Hreq due on2 off2 led_off expired.
  destruct (tx_loop_head o s Hreq)
    as (s1 & -> & Hc & Hn & H1 & H2 & H3 & H4 & H5 & H6 & H7 & H8
        & evs & Htr & Hbus & Hst).
  rewrite tx_loop_tail_eq, tx_loop_bus_eq, H4. fold due.
  destruct due eqn:Hdue.
  - rewrite tx_spiTransmit_eq. cbn [cfg vars nvs trace].
    rewrite tx_loop_led_eq. cbn [cfg vars nvs trace].
    subst on2 off2 led_off. cbn [ledOn lastLedOff set_lastLedOff set_ledOn
      set_txCount set_lastSpiResult set_lastTx andb].
    destruct (_ <=? millis (led_t_check o)) eqn:Hled;
      rewrite tx_loop_ap_eq; cbn [cfg vars nvs trace apMode apStartTime
        set_lastLedOff set_ledOn set_txCount set_lastSpiResult set_lastTx];
      rewrite H1, H6; fold expired.
    + eexists _, (evs ++ ([DigitalWrite SPI_CS LOW; SpiBeginTransaction;
         SpiTransfer "H" (miso o 0); SpiTransfer "E" (miso o 1);
         SpiTransfer "L" (miso o 2); SpiTransfer "L" (miso o 3);
         SpiTransfer "O" (miso o 4);
         SpiEndTransaction; DigitalWrite SPI_CS HIGH;
         DigitalWrite LED_PIN LOW] ++
        (if pub_mqtt_up o
         then [MqttPublish (cfgMqttTopic (cfg s1))
                 (PubTx (u32_add (txCount (vars s1)) 1))]
         else [])) ++ [DigitalWrite LED_PIN HIGH]).
      split; [reflexivity|].
      cbn [cfg vars nvs trace apMode apStartTime wifiConnected txCount
           lastTx lastLedOff ledOn lastSpiResult
           set_lastLedOff set_ledOn set_txCount set_lastSpiResult set_lastTx].
      rewrite Htr, H3, <- !app_assoc.
      repeat (split; [done|]). split.
      * unfold bus_transactions in *. rewrite !occurrences_app, Hbus.
        by destruct (pub_mqtt_up o).
      * rewrite !Forall_app. repeat split; try done;
          destruct (pub_mqtt_up o); repeat constructor; intros; discriminate.
    + eexists _, (evs ++ [DigitalWrite SPI_CS LOW; SpiBeginTransaction;
         SpiTransfer "H" (miso o 0); SpiTransfer "E" (miso o 1);
         SpiTransfer "L" (miso o 2); SpiTransfer "L" (miso o 3);
         SpiTransfer "O" (miso o 4);
         SpiEndTransaction; DigitalWrite SPI_CS HIGH;
         DigitalWrite LED_PIN LOW] ++
        (if pub_mqtt_up o
         then [MqttPublish (cfgMqttTopic (cfg s1))
                 (PubTx (u32_add (txCount (vars s1)) 1))]
         else [])).
      split; [reflexivity|].
      cbn [cfg vars nvs trace apMode apStartTime wifiConnected txCount
           lastTx lastLedOff ledOn lastSpiResult
           set_lastLedOff set_ledOn set_txCount set_lastSpiResult set_lastTx].
      rewrite Htr, H3, <- !app_assoc.
      repeat (split; [done|]). split.
      * unfold bus_transactions in *. rewrite !occurrences_app, Hbus.
        by destruct (pub_mqtt_up o).
      * rewrite !Forall_app. repeat split; try done;
          destruct (pub_mqtt_up o); repeat constructor; intros; discriminate.
  - rewrite tx_loop_led_eq. subst on2 off2 led_off. rewrite H7, H5.
    destruct (ledOn (vars s) && _) eqn:Hled; cbv beta iota;
      rewrite tx_loop_ap_eq; cbn [cfg vars nvs trace apMode apStartTime set_ledOn];
      rewrite H1, H6; fold expired.
    + eexists _, (evs ++ [DigitalWrite LED_PIN HIGH]).
      split; [reflexivity|].
      cbn [cfg vars nvs trace apMode apStartTime wifiConnected txCount
           lastTx lastLedOff ledOn lastSpiResult set_ledOn].
      rewrite Htr, <- !app_assoc.
      repeat (split; [done|]). split.
      * unfold bus_transactions in *. by rewrite !occurrences_app, Hbus.
      * rewrite !Forall_app. repeat split; try done;
          repeat constructor; intros; discriminate.
    + eexists _, evs.
      split; [reflexivity|].
      repeat split; done.
Qed.

(** A request for /save or /reboot ends the call before the MQTT
    section: the globals are as they were. *)
Lemma tx_loop_restart_requested o (s : Device) :
  restart_requested o = true →
  ∃ s' evs,
    loop o s = Restarted s'
    ∧ vars s' = vars s
    ∧ trace s' = trace s ++ evs
    ∧ bus_transactions evs = 0%nat
    ∧ connect_attempts evs = 0%nat
    ∧ Forall (λ e, ∀ st, e ≠ HttpStatus st) evs.
Proof.
  intros Hreq. unfold loop.
  rewrite (bind_done _ _ _ _ _ (tx_loop_ota_eq s)).
  destruct (tx_handleClient_restart o
              (mkMachine (cfg s) (vars s) (nvs s)
                 (trace s ++ if wifiConnected (vars s) then [OtaHandle] else []))
              Hreq) as (s' & Hweb & Hv & p & Htr).
  rewrite (bind_restarted _ _ _ _ Hweb). cbn [cfg vars nvs trace] in *.
  exists s', ((if wifiConnected (vars s) then [OtaHandle] else []) ++ [HttpPage p]).
  split; [done|]. split; [done|]. split; [by rewrite Htr, <- app_assoc|].
  destruct (wifiConnected (vars s)); repeat split;
    repeat constructor; intros; discriminate.
Qed.

(** [setup()] returns; it leaves the counters and the result untouched
    and serves no request. *)
Lemma tx_setup_frame b (s0 : Device) :
  ∃ s evs,
    setup b s0 = Done tt s
    ∧ lastSpiResult (vars s) = lastSpiResult (vars s0)
    ∧ txCount (vars s) = txCount (vars s0)
    ∧ trace s = trace s0 ++ evs
    ∧ bus_transactions evs = 0%nat
    ∧ Forall (λ e, ∀ st, e ≠ HttpStatus st) evs.
Proof.
  open_state s0. unfold setup, loadConfig, connectWiFi, startAP, setupMQTT.
  run.
  repeat match goal with
         | |- context [if ?b then _ else _] => destruct b; simpl
         end;
    eexists _, _; (split; [reflexivity|]); simpl; rewrite <- ?app_assoc;
    (split; [done|]); (split; [done|]); (split; [reflexivity|]);
    split; repeat constructor; intros; discriminate.
Qed.

(** The invariant behind the sender's status: the result is "not yet"
    or "ok", and every status answer given so far said so. *)
Lemma tx_reachable_result (s : Device) :
  reachable s →
  (lastSpiResult (vars s) = -1 ∨ lastSpiResult (vars s) = 0)
  ∧ Forall (λ e, ∀ st, e = HttpStatus st →
              st_spi st = "IDLE"%string ∨ st_spi st = "OK"%string) (trace s).
Proof.
  induction 1 as [store b s Hs | o s s' _ [IHr IHt] Hl | o s s' _ [IHr IHt] Hl].
  - destruct (tx_setup_frame b (power_on store))
      as (s1 & evs & Hrun & Hr & _ & Htr & _ & Hst).
    rewrite Hrun in Hs. injection Hs as <-.
    rewrite Hr, Htr. simpl. split; [by left|].
    eapply Forall_impl; [exact Hst|]. intros e He st ->. by destruct (He st).
  - destruct (restart_requested o) eqn:Hreq.
    { destruct (tx_loop_restart_requested o s Hreq) as (s2 & ? & Hrun & _).
      congruence. }
    destruct (tx_loop_effect o s Hreq)
      as (s2 & evs & Hrun & _ & _ & Hr & _ & _ & _ & _ & _ & Htr & _ & Hst).
    rewrite Hl in Hrun.
    assert (s2 = s') as -> by (destruct (_ && _); congruence).
    split.
    + rewrite Hr. destruct (_ <=? _); [by right | done].
    + rewrite Htr, Forall_app. split; [done|].
      eapply Forall_impl; [exact Hst|]. intros e He st Hst'.
      rewrite (He st Hst'). destruct IHr as [-> | ->]; [by left | by right].
  - destruct (restart_requested o) eqn:Hreq.
    + destruct (tx_loop_restart_requested o s Hreq)
        as (s2 & evs & Hrun & Hv & Htr & _ & _ & Hst).
      rewrite Hl in Hrun. injection Hrun as <-.
      rewrite Hv, Htr, Forall_app. split; [done|]. split; [done|].
      eapply Forall_impl; [exact Hst|]. intros e He st ->. by destruct (He st).
    + destruct (tx_loop_effect o s Hreq)
        as (s2 & evs & Hrun & _ & _ & Hr & _ & _ & _ & _ & _ & Htr & _ & Hst).
      rewrite Hl in Hrun.
      assert (s2 = s') as -> by (destruct (_ && _); congruence).
      split.
      * rewrite Hr. destruct (_ <=? _); [by right | done].
      * rewrite Htr, Forall_app. split; [done|].
        eapply Forall_impl; [exact Hst|]. intros e He st Hst'.
        rewrite (He st Hst'). destruct IHr as [-> | ->]; [by left | by right].
Qed.

Ltac fields :=
  cbn [cfg vars nvs trace
       apMode wifiConnected mqttConnected txCount lastTx lastLedOff
       lastMqttReconnect apStartTime ledOn lastSpiResult
       set_apMode set_wifiConnected set_mqttConnected set_txCount set_lastTx
       set_lastLedOff set_lastMqttReconnect set_apStartTime set_ledOn
       set_lastSpiResult
       cfgSSID cfgPass cfgMqttServer cfgMqttPort cfgMqttTopic cfgMqttUser
       cfgMqttPass set_cfgSSID set_cfgPass set_cfgMqttServer set_cfgMqttPort
       set_cfgMqttTopic set_cfgMqttUser set_cfgMqttPass negb].

Ltac prim :=
  cbv [mbind M_bind mret M_ret emit with_vars with_cfg with_nvs modify gets
       var config when restart checked].

Ltac step := eapply bind_step; [reflexivity | fields].

Lemma tx_loadConfig_frame (s : Device) :
  ∃ c', loadConfig s = Done tt (mkMachine c' (vars s) (nvs s) (trace s)).
Proof.
  destruct s as [c v store tr]. unfold loadConfig.
  eexists. do 7 step. reflexivity.
Qed.

(** Without a network [setup()] ends in AP mode, the start time taken. *)
Lemma tx_setup_local b store :
  wifi_joined b = false →
  ∃ s, setup b (power_on store) = Done tt s
       ∧ apMode (vars s) = true
       ∧ apStartTime (vars s) = millis (ap_t_start b).
Proof.
  intros Hj.
  destruct (tx_loadConfig_frame
              (mkMachine (mkConfig "" "" "" 1883 "halow/tx" "" "")
                 (mkVars false false false 0 0 0 0 0 false (-1))
                 store
                 [DigitalWrite LED_PIN HIGH; DigitalWrite SPI_CS HIGH]))
    as [c' Hload].
  cbn [cfg vars nvs trace] in Hload. unfold setup, power_on.
  destruct (is_empty (cfgSSID c')) eqn:Hssid.
  - eexists. split.
    { step. step. eapply bind_step; [exact Hload|]. step. rewrite Hssid.
      fields. repeat step. reflexivity. }
    done.
  - eexists. split.
    { step. step. eapply bind_step; [exact Hload|]. step. rewrite Hssid.
      unfold connectWiFi. rewrite Hj. fields. repeat step. reflexivity. }
    done.
Qed.

(** An indicator armed in this call survives the call's own LED test
    when the off-deadline does not wrap and has not been reached. *)
Lemma tx_loop_led_survives o (s : Device) :
  restart_requested o = false →
  TX_INTERVAL ≤ u32_sub (millis (bus_t_check o)) (lastTx (vars s)) →
  millis (led_t_arm o) + LED_FLASH_MS < 2 ^ 32 →
  millis (led_t_check o) < millis (led_t_arm o) + LED_FLASH_MS →
  ∃ s', final (loop o s) = Some s' ∧ ledOn (vars s') = true.
Proof.
  intros Hreq Hdue Hnowrap Hearly.
  destruct (tx_loop_effect o s Hreq)
    as (s' & evs & Hrun & _ & _ & _ & Hled & _).
  exists s'. split; [rewrite Hrun; by destruct (_ && _)|].
  rewrite Hled. rewrite (proj2 (Z.leb_le _ _) Hdue). cbn [andb].
  replace (_ <=? _) with false; [done|].
  symmetry. apply Z.leb_gt. unfold u32_add.
  pose proof (millis_range (led_t_arm o)).
  rewrite (wrap32_small (millis (led_t_arm o) + LED_FLASH_MS))
    by (unfold LED_FLASH_MS in *; lia).
  lia.
Qed.

End TXFacts.

(** ** Character arrays, hexadecimal digits, the classified length *)

Module BufferFacts.
Import Platform Runtime Spec.

Lemma poke_ok (buf : list ascii) i c :
  (i < length buf)%nat → poke buf i c = Some (<[i:=c]> buf).
Proof. intros H. unfold poke. by rewrite decide_True. Qed.

(** Storing a run of characters inside the array replaces exactly that
    slice. *)
Lemma poke_all_ok cs : ∀ (buf : list ascii) p,
  (p + length cs ≤ length buf)%nat →
  poke_all buf p cs = Some (take p buf ++ cs ++ drop (p + length cs) buf).
Proof.
  induction cs as [|c cs IH]; intros buf p Hlen; simpl in *.
  - by rewrite Nat.add_0_r, take_drop.
  - rewrite poke_ok by lia. simpl.
    rewrite IH by (rewrite length_insert; lia). f_equal.
    rewrite (take_S_r _ _ c) by (apply list_lookup_insert_eq; lia).
    rewrite take_insert_ge by lia.
    rewrite drop_insert_lt by lia.
    rewrite <- app_assoc. simpl. by rewrite Nat.add_succ_r.
Qed.

Lemma c_str_app pre rest :
  Forall (λ c, c ≠ NUL) pre → c_str (pre ++ NUL :: rest) = Some pre.
Proof.
  induction 1 as [|c pre Hc _ IH]; simpl.
  - done.
  - destruct (Ascii.eqb_spec c NUL); [done|]. by rewrite IH.
Qed.

Lemma hex_digit_upper d : (d < 16)%N → hex_digit d = upper_hex d.
Proof.
  intros H.
  assert (d = 0 ∨ d = 1 ∨ d = 2 ∨ d = 3 ∨ d = 4 ∨ d = 5 ∨ d = 6 ∨ d = 7
          ∨ d = 8 ∨ d = 9 ∨ d = 10 ∨ d = 11 ∨ d = 12 ∨ d = 13 ∨ d = 14
          ∨ d = 15)%N as Hd by lia.
  repeat (destruct Hd as [-> | Hd]; [reflexivity|]). by subst.
Qed.

Lemma hex_digit_not_nul d : hex_digit d ≠ NUL.
Proof.
  unfold hex_digit.
  destruct (N.to_nat d) as [|[|[|[|[|[|[|[|[|[|[|[|[|[|[|[|[|n]]]]]]]]]]]]]]]]];
    simpl; discriminate.
Qed.

Lemma u8_bound b : (u8 b < 256)%N.
Proof. unfold u8. pose proof (Byte.to_N_bounded b). lia. Qed.

Lemma printable_or_dot_not_nul b : RX.printable_or_dot b ≠ NUL.
Proof.
  unfold RX.printable_or_dot.
  destruct (_ && _) eqn:E; [|discriminate].
  apply andb_true_iff in E as [E1 _]. apply N.leb_le in E1.
  unfold to_char. rewrite ascii_of_byte_via_N. fold (u8 b).
  intros Heq. apply (f_equal N_of_ascii) in Heq.
  rewrite N_ascii_embedding in Heq by (pose proof (u8_bound b); lia).
  simpl in Heq. lia.
Qed.

Lemma printable_or_dot_spec bytes :
  map RX.printable_or_dot bytes = ascii_field bytes.
Proof.
  unfold ascii_field. apply map_ext. intros b. unfold RX.printable_or_dot.
  destruct (decide _) as [[H1 H2]|Hn].
  - by rewrite (proj2 (N.leb_le _ _) H1), (proj2 (N.leb_le _ _) H2).
  - destruct (_ && _) eqn:E; [|done].
    apply andb_true_iff in E as [E1 E2].
    apply N.leb_le in E1, E2. by destruct Hn.
Qed.

Lemma is_data_sentinel b : RX.is_data b = false ↔ sentinel b.
Proof.
  unfold RX.is_data, sentinel. split.
  - intros H. apply andb_false_iff in H as [H|H];
      apply negb_false_iff in H; apply byte_dec_bl in H; auto.
  - intros [-> | ->]; reflexivity.
Qed.

Lemma classified_length_snoc resp b :
  classified_length (resp ++ [b])
  = if RX.is_data b then S (length resp) else classified_length resp.
Proof.
  induction resp as [|x resp IH]; simpl.
  - destruct (decide (sentinel b)) as [Hs|Hs].
    + by rewrite (proj2 (is_data_sentinel b) Hs).
    + destruct (RX.is_data b) eqn:E; [done|].
      by apply is_data_sentinel in E.
  - rewrite IH. destruct (RX.is_data b); [done|].
    reflexivity.
Qed.

Lemma classified_length_bound resp : (classified_length resp ≤ length resp)%nat.
Proof.
  induction resp as [|x resp IH]; simpl; [lia|].
  destruct (classified_length resp); [destruct (decide _); lia | lia].
Qed.

Lemma hex_chars_not_nul bytes :
  Forall (λ c, c ≠ NUL) (flat_map (λ b, take 3 (fmt_02X_sp b)) bytes).
Proof.
  induction bytes as [|b bytes IH]; simpl; [constructor|].
  repeat constructor; try apply hex_digit_not_nul; [discriminate | done].
Qed.

Lemma hex_chars_length bytes :
  length (flat_map (λ b, take 3 (fmt_02X_sp b)) bytes) = (3 * length bytes)%nat.
Proof.
  induction bytes as [|b bytes IH]; [done|].
  change (flat_map _ (b :: bytes))
    with (take 3 (fmt_02X_sp b)
          ++ flat_map (λ b, take 3 (fmt_02X_sp b)) bytes).
  rewrite length_app, IH. simpl. lia.
Qed.

Lemma hex_chars_snoc bytes b :
  flat_map (λ b, take 3 (fmt_02X_sp b)) (bytes ++ [b])
  = flat_map (λ b, take 3 (fmt_02X_sp b)) bytes ++ take 3 (fmt_02X_sp b).
Proof. rewrite flat_map_app. reflexivity. Qed.

(** Dropping the last space of the printed chunks gives the
    space-separated field of the specification. *)
Lemma hex_field_trim bytes :
  bytes ≠ [] →
  take (3 * length bytes - 1) (flat_map (λ b, take 3 (fmt_02X_sp b)) bytes)
  = hex_field bytes.
Proof.
  induction bytes as [|b bytes IH]; [done|]. intros _.
  assert (Hhi : (u8 b / 16 < 16)%N).
  { pose proof (u8_bound b). apply N.Div0.div_lt_upper_bound. lia. }
  assert (Hlo : (u8 b mod 16 < 16)%N) by (apply N.mod_lt; lia).
  destruct bytes as [|b' bytes].
  - simpl. by rewrite !hex_digit_upper.
  - replace (3 * length (b :: b' :: bytes) - 1)%nat
      with (3 + (3 * length (b' :: bytes) - 1))%nat by (simpl; lia).
    change (flat_map _ (b :: b' :: bytes))
      with ([hex_digit (u8 b / 16); hex_digit (u8 b mod 16); " "%char]
            ++ flat_map (λ b, take 3 (fmt_02X_sp b)) (b' :: bytes)).
    rewrite take_app_add' by done. rewrite IH by done.
    simpl. by rewrite !hex_digit_upper.
Qed.

Lemma hex_field_length bytes :
  bytes ≠ [] → length (hex_field bytes) = (3 * length bytes - 1)%nat.
Proof.
  intros H. rewrite <- hex_field_trim by done.
  rewrite length_take, hex_chars_length. lia.
Qed.

Lemma ascii_field_not_nul bytes : Forall (λ c, c ≠ NUL) (ascii_field bytes).
Proof.
  rewrite <- printable_or_dot_spec. apply Forall_map, Forall_forall.
  intros b _. apply printable_or_dot_not_nul.
Qed.

Lemma response_length o : length (response o) = 32%nat.
Proof. reflexivity. Qed.

Lemma response_lookup o i : (i < 32)%nat → response o !! i = Some (miso o i).
Proof.
  intros H. unfold response. rewrite list_lookup_fmap.
  rewrite lookup_seq_lt by done. reflexivity.
Qed.

(** What the classified length says about the bytes: it points just
    past a byte that is no sentinel, and only sentinels follow. *)
Lemma classified_length_spec resp :
  match classified_length resp with
  | O => Forall sentinel resp
  | S k =>
      (∃ b, resp !! k = Some b ∧ ¬ sentinel b)
      ∧ ∀ j b, (k < j)%nat → resp !! j = Some b → sentinel b
  end.
Proof.
  induction resp as [|x resp IH]; simpl; [constructor|].
  destruct (classified_length resp) as [|k].
  - destruct (decide (sentinel x)) as [Hx|Hx].
    + by constructor.
    + split; [by exists x|].
      intros [|j] b Hj Hb; [lia|]. simpl in Hb.
      rewrite Forall_lookup in IH. by eapply IH.
  - destruct IH as [IH1 IH2]. split; [done|].
    intros [|j] b Hj Hb; [lia|]. simpl in Hb. eapply IH2; [|done]. lia.
Qed.

Lemma classified_length_zero o :
  (∀ i, (i < 32)%nat → sentinel (miso o i)) →
  classified_length (response o) = 0%nat.
Proof.
  intros Hall. pose proof (classified_length_spec (response o)) as Hspec.
  destruct (classified_length (response o)) as [|k]; [done|].
  destruct Hspec as [(b & Hb & Hnb) _].
  assert (k < 32)%nat as Hk
    by (rewrite <- (response_length o); by eapply lookup_lt_Some).
  rewrite response_lookup in Hb by done. injection Hb as <-.
  by destruct Hnb; apply Hall.
Qed.

Lemma classified_length_last o k :
  (k < 32)%nat → ¬ sentinel (miso o k) →
  (∀ j, (k < j < 32)%nat → sentinel (miso o j)) →
  classified_length (response o) = S k.
Proof.
  intros Hk Hnk Hafter.
  pose proof (classified_length_spec (response o)) as Hspec.
  destruct (classified_length (response o)) as [|k'].
  - rewrite Forall_lookup in Hspec. destruct Hnk.
    apply (Hspec k). by apply response_lookup.
  - destruct Hspec as [(b & Hb & Hnb) Hlater].
    assert (k' < 32)%nat as Hk'
      by (rewrite <- (response_length o); by eapply lookup_lt_Some).
    rewrite response_lookup in Hb by done. injection Hb as <-.
    destruct (Nat.lt_trichotomy k' k) as [Hlt | [-> | Hgt]]; [|done|].
    + destruct Hnk. apply (Hlater k); [done|]. by apply response_lookup.
    + destruct Hnb. apply Hafter. lia.
Qed.

(** Either every byte of the response is a sentinel, or there is a last
    one that is not. *)
Lemma response_cases o :
  (∀ i, (i < 32)%nat → sentinel (miso o i))
  ∨ ∃ k, (k < 32)%nat ∧ ¬ sentinel (miso o k)
         ∧ ∀ j, (k < j < 32)%nat → sentinel (miso o j).
Proof.
  pose proof (classified_length_spec (response o)) as Hspec.
  destruct (classified_length (response o)) as [|k].
  - left. intros i Hi. rewrite Forall_lookup in Hspec.
    apply (Hspec i). by apply response_lookup.
  - right. destruct Hspec as [(b & Hb & Hnb) Hlater].
    assert (k < 32)%nat as Hk
      by (rewrite <- (response_length o); by eapply lookup_lt_Some).
    rewrite response_lookup in Hb by done. injection Hb as <-.
    exists k. split; [done|]. split; [done|].
    intros j [Hj1 Hj2]. apply (Hlater j); [done|]. by apply response_lookup.
Qed.

Lemma c_str_length (buf s : list ascii) :
  c_str buf = Some s → (length s < length buf)%nat.
Proof.
  revert s. induction buf as [|c buf IH]; intros s; simpl; [done|].
  destruct (Ascii.eqb c NUL).
  - intros [= <-]. simpl. lia.
  - destruct (c_str buf) as [cs|]; simpl; [|done].
    intros [= <-]. simpl. specialize (IH cs eq_refl). lia.
Qed.

End BufferFacts.

(** ** The receiver *)

Module RXFacts.
Import Platform Runtime RX WordFacts RunFacts BufferFacts Spec.

Ltac open_state s :=
  destruct s as [?c [?buf ?len ?ap ?wc ?n ?lrx ?lled ?lrc ?aps ?on ?r ?dat ?asc]
                   ?store ?tr].

Ltac fields :=
  cbn [cfg vars nvs trace
       rxBuf rxLen apMode wifiConnected rxCount lastRx lastLedOff
       lastMqttReconnect apStartTime ledOn lastSpiResult lastRxData lastRxAscii
       set_rxBuf set_rxLen set_apMode set_wifiConnected set_rxCount set_lastRx
       set_lastLedOff set_lastMqttReconnect set_apStartTime set_ledOn
       set_lastSpiResult set_lastRxData set_lastRxAscii fst snd].

Ltac prim :=
  cbv [mbind M_bind mret M_ret emit with_vars with_cfg with_nvs modify gets
       var config when restart checked upd_lastRxData upd_lastRxAscii
       rxBuf_at].

(** One primitive step of a computation. *)
Ltac step := eapply bind_step; [reflexivity | fields].

(** The transfer loop of [spiReceive()]. *)
Lemma rx_transfer_loop o count : ∀ from c (v : Vars) store tr,
  for_loop from count
    (λ i _,
       emit (SpiTransfer "000"%byte (miso o i));;
       with_vars (λ v, set_rxBuf (<[i := miso o i]> (rxBuf v)) v)) tt
    (mkMachine c v store tr)
  = Done tt
      (mkMachine c
         (set_rxBuf (foldl (λ buf i, <[i := miso o i]> buf) (rxBuf v)
                       (seq from count)) v)
         store
         (tr ++ map (λ i, SpiTransfer "000"%byte (miso o i)) (seq from count))).
Proof.
  induction count as [|count IH]; intros from c v store tr.
  - simpl. rewrite app_nil_r. by destruct v.
  - cbn [for_loop]. step. rewrite IH. fields.
    by rewrite <- app_assoc.
Qed.

(** The scan loop of [spiReceive()] computes the classified length. *)
Lemma rx_scan_loop resp count : ∀ from c (v : Vars) store tr,
  rxBuf v = resp →
  (from + count ≤ length resp)%nat →
  (from + count ≤ 255)%nat →
  for_loop from count
    (λ i (hasData : bool),
       b ← rxBuf_at i;
       if is_data b then with_vars (set_rxLen ((i + 1) mod 256));; mret true
       else mret hasData)
    (bool_decide (classified_length (take from resp) ≠ 0%nat))
    (mkMachine c (set_rxLen (classified_length (take from resp)) v) store tr)
  = Done (bool_decide (classified_length (take (from + count) resp) ≠ 0%nat))
      (mkMachine c
         (set_rxLen (classified_length (take (from + count) resp)) v)
         store tr).
Proof.
  induction count as [|count IH]; intros from c v store tr Hbuf Hlen H255.
  - simpl. by rewrite Nat.add_0_r.
  - cbn [for_loop].
    destruct (lookup_lt_is_Some_2 resp from) as [b Hb]; [lia|].
    assert (Hnext : classified_length (take (S from) resp)
                    = if is_data b then S from
                      else classified_length (take from resp)).
    { rewrite (take_S_r _ _ b) by done. rewrite classified_length_snoc.
      rewrite length_take. by replace (from `min` length resp)%nat
        with from by lia. }
    replace (from + S count)%nat with (S from + count)%nat by lia.
    rewrite <- (IH (S from) c v store tr) by (done || lia).
    rewrite Hnext.
    destruct (is_data b) eqn:Hd;
      (eapply bind_step;
       [prim; fields; rewrite Hbuf, Hb; cbv beta iota; rewrite Hd; reflexivity|]).
    + fields. rewrite Nat.mod_small by lia.
      replace (from + 1)%nat with (S from) by lia. reflexivity.
    + reflexivity.
Qed.

(** The rendering loop of [spiReceive()]: after [i] rounds the hex array
    holds the chunks of the first [i] bytes and a NUL, the ASCII array
    their printable forms; no store leaves the arrays. *)
Lemma rx_render_loop resp (d0 a0 : list ascii) count :
  ∀ from c (v : Vars) store tr,
  rxBuf v = resp →
  length d0 = 97%nat → length a0 = 33%nat →
  (from + count ≤ length resp)%nat → (from + count ≤ 32)%nat →
  lastRxData v
  = flat_map (λ b, take 3 (fmt_02X_sp b)) (take from resp)
    ++ NUL :: drop (3 * from + 1) d0 →
  lastRxAscii v = map printable_or_dot (take from resp) ++ drop from a0 →
  for_loop from count
    (λ i (pa : nat * nat),
       b ← rxBuf_at i;
       d ← var lastRxData;
       dk ← checked (sprintf_02X_sp d pa.1 b);
       with_vars (set_lastRxData dk.1);;
       upd_lastRxAscii (λ d, poke d pa.2 (printable_or_dot b));;
       mret ((pa.1 + dk.2)%nat, S pa.2))
    ((3 * from)%nat, from) (mkMachine c v store tr)
  = Done ((3 * (from + count))%nat, (from + count)%nat)
      (mkMachine c
         (set_lastRxAscii
            (map printable_or_dot (take (from + count) resp)
             ++ drop (from + count) a0)
            (set_lastRxData
               (flat_map (λ b, take 3 (fmt_02X_sp b)) (take (from + count) resp)
                ++ NUL :: drop (3 * (from + count) + 1) d0) v))
         store tr).
Proof.
  induction count as [|count IH];
    intros from c v store tr Hbuf Hd0 Ha0 Hlen H32 Hdat Hasc.
  - cbn [for_loop]. rewrite Nat.add_0_r, <- Hdat, <- Hasc. by destruct v.
  - cbn [for_loop].
    destruct (lookup_lt_is_Some_2 resp from) as [b Hb]; [lia|].
    assert (Htk : length (take from resp) = from)
      by (rewrite length_take; lia).
    assert (Hspr : sprintf_02X_sp (lastRxData v) (3 * from) b
              = Some (flat_map (λ b, take 3 (fmt_02X_sp b)) (take (S from) resp)
                      ++ NUL :: drop (3 * S from + 1) d0, 3%nat)).
    { unfold sprintf_02X_sp. rewrite Hdat.
      rewrite poke_all_ok
        by (rewrite length_app, hex_chars_length, Htk; simpl;
            rewrite length_drop; lia).
      rewrite take_app_length' by (by rewrite hex_chars_length, Htk).
      rewrite drop_app_add' by (by rewrite hex_chars_length, Htk).
      rewrite (take_S_r _ _ b) by done. rewrite hex_chars_snoc.
      simpl. rewrite <- app_assoc. simpl. rewrite drop_drop.
      repeat (f_equal; try lia). }
    assert (Hpk : poke (lastRxAscii v) from (printable_or_dot b)
              = Some (map printable_or_dot (take (S from) resp)
                      ++ drop (S from) a0)).
    { rewrite Hasc. rewrite poke_ok
        by (rewrite length_app, length_map, Htk, length_drop; lia).
      rewrite insert_app_r_alt by (rewrite length_map, Htk; lia).
      rewrite length_map, Htk, Nat.sub_diag.
      rewrite (take_S_r _ _ b) by done. rewrite map_app. simpl.
      rewrite <- app_assoc. f_equal.
      destruct (drop from a0) as [|x rest] eqn:Hdrop.
      { apply (f_equal length) in Hdrop. rewrite length_drop in Hdrop.
        simpl in Hdrop. lia. }
      simpl. f_equal.
      replace (S from) with (from + 1)%nat by lia.
      by rewrite <- drop_drop, Hdrop. }
    eapply bind_step.
    { prim. fields. rewrite Hbuf, Hb. cbv beta iota. fields. rewrite Hspr.
      cbv beta iota. fields. rewrite Hpk. reflexivity. }
    fields. replace (3 * from + 3)%nat with (3 * S from)%nat by lia.
    rewrite (IH (S from)); fields; try done; try lia.
    by replace (S from + count)%nat with (from + S count)%nat by lia.
Qed.

Lemma rx_c_str_trimmed (chars rest : list ascii) m :
  length chars = S m → Forall (λ c, c ≠ NUL) chars →
  c_str (<[m:=NUL]> (chars ++ NUL :: rest)) = Some (take m chars).
Proof.
  intros Hlen Hnn.
  rewrite insert_app_l by lia. rewrite insert_take_drop by lia.
  rewrite <- app_assoc. apply c_str_app. by apply Forall_take.
Qed.

Lemma rx_c_str_closed (pre a0 : list ascii) :
  Forall (λ c, c ≠ NUL) pre → (length pre < length a0)%nat →
  c_str (<[length pre:=NUL]> (pre ++ drop (length pre) a0)) = Some pre.
Proof.
  intros Hnn Hlen.
  rewrite insert_app_r_alt by lia. rewrite Nat.sub_diag.
  destruct (drop (length pre) a0) as [|y rest] eqn:Hdrop.
  { apply (f_equal length) in Hdrop. rewrite length_drop in Hdrop.
    simpl in Hdrop. lia. }
  simpl. by apply c_str_app.
Qed.

(** The exchange of [spiReceive()] up to the decision on [hasData]. *)
Lemma rx_spiReceive_prefix o c (v : Vars) store tr x0 dat y0 asc :
  lastRxData v = x0 :: dat → lastRxAscii v = y0 :: asc →
  spiReceive o (mkMachine c v store tr)
  = (let hasData := bool_decide (classified_length (response o) ≠ 0%nat) in
     (n ← var rxLen;
      when (hasData && (0 <? n)%nat)
        (pa ← for_loop 0 (n `min` RX_BUF_LEN)
           (λ i (pa : nat * nat),
              b ← rxBuf_at i;
              d ← var lastRxData;
              dk ← checked (sprintf_02X_sp d pa.1 b);
              with_vars (set_lastRxData dk.1);;
              upd_lastRxAscii (λ d, poke d pa.2 (printable_or_dot b));;
              mret ((pa.1 + dk.2)%nat, S pa.2)) (0%nat, 0%nat);
         upd_lastRxAscii (λ d, poke d pa.2 NUL);;
         when (0 <? pa.1)%nat (upd_lastRxData (λ d, poke d (pa.1 - 1) NUL)));;
      if (hasData : bool) then
        with_vars (set_lastSpiResult 0);;
        with_vars (λ v, set_rxCount (u32_add (rxCount v) 1) v);;
        emit (DigitalWrite LED_PIN LOW);;
        with_vars (set_ledOn true);;
        with_vars (set_lastLedOff (u32_add (millis (led_t_arm o)) LED_FLASH_MS));;
        if pub_mqtt_up o then
          c ← config;
          k ← var rxCount;
          d ← var lastRxData;
          a ← var lastRxAscii;
          hex ← checked (c_str d);
          asc ← checked (c_str a);
          emit (MqttPublish (cfgMqttTopic c) (PubRx k hex asc))
        else mret tt
      else
        with_vars (set_lastSpiResult 1)))
      (mkMachine c
         (set_lastRxAscii (NUL :: asc)
            (set_lastRxData (NUL :: dat)
               (set_rxLen (classified_length (response o))
                  (set_rxBuf (response o) v))))
         store
         (tr ++ [DigitalWrite SPI_CS LOW; SpiBeginTransaction]
             ++ map (λ i, SpiTransfer "000"%byte (miso o i)) (seq 0 32)
             ++ [SpiEndTransaction; DigitalWrite SPI_CS HIGH])).
Proof.
  intros Hdat Hasc. unfold spiReceive.
  step. step. step.
  eapply bind_step; [apply rx_transfer_loop|]. fields.
  step. step. step.
  eapply bind_step.
  { lazymatch goal with
    | |- for_loop _ _ _ _ (mkMachine ?c ?v ?st ?tr) = _ =>
        exact (rx_scan_loop (response o) 32 0 c v st tr eq_refl
                 (Nat.le_refl 32) ltac:(lia))
    end. }
  fields.
  eapply bind_step.
  { prim. fields. rewrite Hdat. reflexivity. }
  eapply bind_step.
  { prim. fields. rewrite Hasc. reflexivity. }
  cbv zeta. fields. rewrite <- !app_assoc. reflexivity.
Qed.

(** What [spiReceive()] does, for display arrays of the declared sizes:
    it returns, having stored only inside the arrays. *)
Lemma rx_spiReceive_effect o (s : Device) :
  sized (vars s) →
  ∃ s' evs,
    spiReceive o s = Done tt s'
    ∧ cfg s' = cfg s ∧ nvs s' = nvs s
    ∧ rxBuf (vars s') = response o
    ∧ rxLen (vars s') = classified_length (response o)
    ∧ c_str (lastRxData (vars s')) = Some (hex_field (payload (response o)))
    ∧ c_str (lastRxAscii (vars s')) = Some (ascii_field (payload (response o)))
    ∧ sized (vars s')
    ∧ lastSpiResult (vars s')
      = (if classified_length (response o) is O then 1 else 0)
    ∧ rxCount (vars s')
      = (if classified_length (response o) is O then rxCount (vars s)
         else u32_add (rxCount (vars s)) 1)
    ∧ ledOn (vars s')
      = (if classified_length (response o) is O then ledOn (vars s) else true)
    ∧ lastLedOff (vars s')
      = (if classified_length (response o) is O then lastLedOff (vars s)
         else u32_add (millis (led_t_arm o)) LED_FLASH_MS)
    ∧ apMode (vars s') = apMode (vars s)
    ∧ wifiConnected (vars s') = wifiConnected (vars s)
    ∧ lastRx (vars s') = lastRx (vars s)
    ∧ lastMqttReconnect (vars s') = lastMqttReconnect (vars s)
    ∧ apStartTime (vars s') = apStartTime (vars s)
    ∧ trace s' = trace s ++ evs
    ∧ bus_transactions evs = 1%nat
    ∧ connect_attempts evs = 0%nat
    ∧ Forall (λ e, ∀ st, e ≠ HttpStatus st) evs.
Proof.
  intros [Hd Ha]. open_state s. simpl in Hd, Ha.
  destruct dat as [|x0 dat]; [discriminate|].
  destruct asc as [|y0 asc]; [discriminate|].
  rewrite (rx_spiReceive_prefix o c
             (mkVars buf len ap wc n lrx lled lrc aps on r (x0 :: dat) (y0 :: asc))
             store tr x0 dat y0 asc eq_refl eq_refl).
  cbv zeta. fields.
  pose proof (classified_length_bound (response o)) as Hbound.
  rewrite response_length in Hbound.
  unfold payload.
  destruct (classified_length (response o)) as [|k] eqn:Hn.
  - (* no data *)
    eexists _, ([DigitalWrite SPI_CS LOW; SpiBeginTransaction]
                ++ map (λ i, SpiTransfer "000"%byte (miso o i)) (seq 0 32)
                ++ [SpiEndTransaction; DigitalWrite SPI_CS HIGH]).
    split.
    { step. reflexivity. }
    fields. repeat (split; [reflexivity|]).
    split; [done|]. repeat (split; [reflexivity|]).
    rewrite Forall_app, Forall_app, Forall_map. repeat split.
    + repeat constructor; intros; discriminate.
    + apply Forall_forall. intros; discriminate.
    + repeat constructor; intros; discriminate.
  - (* data *)
    assert (Hmin : (S k `min` RX_BUF_LEN)%nat = S k)
      by (unfold RX_BUF_LEN; lia).
    assert (Hlen : length (take (S k) (response o)) = S k)
      by (rewrite length_take, response_length; lia).
    assert (Hne : take (S k) (response o) ≠ [])
      by (intros E; rewrite E in Hlen; discriminate).
    set (chunks := flat_map (λ b, take 3 (fmt_02X_sp b)) (take (S k) (response o))).
    set (text := map printable_or_dot (take (S k) (response o))).
    assert (Hchunks : length chunks = S (3 * k + 2)).
    { unfold chunks. rewrite hex_chars_length, Hlen. lia. }
    assert (Htext : length text = S k)
      by (unfold text; by rewrite length_map).
    assert (Hrender :
      ∃ s2,
        (when (bool_decide (S k ≠ 0%nat) && (0 <? S k)%nat)
           (pa ← for_loop 0 (S k `min` RX_BUF_LEN)
              (λ i (pa : nat * nat),
                 b ← rxBuf_at i;
                 d ← var lastRxData;
                 dk ← checked (sprintf_02X_sp d pa.1 b);
                 with_vars (set_lastRxData dk.1);;
                 upd_lastRxAscii (λ d, poke d pa.2 (printable_or_dot b));;
                 mret ((pa.1 + dk.2)%nat, S pa.2)) (0%nat, 0%nat);
            upd_lastRxAscii (λ d, poke d pa.2 NUL);;
            when (0 <? pa.1)%nat
              (upd_lastRxData (λ d, poke d (pa.1 - 1) NUL))))
          (mkMachine c
             (mkVars (response o) (S k) ap wc n lrx lled lrc aps on r
                (NUL :: dat) (NUL :: asc))
             store
             (tr ++ [DigitalWrite SPI_CS LOW; SpiBeginTransaction]
                 ++ map (λ i, SpiTransfer "000"%byte (miso o i)) (seq 0 32)
                 ++ [SpiEndTransaction; DigitalWrite SPI_CS HIGH]))
        = Done tt s2
        ∧ s2 = mkMachine c
             (mkVars (response o) (S k) ap wc n lrx lled lrc aps on r
                (<[(3 * k + 2)%nat:=NUL]> (chunks ++ NUL :: drop (3 * S k + 1) (NUL :: dat)))
                (<[S k:=NUL]> (text ++ drop (S k) (NUL :: asc))))
             store
             (tr ++ [DigitalWrite SPI_CS LOW; SpiBeginTransaction]
                 ++ map (λ i, SpiTransfer "000"%byte (miso o i)) (seq 0 32)
                 ++ [SpiEndTransaction; DigitalWrite SPI_CS HIGH])).
    { eexists. split; [|reflexivity].
      cbn [bool_decide decide_rel andb Nat.ltb Nat.leb when].
      rewrite Hmin.
      eapply bind_step.
      { lazymatch goal with
        | |- for_loop _ _ _ _ (mkMachine ?c ?v ?st ?tr) = _ =>
            exact (rx_render_loop (response o) (NUL :: dat) (NUL :: asc) (S k)
                     0 c v st tr eq_refl Hd Ha
                     ltac:(rewrite response_length; lia) ltac:(lia)
                     eq_refl eq_refl)
        end. }
      fields. change (0 + S k)%nat with (S k). fold chunks text.
      eapply bind_step.
      { prim. fields. rewrite poke_ok; [reflexivity|].
        rewrite length_app, Htext, length_drop. simpl in Ha |- *. lia. }
      fields.
      replace (3 * S k - 1)%nat with (3 * k + 2)%nat by lia.
      replace (3 * S k)%nat with (S (3 * k + 2)) by lia.
      cbv beta iota. prim. fields.
      rewrite poke_ok; [reflexivity|].
      rewrite length_app, Hchunks. simpl. lia. }
    destruct Hrender as (s2 & Hrender & ->).
    assert (Hhex : c_str (<[(3 * k + 2)%nat:=NUL]>
                            (chunks ++ NUL :: drop (3 * S k + 1) (NUL :: dat)))
                   = Some (hex_field (take (S k) (response o)))).
    { rewrite (rx_c_str_trimmed _ _ _ Hchunks) by apply hex_chars_not_nul.
      f_equal. rewrite <- (hex_field_trim _ Hne). unfold chunks.
      f_equal. rewrite Hlen. lia. }
    assert (Htxt : c_str (<[S k:=NUL]> (text ++ drop (S k) (NUL :: asc)))
                   = Some (ascii_field (take (S k) (response o)))).
    { rewrite <- Htext at 1 2. rewrite rx_c_str_closed.
      - unfold text. by rewrite printable_or_dot_spec.
      - unfold text. rewrite printable_or_dot_spec. apply ascii_field_not_nul.
      - rewrite Htext. simpl in Ha |- *. lia. }
    assert (Hsz : length (<[(3 * k + 2)%nat:=NUL]>
                            (chunks ++ NUL :: drop (3 * S k + 1) (NUL :: dat)))
                  = (RX_BUF_LEN * 3 + 1)%nat
                  ∧ length (<[S k:=NUL]> (text ++ drop (S k) (NUL :: asc)))
                    = (RX_BUF_LEN + 1)%nat).
    { rewrite !length_insert, !length_app, Hchunks, Htext. cbn [length].
      rewrite !length_drop. unfold RX_BUF_LEN in *. simpl in Hd, Ha |- *.
      split; lia. }
    destruct (pub_mqtt_up o) eqn:Hpub.
    + eexists _, (([DigitalWrite SPI_CS LOW; SpiBeginTransaction]
                ++ map (λ i, SpiTransfer "000"%byte (miso o i)) (seq 0 32)
                ++ [SpiEndTransaction; DigitalWrite SPI_CS HIGH])
                ++ [DigitalWrite LED_PIN LOW;
                    MqttPublish (cfgMqttTopic c)
                      (PubRx (u32_add n 1)
                         (hex_field (take (S k) (response o)))
                         (ascii_field (take (S k) (response o))))]).
      split.
      { step. eapply bind_step; [exact Hrender|].
        cbn [bool_decide decide_rel]. do 5 step.
        step. step. step. step.
        eapply bind_step; [prim; rewrite Hhex; reflexivity|].
        eapply bind_step; [prim; rewrite Htxt; reflexivity|].
        reflexivity. }
      fields. repeat (split; [reflexivity|]).
      split; [exact Hhex|]. split; [exact Htxt|].
      split; [exact Hsz|]. repeat (split; [reflexivity|]).
      split; [by rewrite <- !app_assoc|].
      split; [unfold bus_transactions; rewrite !occurrences_app; simpl;
              clear; induction (seq 0 32); simpl; lia|].
      split; [unfold connect_attempts; rewrite !occurrences_app; simpl;
              clear; induction (seq 0 32); simpl; lia|].
      rewrite !Forall_app, Forall_map. repeat split;
        try (apply Forall_forall; intros; discriminate);
        repeat constructor; intros; discriminate.
    + eexists _, (([DigitalWrite SPI_CS LOW; SpiBeginTransaction]
                ++ map (λ i, SpiTransfer "000"%byte (miso o i)) (seq 0 32)
                ++ [SpiEndTransaction; DigitalWrite SPI_CS HIGH])
                ++ [DigitalWrite LED_PIN LOW]).
      split.
      { step. eapply bind_step; [exact Hrender|].
        cbn [bool_decide decide_rel]. do 5 step.
        reflexivity. }
      fields. repeat (split; [reflexivity|]).
      split; [exact Hhex|]. split; [exact Htxt|].
      split; [exact Hsz|]. repeat (split; [reflexivity|]).
      split; [by rewrite <- !app_assoc|].
      split; [unfold bus_transactions; rewrite !occurrences_app; simpl;
              clear; induction (seq 0 32); simpl; lia|].
      split; [unfold connect_attempts; rewrite !occurrences_app; simpl;
              clear; induction (seq 0 32); simpl; lia|].
      rewrite !Forall_app, Forall_map. repeat split;
        try (apply Forall_forall; intros; discriminate);
        repeat constructor; intros; discriminate.
Qed.

Ltac run :=
  cbv [mbind M_bind mret M_ret emit with_vars with_cfg with_nvs modify gets
       var config when restart checked upd_lastRxData upd_lastRxAscii];
  simpl.

Lemma rx_loop_ota_eq (s : Device) :
  loop_ota s =
  Done tt (mkMachine (cfg s) (vars s) (nvs s)
             (trace s ++ if wifiConnected (vars s) then [OtaHandle] else [])).
Proof.
  open_state s. unfold loop_ota. run.
  destruct wc; simpl; by rewrite ?app_nil_r.
Qed.

Lemma rx_loop_bus_eq o (s : Device) :
  loop_bus o s =
  if RX_INTERVAL <=? u32_sub (millis (bus_t_check o)) (lastRx (vars s))
  then spiReceive o
         (mkMachine (cfg s) (set_lastRx (millis (bus_t_mark o)) (vars s))
            (nvs s) (trace s))
  else Done tt s.
Proof.
  open_state s. unfold loop_bus.
  cbv [mbind M_bind mret M_ret with_vars modify gets var when]. fields.
  by destruct (_ <=? _).
Qed.

Lemma rx_loop_led_eq o (s : Device) :
  loop_led o s =
  if ledOn (vars s) && (lastLedOff (vars s) <=? millis (led_t_check o))
  then Done tt (mkMachine (cfg s) (set_ledOn false (vars s)) (nvs s)
                  (trace s ++ [DigitalWrite LED_PIN HIGH]))
  else Done tt s.
Proof.
  open_state s. unfold loop_led. run.
  by destruct (_ && _).
Qed.

Lemma rx_loop_ap_eq o (s : Device) :
  loop_ap o s =
  if apMode (vars s)
     && (AP_TIMEOUT_MS <? u32_sub (millis (ap_t_check o)) (apStartTime (vars s)))
  then Restarted s
  else Done tt s.
Proof.
  open_state s. unfold loop_ap. run.
  by destruct (_ && _).
Qed.

(** [mqttReconnect()], case by case. *)
Lemma rx_mqttReconnect_eq o (s : Device) :
  mqttReconnect o s =
  if is_empty (cfgMqttServer (cfg s)) then Done tt s
  else if rc_mqtt_up o then Done tt s
  else if u32_sub (millis (rc_t_check o)) (lastMqttReconnect (vars s))
          <? MQTT_RECONNECT_MS then Done tt s
  else Done tt
         (mkMachine (cfg s)
            (set_lastMqttReconnect (millis (rc_t_mark o)) (vars s))
            (nvs s)
            (trace s ++
             [MqttConnect "Hallow_2"
                (if is_empty (cfgMqttUser (cfg s)) then None
                 else Some (cfgMqttUser (cfg s), cfgMqttPass (cfg s)))])).
Proof.
  open_state s. unfold mqttReconnect. run.
  destruct (is_empty (cfgMqttServer c)); [done|].
  destruct (rc_mqtt_up o); [done|].
  destruct (_ <? _); [done|].
  by destruct (is_empty (cfgMqttUser c)).
Qed.

Lemma rx_handleClient_done o (s : Device) :
  terminated (vars s) →
  restart_requested o = false →
  ∃ evs,
    handleClient o s
    = Done tt (mkMachine (cfg s) (vars s) (nvs s) (trace s ++ evs))
    ∧ bus_transactions evs = 0%nat
    ∧ connect_attempts evs = 0%nat
    ∧ Forall (λ e, ∀ st, e = HttpStatus st →
                st_spi st = spiStr (lastSpiResult (vars s))) evs.
Proof.
  intros [[hex Hhex] [txt Htxt]].
  unfold restart_requested, handleClient. open_state s.
  simpl in Hhex, Htxt.
  destruct (pending o) as [rq|]; [|intros _].
  2:{ exists []. run. rewrite app_nil_r. repeat split; constructor. }
  destruct (String.eqb_spec (uri rq) "/") as [->|_]; simpl.
  { intros _. unfold handleRoot, handleConfig. run. destruct ap; simpl;
      eexists; (split; [reflexivity|]); repeat split;
      repeat constructor; intros; discriminate. }
  destruct (String.eqb_spec (uri rq) "/config") as [->|_]; simpl.
  { intros _. unfold handleConfig. run.
    eexists; (split; [reflexivity|]); repeat split;
      repeat constructor; intros; discriminate. }
  destruct (String.eqb (uri rq) "/save" && is_post (method rq)); simpl;
    [discriminate|].
  destruct (String.eqb_spec (uri rq) "/api/status") as [->|_]; simpl.
  { intros _. unfold handleStatus. run. rewrite Hhex, Htxt.
    eexists; (split; [reflexivity|]); repeat split;
      repeat constructor. intros st [= <-]. reflexivity. }
  destruct (String.eqb (uri rq) "/reboot"); [discriminate|].
  intros _. unfold handleRoot, handleConfig. run. destruct ap; simpl;
      eexists; (split; [reflexivity|]); repeat split;
      repeat constructor; intros; discriminate.
Qed.

Lemma rx_handleClient_restart o (s : Device) :
  restart_requested o = true →
  ∃ s', handleClient o s = Restarted s'
        ∧ vars s' = vars s
        ∧ ∃ p, trace s' = trace s ++ [HttpPage p].
Proof.
  unfold restart_requested, handleClient.
  destruct (pending o) as [rq|]; [|discriminate].
  destruct (String.eqb_spec (uri rq) "/") as [->|_]; [discriminate|].
  destruct (String.eqb_spec (uri rq) "/config") as [->|_]; [discriminate|].
  destruct (String.eqb (uri rq) "/save" && is_post (method rq)); simpl.
  { intros _. rewrite handleSave_eq. cbv zeta. eexists.
    split; [reflexivity|]. split; [reflexivity|]. by eexists. }
  destruct (String.eqb_spec (uri rq) "/api/status") as [->|_]; [discriminate|].
  destruct (String.eqb (uri rq) "/reboot"); [|discriminate].
  intros _. open_state s. unfold handleReboot. run. eexists.
  split; [reflexivity|]. split; [reflexivity|]. by eexists.
Qed.

Lemma rx_loop_mqtt_eq o (s : Device) :
  loop_mqtt o s =
  if wifiConnected (vars s) then
    match (if loop_mqtt_up o then Done tt s else mqttReconnect o s) with
    | Done _ s1 =>
        Done tt (mkMachine (cfg s1) (vars s1) (nvs s1) (trace s1 ++ [MqttLoop]))
    | other => other
    end
  else Done tt s.
Proof.
  open_state s. unfold loop_mqtt.
  cbv [mbind M_bind mret M_ret emit with_vars modify gets var when]. simpl.
  destruct wc; [|done]. destruct (loop_mqtt_up o); simpl; [done|].
  by destruct (mqttReconnect _ _).
Qed.

(** The MQTT section returns; of the globals it may change only
    [lastMqttReconnect]. *)
Lemma rx_loop_mqtt_frame o (s : Device) :
  ∃ s1 evs x,
    loop_mqtt o s = Done tt s1
    ∧ cfg s1 = cfg s ∧ nvs s1 = nvs s
    ∧ vars s1 = set_lastMqttReconnect x (vars s)
    ∧ trace s1 = trace s ++ evs
    ∧ bus_transactions evs = 0%nat
    ∧ Forall (λ e, ∀ st, e ≠ HttpStatus st) evs.
Proof.
  rewrite rx_loop_mqtt_eq.
  assert (Heta : vars s = set_lastMqttReconnect (lastMqttReconnect (vars s)) (vars s))
    by (by destruct (vars s)).
  destruct (wifiConnected (vars s)) eqn:Hwc.
  2:{ exists s, [], (lastMqttReconnect (vars s)). rewrite app_nil_r.
      repeat split; try done; constructor. }
  destruct (loop_mqtt_up o).
  { eexists _, [MqttLoop], (lastMqttReconnect (vars s)).
    split; [reflexivity|]. cbn [cfg vars nvs trace].
    repeat split; try done; repeat constructor; intros; discriminate. }
  rewrite rx_mqttReconnect_eq.
  destruct (is_empty _);
    [|destruct (rc_mqtt_up o); [|destruct (_ <? _)]].
  1-3: eexists _, [MqttLoop], (lastMqttReconnect (vars s));
    (split; [reflexivity|]);
    cbn [cfg vars nvs trace];
    repeat split; try done; repeat constructor; intros; discriminate.
  eexists _, [_; MqttLoop], _. split; [reflexivity|].
  cbn [cfg vars nvs trace]. rewrite <- app_assoc.
  repeat split; try done; repeat constructor; intros; discriminate.
Qed.

Ltac fields_all :=
  cbn [cfg vars nvs trace
       rxBuf rxLen apMode wifiConnected rxCount lastRx lastLedOff
       lastMqttReconnect apStartTime ledOn lastSpiResult lastRxData lastRxAscii
       set_rxBuf set_rxLen set_apMode set_wifiConnected set_rxCount set_lastRx
       set_lastLedOff set_lastMqttReconnect set_apStartTime set_ledOn
       set_lastSpiResult set_lastRxData set_lastRxAscii fst snd] in *.

(** The sections of [loop()] before the bus section. *)
Lemma rx_loop_head o (s : Device) :
  terminated (vars s) →
  restart_requested o = false →
  ∃ s1 x evs,
    loop o s = (loop_bus o ≫= λ _, loop_led o ≫= λ _, loop_ap o) s1
    ∧ cfg s1 = cfg s ∧ nvs s1 = nvs s
    ∧ vars s1 = set_lastMqttReconnect x (vars s)
    ∧ trace s1 = trace s ++ evs
    ∧ bus_transactions evs = 0%nat
    ∧ Forall (λ e, ∀ st, e = HttpStatus st →
                st_spi st = spiStr (lastSpiResult (vars s))) evs.
Proof.
  intros Hterm Hreq. unfold loop.
  rewrite (bind_done _ _ _ _ _ (rx_loop_ota_eq s)).
  destruct (rx_handleClient_done o
              (mkMachine (cfg s) (vars s) (nvs s)
                 (trace s ++ if wifiConnected (vars s) then [OtaHandle] else []))
              Hterm Hreq) as (evs & Hweb & Hbus & _ & Hst).
  rewrite (bind_done _ _ _ _ _ Hweb). cbn [cfg vars nvs trace] in *.
  destruct (rx_loop_mqtt_frame o
              (mkMachine (cfg s) (vars s) (nvs s)
                 ((trace s ++ if wifiConnected (vars s) then [OtaHandle] else [])
                  ++ evs)))
    as (s1 & evs1 & x & Hrun & Hc & Hn & Hv & Htr & Hb1 & Hs1).
  cbn [cfg vars nvs trace] in *.
  exists s1, x,
    ((if wifiConnected (vars s) then [OtaHandle] else []) ++ evs ++ evs1).
  rewrite (bind_done _ _ _ _ _ Hrun).
  repeat (split; [done|]).
  split; [|split].
  - rewrite Htr. by rewrite <- !app_assoc.
  - unfold bus_transactions in *. rewrite !occurrences_app, Hbus, Hb1.
    by destruct (wifiConnected _).
  - rewrite !Forall_app. split; [|split].
    + destruct (wifiConnected _); repeat constructor; intros; discriminate.
    + done.
    + eapply Forall_impl; [exact Hs1|]. intros e He st ->. by destruct (He st).
Qed.

(** What one call of [loop()] does to the globals and the trace when the
    request it serves, if any, does not restart the device. *)
Lemma rx_loop_effect o (s : Device) :
  sized (vars s) → terminated (vars s) →
  restart_requested o = false →
  let due := RX_INTERVAL <=? u32_sub (millis (bus_t_check o)) (lastRx (vars s)) in
  let got := due && negb (classified_length (response o) =? 0)%nat in
  let on2 := if got then true else ledOn (vars s) in
  let off2 := if got then u32_add (millis (led_t_arm o)) LED_FLASH_MS
              else lastLedOff (vars s) in
  let led_off := on2 && (off2 <=? millis (led_t_check o)) in
  let expired :=
    apMode (vars s)
    && (AP_TIMEOUT_MS <? u32_sub (millis (ap_t_check o)) (apStartTime (vars s))) in
  ∃ s' evs,
    loop o s = (if expired then Restarted s' else Done tt s')
    ∧ lastRx (vars s') = (if due then millis (bus_t_mark o) else lastRx (vars s))
    ∧ rxCount (vars s')
      = (if got then u32_add (rxCount (vars s)) 1 else rxCount (vars s))
    ∧ lastSpiResult (vars s')
      = (if due then (if got then 0 else 1) else lastSpiResult (vars s))
    ∧ ledOn (vars s') = (if led_off then false else on2)
    ∧ lastLedOff (vars s') = off2
    ∧ apMode (vars s') = apMode (vars s)
    ∧ apStartTime (vars s') = apStartTime (vars s)
    ∧ wifiConnected (vars s') = wifiConnected (vars s)
    ∧ sized (vars s') ∧ terminated (vars s')
    ∧ rxLen (vars s')
      = (if due then classified_length (response o) else rxLen (vars s))
    ∧ (due = true →
       c_str (lastRxData (vars s')) = Some (hex_field (payload (response o)))
       ∧ c_str (lastRxAscii (vars s'))
         = Some (ascii_field (payload (response o))))
    ∧ trace s' = trace s ++ evs
    ∧ bus_transactions evs = (if due then 1 else 0)%nat
    ∧ Forall (λ e, ∀ st, e = HttpStatus st →
                st_spi st = spiStr (lastSpiResult (vars s))) evs.
Proof.
  intros Hsz Hterm Hreq due got on2 off2 led_off expired.
  destruct (rx_loop_head o s Hterm Hreq)
    as (s1 & x & evs & -> & Hc & Hn & Hv & Htr & Hbus & Hst).
  assert (Hbusres :
    ∃ s2 evs2,
      loop_bus o s1 = Done tt s2
      ∧ lastRx (vars s2) = (if due then millis (bus_t_mark o) else lastRx (vars s))
      ∧ rxCount (vars s2)
        = (if got then u32_add (rxCount (vars s)) 1 else rxCount (vars s))
      ∧ lastSpiResult (vars s2)
        = (if due then (if got then 0 else 1) else lastSpiResult (vars s))
      ∧ ledOn (vars s2) = on2
      ∧ lastLedOff (vars s2) = off2
      ∧ apMode (vars s2) = apMode (vars s)
      ∧ apStartTime (vars s2) = apStartTime (vars s)
      ∧ wifiConnected (vars s2) = wifiConnected (vars s)
      ∧ sized (vars s2) ∧ terminated (vars s2)
      ∧ rxLen (vars s2)
        = (if due then classified_length (response o) else rxLen (vars s))
      ∧ (due = true →
         c_str (lastRxData (vars s2)) = Some (hex_field (payload (response o)))
         ∧ c_str (lastRxAscii (vars s2))
           = Some (ascii_field (payload (response o))))
      ∧ trace s2 = trace s ++ evs ++ evs2
      ∧ bus_transactions evs2 = (if due then 1 else 0)%nat
      ∧ Forall (λ e, ∀ st, e ≠ HttpStatus st) evs2).
  { rewrite rx_loop_bus_eq. rewrite Hv. fields. fold due.
    subst got on2 off2. destruct due eqn:Hdue.
    - destruct (rx_spiReceive_effect o
                  (mkMachine (cfg s1)
                     (set_lastRx (millis (bus_t_mark o))
                        (set_lastMqttReconnect x (vars s)))
                     (nvs s1) (trace s1)))
        as (s2 & evs2 & Hrun & _ & _ & _ & Hlen & Hhex & Htxt & Hsz2 & Hr
            & Hcnt & Hon & Hoff & Hap & Hwc & Hlrx & _ & Haps & Htr2
            & Hb2 & _ & Hs2).
      { destruct Hsz. split; fields; done. }
      fields_all.
      exists s2, evs2. rewrite Hrun. split; [done|].
      rewrite Hlrx, Hcnt, Hr, Hon, Hoff, Hap, Haps, Hwc, Hlen, Htr2, Htr.
      fields. cbn [andb].
      assert (Hterm2 : terminated (vars s2))
        by (split; [rewrite Hhex | rewrite Htxt]; eauto).
      destruct (classified_length (response o)) eqn:Hcl; cbn [Nat.eqb negb];
        repeat (split; [done|]); by rewrite app_assoc.
    - exists s1, []. split; [done|]. rewrite Hv. fields. cbn [andb].
      rewrite Htr, app_nil_r.
      destruct Hsz, Hterm.
      repeat (split; [done|]). constructor. }
  destruct Hbusres as (s2 & evs2 & Hrun & H1 & H2 & H3 & H4 & H5 & H6 & H7
                       & H8 & H9 & H10 & H11 & H12 & Htr2 & Hb2 & Hs2).
  rewrite (bind_done _ _ _ _ _ Hrun).
  assert (Hstatus : Forall (λ e, ∀ st, e = HttpStatus st →
                      st_spi st = spiStr (lastSpiResult (vars s))) (evs ++ evs2)).
  { rewrite Forall_app. split; [done|].
    eapply Forall_impl; [exact Hs2|]. intros e He st ->. by destruct (He st). }
  assert (Hcount : bus_transactions (evs ++ evs2) = (if due then 1 else 0)%nat).
  { unfold bus_transactions in *. by rewrite occurrences_app, Hbus, Hb2. }
  change ((loop_led o ≫= λ _, loop_ap o) s2)
    with (match loop_led o s2 with
          | Done _ s3 => loop_ap o s3
          | Restarted s3 => Restarted s3
          | Fault => Fault
          end).
  rewrite rx_loop_led_eq, H4, H5. fold led_off.
  destruct led_off eqn:Hled; rewrite rx_loop_ap_eq; fields;
    rewrite H6, H7; fold expired.
  - eexists _, ((evs ++ evs2) ++ [DigitalWrite LED_PIN HIGH]).
    split; [reflexivity|]. fields. rewrite Htr2, <- !app_assoc.
    repeat (split; [done|]).
    split.
    + unfold bus_transactions in *.
      rewrite app_assoc, occurrences_app, Hcount. simpl. lia.
    + rewrite app_assoc, Forall_app. split; [done|].
      repeat constructor; intros; discriminate.
  - eexists _, (evs ++ evs2).
    split; [reflexivity|]. rewrite Htr2.
    repeat (split; [done|]). done.
Qed.

(** A request for /save or /reboot ends the call before the MQTT
    section: the globals are as they were. *)
Lemma rx_loop_restart_requested o (s : Device) :
  restart_requested o = true →
  ∃ s' evs,
    loop o s = Restarted s'
    ∧ vars s' = vars s
    ∧ trace s' = trace s ++ evs
    ∧ bus_transactions evs = 0%nat
    ∧ connect_attempts evs = 0%nat
    ∧ Forall (λ e, ∀ st, e ≠ HttpStatus st) evs.
Proof.
  intros Hreq. unfold loop.
  rewrite (bind_done _ _ _ _ _ (rx_loop_ota_eq s)).
  destruct (rx_handleClient_restart o
              (mkMachine (cfg s) (vars s) (nvs s)
                 (trace s ++ if wifiConnected (vars s) then [OtaHandle] else []))
              Hreq) as (s' & Hweb & Hv & p & Htr).
  rewrite (bind_restarted _ _ _ _ Hweb). cbn [cfg vars nvs trace] in *.
  exists s', ((if wifiConnected (vars s) then [OtaHandle] else []) ++ [HttpPage p]).
  split; [done|]. split; [done|]. split; [by rewrite Htr, <- app_assoc|].
  destruct (wifiConnected (vars s)); repeat split;
    repeat constructor; intros; discriminate.
Qed.

Lemma rx_loadConfig_frame (s : Device) :
  ∃ c', loadConfig s = Done tt (mkMachine c' (vars s) (nvs s) (trace s)).
Proof.
  destruct s as [c v store tr]. unfold loadConfig.
  cbv [mbind M_bind mret M_ret with_cfg modify gets config when].
  cbn [cfg vars nvs trace].
  destruct (is_empty _); eexists; reflexivity.
Qed.

(** [setup()] after power-on returns; it leaves the counter and the
    result as initialised, the display arrays empty, and serves no
    request. *)
Lemma rx_setup_frame b store :
  ∃ s evs,
    setup b (power_on store) = Done tt s
    ∧ lastSpiResult (vars s) = -1
    ∧ rxCount (vars s) = 0
    ∧ rxLen (vars s) = 0%nat
    ∧ sized (vars s) ∧ terminated (vars s)
    ∧ trace s = evs
    ∧ bus_transactions evs = 0%nat
    ∧ Forall (λ e, ∀ st, e ≠ HttpStatus st) evs.
Proof.
  unfold setup, power_on. 
  destruct (rx_loadConfig_frame
              (mkMachine (mkConfig "" "" "" 1883 "halow/rx" "" "")
                 (mkVars (replicate RX_BUF_LEN "000"%byte) 0 false false 0 0 0
                    0 0 false (-1)
                    (<[0%nat:=NUL]> (replicate (RX_BUF_LEN * 3 + 1) NUL))
                    (<[0%nat:=NUL]> (replicate (RX_BUF_LEN + 1) NUL)))
                 store
                 [DigitalWrite LED_PIN HIGH; DigitalWrite SPI_CS HIGH]))
    as [c' Hload].
  fields_all.
  assert (Hpre :
    ∀ rest : M Device unit,
      (emit (DigitalWrite LED_PIN HIGH);;
       emit (DigitalWrite SPI_CS HIGH);;
       upd_lastRxData (λ d, poke d 0 NUL);;
       upd_lastRxAscii (λ d, poke d 0 NUL);;
       loadConfig;; rest)
        (mkMachine (mkConfig "" "" "" 1883 "halow/rx" "" "")
           (mkVars (replicate RX_BUF_LEN "000"%byte) 0 false false 0 0 0 0 0
              false (-1) (replicate (RX_BUF_LEN * 3 + 1) NUL)
              (replicate (RX_BUF_LEN + 1) NUL))
           store [])
      = rest (mkMachine c'
                (mkVars (replicate RX_BUF_LEN "000"%byte) 0 false false 0 0 0
                   0 0 false (-1)
                   (<[0%nat:=NUL]> (replicate (RX_BUF_LEN * 3 + 1) NUL))
                   (<[0%nat:=NUL]> (replicate (RX_BUF_LEN + 1) NUL)))
                store
                [DigitalWrite LED_PIN HIGH; DigitalWrite SPI_CS HIGH])).
  { intros rest. step. step.
    eapply bind_step; [reflexivity|]. eapply bind_step; [reflexivity|].
    eapply bind_step; [exact Hload|]. reflexivity. }
  rewrite Hpre. clear Hpre Hload.
  cbv [mbind M_bind mret M_ret emit with_vars modify gets var config when
       connectWiFi startAP setupMQTT].
  fields.
  destruct (is_empty (cfgSSID c')); cbn [negb];
    [|destruct (wifi_joined b); fields;
      [destruct (is_empty (cfgMqttServer c'))|]];
    fields; eexists _, _; (split; [reflexivity|]); fields;
    (split; [reflexivity|]); (split; [reflexivity|]); (split; [reflexivity|]);
    (split; [by split|]); (split; [by split; eexists|]);
    (split; [reflexivity|]); (split; [reflexivity|]);
    repeat constructor; intros; discriminate.
Qed.

(** The invariant of the receiver: the display arrays keep their sizes
    and hold terminated strings, the classified length fits the buffer,
    the result is "not yet", "data" or "empty", and every status answer
    given so far said so. *)
Lemma rx_reachable_inv (s : Device) :
  reachable s →
  sized (vars s) ∧ terminated (vars s)
  ∧ (rxLen (vars s) ≤ 32)%nat
  ∧ (lastSpiResult (vars s) = -1 ∨ lastSpiResult (vars s) = 0
     ∨ lastSpiResult (vars s) = 1)
  ∧ Forall (λ e, ∀ st, e = HttpStatus st →
              st_spi st = "IDLE"%string ∨ st_spi st = "DATA"%string
              ∨ st_spi st = "EMPTY"%string) (trace s).
Proof.
  revert s.
  assert (Hstep : ∀ o s s',
    (sized (vars s) ∧ terminated (vars s)
     ∧ (rxLen (vars s) ≤ 32)%nat
     ∧ (lastSpiResult (vars s) = -1 ∨ lastSpiResult (vars s) = 0
        ∨ lastSpiResult (vars s) = 1)
     ∧ Forall (λ e, ∀ st, e = HttpStatus st →
                 st_spi st = "IDLE"%string ∨ st_spi st = "DATA"%string
                 ∨ st_spi st = "EMPTY"%string) (trace s)) →
    final (loop o s) = Some s' →
    sized (vars s') ∧ terminated (vars s')
    ∧ (rxLen (vars s') ≤ 32)%nat
    ∧ (lastSpiResult (vars s') = -1 ∨ lastSpiResult (vars s') = 0
       ∨ lastSpiResult (vars s') = 1)
    ∧ Forall (λ e, ∀ st, e = HttpStatus st →
                st_spi st = "IDLE"%string ∨ st_spi st = "DATA"%string
                ∨ st_spi st = "EMPTY"%string) (trace s')).
  { intros o s s' (Hsz & Hterm & Hlen & Hres & Htr) Hfin.
    destruct (restart_requested o) eqn:Hreq.
    - destruct (rx_loop_restart_requested o s Hreq)
        as (s2 & evs & Hrun & Hv & Htr2 & _ & _ & Hst).
      rewrite Hrun in Hfin. injection Hfin as <-.
      rewrite Hv, Htr2, Forall_app. repeat (split; [done|]).
      eapply Forall_impl; [exact Hst|]. intros e He st ->. by destruct (He st).
    - destruct (rx_loop_effect o s Hsz Hterm Hreq)
        as (s2 & evs & Hrun & _ & _ & Hr & _ & _ & _ & _ & _ & Hsz2 & Hterm2
            & Hlen2 & _ & Htr2 & _ & Hst).
      rewrite Hrun in Hfin.
      assert (s2 = s') as -> by (destruct (_ && _); simpl in Hfin; congruence).
      split; [done|]. split; [done|]. split; [|split].
      + rewrite Hlen2. destruct (_ <=? _); [|done].
        pose proof (classified_length_bound (response o)) as Hb.
        rewrite response_length in Hb. exact Hb.
      + rewrite Hr. destruct (_ <=? _); [|done].
        cbn [andb]. destruct (negb _); auto.
      + rewrite Htr2, Forall_app. split; [done|].
        eapply Forall_impl; [exact Hst|]. intros e He st Hst'.
        rewrite (He st Hst').
        destruct Hres as [-> | [-> | ->]]; cbn; auto. }
  intros s. induction 1 as [store b s Hs | o s s' _ IH Hl | o s s' _ IH Hl].
  - destruct (rx_setup_frame b store)
      as (s1 & evs & Hrun & Hr & _ & Hlen & Hsz & Hterm & Htr & _ & Hst).
    rewrite Hrun in Hs. injection Hs as <-.
    rewrite Hr, Hlen, Htr. split; [done|]. split; [done|].
    split; [lia|]. split; [by left|].
    eapply Forall_impl; [exact Hst|]. intros e He st ->. by destruct (He st).
  - apply (Hstep o s s' IH). by rewrite Hl.
  - apply (Hstep o s s' IH). by rewrite Hl.
Qed.

(** [handleStatus()] answers with the strings the display arrays hold. *)
Lemma rx_handleStatus_eq o (s : Device) hex txt :
  c_str (lastRxData (vars s)) = Some hex →
  c_str (lastRxAscii (vars s)) = Some txt →
  handleStatus o s
  = Done tt
      (mkMachine (cfg s) (vars s) (nvs s)
         (trace s ++
          [HttpStatus
             (mkStatus (rxCount (vars s)) (spiStr (lastSpiResult (vars s)))
                (status_mqtt_up o) (millis (status_t o)) (Some (hex, txt)))])).
Proof.
  intros Hhex Htxt. open_state s. simpl in Hhex, Htxt.
  unfold handleStatus. prim. fields. by rewrite Hhex, Htxt.
Qed.

(** [loop()] never stores outside an array. *)
Lemma rx_loop_no_fault o (s : Device) :
  sized (vars s) → terminated (vars s) → loop o s ≠ Fault.
Proof.
  intros Hsz Hterm. destruct (restart_requested o) eqn:Hreq.
  - destruct (rx_loop_restart_requested o s Hreq) as (s' & ? & -> & _). done.
  - destruct (rx_loop_effect o s Hsz Hterm Hreq) as (s' & ? & -> & _).
    by destruct (_ && _).
Qed.

Lemma rx_setup_local b store :
  wifi_joined b = false →
  ∃ s, setup b (power_on store) = Done tt s
       ∧ apMode (vars s) = true
       ∧ apStartTime (vars s) = millis (ap_t_start b).
Proof.
  intros Hj.
  destruct (rx_loadConfig_frame
              (mkMachine (mkConfig "" "" "" 1883 "halow/rx" "" "")
                 (mkVars (replicate RX_BUF_LEN "000"%byte) 0 false false 0 0 0
                    0 0 false (-1)
                    (<[0%nat:=NUL]> (replicate (RX_BUF_LEN * 3 + 1) NUL))
                    (<[0%nat:=NUL]> (replicate (RX_BUF_LEN + 1) NUL)))
                 store
                 [DigitalWrite LED_PIN HIGH; DigitalWrite SPI_CS HIGH]))
    as [c' Hload].
  fields_all. unfold setup, power_on.
  destruct (is_empty (cfgSSID c')) eqn:Hssid.
  - eexists. split.
    { step. step.
      eapply bind_step; [reflexivity|]. eapply bind_step; [reflexivity|].
      eapply bind_step; [exact Hload|]. step. rewrite Hssid.
      cbn [negb]. repeat step. reflexivity. }
    done.
  - eexists. split.
    { step. step.
      eapply bind_step; [reflexivity|]. eapply bind_step; [reflexivity|].
      eapply bind_step; [exact Hload|]. step. rewrite Hssid.
      unfold connectWiFi. rewrite Hj. cbn [negb]. repeat step. reflexivity. }
    done.
Qed.

(** An indicator armed in this call survives the call's own LED test
    when the off-deadline does not wrap and has not been reached. *)
Lemma rx_loop_led_survives o (s : Device) :
  sized (vars s) → terminated (vars s) →
  restart_requested o = false →
  RX_INTERVAL ≤ u32_sub (millis (bus_t_check o)) (lastRx (vars s)) →
  classified_length (response o) ≠ 0%nat →
  millis (led_t_arm o) + LED_FLASH_MS < 2 ^ 32 →
  millis (led_t_check o) < millis (led_t_arm o) + LED_FLASH_MS →
  ∃ s', final (loop o s) = Some s' ∧ ledOn (vars s') = true.
Proof.
  intros Hsz Hterm Hreq Hdue Hdata Hnowrap Hearly.
  destruct (rx_loop_effect o s Hsz Hterm Hreq)
    as (s' & evs & Hrun & _ & _ & _ & Hled & _).
  exists s'. split; [rewrite Hrun; by destruct (_ && _)|].
  rewrite Hled. rewrite (proj2 (Z.leb_le _ _) Hdue). cbn [andb].
  rewrite (proj2 (Nat.eqb_neq _ _) Hdata). cbn [negb andb].
  replace (_ <=? _) with false; [done|].
  symmetry. apply Z.leb_gt. unfold u32_add.
  pose proof (millis_range (led_t_arm o)).
  rewrite (wrap32_small (millis (led_t_arm o) + LED_FLASH_MS))
    by (unfold LED_FLASH_MS in *; lia).
  lia.
Qed.

End RXFacts.

(** ** The claims of the specification *)

Module Claims.
Import Platform Runtime Spec Examples.
Import WordFacts RunFacts BufferFacts.

(** C1. For the receiving role every 32-byte exchange is classified:
    when every response byte is [0x00] or [0xFF] the result is
    Success-empty (1) and the hex and ascii strings are empty; otherwise
    the result is Success-with-data (0) and the classified length is the
    index of the last byte that is neither, plus one, the ascii string
    having that length and the hex string three characters per byte less
    the trailing space. *)
Theorem rx_classification o (s : RX.Device) :
  RX.sized (vars s) →
  ∃ s',
    RX.spiReceive o s = Done tt s'
    ∧ ((∀ i, (i < 32)%nat → sentinel (miso o i)) →
       RX.lastSpiResult (vars s') = 1
       ∧ c_str (RX.lastRxData (vars s')) = Some []
       ∧ c_str (RX.lastRxAscii (vars s')) = Some [])
    ∧ (∀ k, (k < 32)%nat → ¬ sentinel (miso o k) →
         (∀ j, (k < j < 32)%nat → sentinel (miso o j)) →
         RX.lastSpiResult (vars s') = 0
         ∧ RX.rxLen (vars s') = S k
         ∧ ∃ hex txt,
             c_str (RX.lastRxData (vars s')) = Some hex
             ∧ c_str (RX.lastRxAscii (vars s')) = Some txt
             ∧ length hex = (3 * S k - 1)%nat
             ∧ length txt = S k)
    ∧ ((∀ i, (i < 32)%nat → sentinel (miso o i))
       ∨ ∃ k, (k < 32)%nat ∧ ¬ sentinel (miso o k)
              ∧ ∀ j, (k < j < 32)%nat → sentinel (miso o j)).
Proof.
  intros Hsz.
  destruct (RXFacts.rx_spiReceive_effect o s Hsz)
    as (s' & evs & Hrun & _ & _ & _ & Hlen & Hhex & Htxt & _ & Hres & _).
  exists s'. split; [done|]. split; [|split].
  - intros Hall. rewrite Hres, Hhex, Htxt. unfold payload.
    by rewrite (classified_length_zero o Hall).
  - intros k Hk Hnk Hafter. rewrite Hres, Hlen, Hhex, Htxt. unfold payload.
    rewrite (classified_length_last o k Hk Hnk Hafter).
    split; [done|]. split; [done|].
    assert (Htk : length (take (S k) (response o)) = S k)
      by (rewrite length_take, response_length; lia).
    eexists _, _. split; [done|]. split; [done|]. split.
    + rewrite hex_field_length, Htk; [done|].
      intros E. rewrite E in Htk. discriminate.
    + unfold ascii_field. by rewrite length_map.
  - apply response_cases.
Qed.

(** C1, the boundary case of the specification: a response whose only
    byte that is no sentinel sits at index 3 is classified as data of
    length 4. *)
Lemma rx_classification_index_3 :
  ∃ s',
    RX.spiReceive (quiet 5000 lone_byte_at_3) (RX.power_on ∅) = Done tt s'
    ∧ RX.lastSpiResult (vars s') = 0
    ∧ RX.rxLen (vars s') = 4%nat.
Proof.
  destruct (rx_classification (quiet 5000 lone_byte_at_3) (RX.power_on ∅))
    as (s' & Hrun & _ & Hdata & _).
  { split; reflexivity. }
  exists s'. split; [exact Hrun|].
  destruct (Hdata 3%nat) as (Hres & Hlen & _).
  - lia.
  - intros [H | H]; discriminate H.
  - intros j Hj. left. unfold quiet, lone_byte_at_3. simpl.
    destruct (Nat.eqb_spec j 3); [lia | reflexivity].
  - split; [exact Hres | exact Hlen].
Defined.

(** C4. The receiving role renders the classified payload as
    space-separated two-digit uppercase hexadecimal and as printable
    ASCII, every byte outside [0x20..0x7E] replaced by a dot; these are
    the strings the display arrays hold after the exchange and the
    strings the status answer carries. *)
Theorem rx_rendering o (s : RX.Device) :
  RX.sized (vars s) →
  ∃ s',
    RX.spiReceive o s = Done tt s'
    ∧ length (payload (response o)) = RX.rxLen (vars s')
    ∧ c_str (RX.lastRxData (vars s')) = Some (hex_field (payload (response o)))
    ∧ c_str (RX.lastRxAscii (vars s'))
      = Some (ascii_field (payload (response o)))
    ∧ ∀ o',
        RX.handleStatus o' s'
        = Done tt
            (mkMachine (cfg s') (vars s') (nvs s')
               (trace s' ++
                [HttpStatus
                   (mkStatus (RX.rxCount (vars s'))
                      (RX.spiStr (RX.lastSpiResult (vars s')))
                      (status_mqtt_up o') (millis (status_t o'))
                      (Some (hex_field (payload (response o)),
                             ascii_field (payload (response o)))))])).
Proof.
  intros Hsz.
  destruct (RXFacts.rx_spiReceive_effect o s Hsz)
    as (s' & evs & Hrun & _ & _ & _ & Hlen & Hhex & Htxt & _).
  exists s'. split; [done|]. split; [|split; [done|split; [done|]]].
  - unfold payload. rewrite length_take, Hlen.
    pose proof (classified_length_bound (response o)). lia.
  - intros o'. by apply RXFacts.rx_handleStatus_eq.
Qed.

(** C4, scenario D of the specification: the bytes 48 45 4C 4C 4F are
    shown as "48 45 4C 4C 4F" (no trailing space) and "HELLO". *)
Lemma rx_rendering_hello :
  ∃ s',
    RX.spiReceive (quiet 5000 hello) (RX.power_on ∅) = Done tt s'
    ∧ c_str (RX.lastRxData (vars s'))
      = Some (list_ascii_of_string "48 45 4C 4C 4F")
    ∧ c_str (RX.lastRxAscii (vars s')) = Some (list_ascii_of_string "HELLO").
Proof.
  destruct (rx_rendering (quiet 5000 hello) (RX.power_on ∅))
    as (s' & Hrun & _ & Hhex & Htxt & _).
  { split; reflexivity. }
  exists s'. split; [exact Hrun|]. split.
  - rewrite Hhex. reflexivity.
  - rewrite Htxt. reflexivity.
Defined.

(** C10. In every state the receiver reaches, the classified length is
    at most 32, the display arrays have their 97 and 33 bytes and hold
    NUL-terminated strings of at most 96 and 32 characters; from such a
    state neither [spiReceive()] nor [loop()] stores outside an array,
    and [spiReceive()] leaves the arrays in the same condition. *)
Theorem rx_display_buffers_safe (s : RX.Device) :
  RX.reachable s →
  ((RX.rxLen (vars s) ≤ 32)%nat
   ∧ length (RX.lastRxData (vars s)) = 97%nat
   ∧ length (RX.lastRxAscii (vars s)) = 33%nat
   ∧ (∃ hex, c_str (RX.lastRxData (vars s)) = Some hex
             ∧ (length hex ≤ 96)%nat)
   ∧ (∃ txt, c_str (RX.lastRxAscii (vars s)) = Some txt
             ∧ (length txt ≤ 32)%nat))
  ∧ ∀ o,
      RX.loop o s ≠ Fault
      ∧ ∃ s',
          RX.spiReceive o s = Done tt s'
          ∧ (RX.rxLen (vars s') ≤ 32)%nat
          ∧ length (RX.lastRxData (vars s')) = 97%nat
          ∧ length (RX.lastRxAscii (vars s')) = 33%nat
          ∧ (∃ hex, c_str (RX.lastRxData (vars s')) = Some hex
                    ∧ (length hex ≤ 96)%nat)
          ∧ (∃ txt, c_str (RX.lastRxAscii (vars s')) = Some txt
                    ∧ (length txt ≤ 32)%nat).
Proof.
  intros Hreach.
  destruct (RXFacts.rx_reachable_inv s Hreach)
    as ([Hd Ha] & [[hex Hhex] [txt Htxt]] & Hlen & _).
  split.
  - split; [done|]. split; [done|]. split; [done|]. split.
    + exists hex. split; [done|]. apply c_str_length in Hhex.
      rewrite Hd in Hhex. simpl in Hhex. lia.
    + exists txt. split; [done|]. apply c_str_length in Htxt.
      rewrite Ha in Htxt. simpl in Htxt. lia.
  - intros o. split.
    { apply RXFacts.rx_loop_no_fault; [by split | split; eauto]. }
    destruct (RXFacts.rx_spiReceive_effect o s (conj Hd Ha))
      as (s' & evs & Hrun & _ & _ & _ & Hlen' & Hhex' & Htxt' & [Hd' Ha'] & _).
    exists s'. split; [done|]. split; [|split; [done|split; [done|split]]].
    + rewrite Hlen'. pose proof (classified_length_bound (response o)) as Hb.
      by rewrite response_length in Hb.
    + eexists. split; [done|]. apply c_str_length in Hhex'.
      rewrite Hd' in Hhex'. simpl in Hhex'. lia.
    + eexists. split; [done|]. apply c_str_length in Htxt'.
      rewrite Ha' in Htxt'. simpl in Htxt'. lia.
Qed.

(** C10 at the receiver just booted, and after a full 32-byte payload. *)
Lemma rx_display_buffers_safe_booted :
  (RX.rxLen (vars (rx_after joined store_with_ssid)) ≤ 32)%nat
  ∧ RX.loop (quiet 5000 (λ _, "A"%byte)) (rx_after joined store_with_ssid)
    ≠ Fault.
Proof.
  destruct (rx_display_buffers_safe (rx_after joined store_with_ssid))
    as [(Hlen & _) Hnext].
  { apply (RX.reach_setup store_with_ssid joined). vm_compute. reflexivity. }
  split; [exact Hlen|].
  exact (proj1 (Hnext (quiet 5000 (λ _, "A"%byte)))).
Defined.

(** C9. In every state either role reaches, the result of the bus
    transaction is never Failure: the sender's [lastSpiResult] is -1 or
    0 and its status never says "FAIL"; the receiver's is -1, 0 or 1,
    never 2, and its status never says "FAIL" either.  This holds of the
    field as [handleStatus] would print it and of every status answer
    already given. *)
Theorem bus_result_never_failure :
  (∀ s : TX.Device,
     TX.reachable s →
     (TX.lastSpiResult (vars s) = -1 ∨ TX.lastSpiResult (vars s) = 0)
     ∧ TX.spiStr (TX.lastSpiResult (vars s)) ≠ "FAIL"%string
     ∧ Forall (λ e, ∀ st, e = HttpStatus st → st_spi st ≠ "FAIL"%string)
         (trace s))
  ∧ (∀ s : RX.Device,
       RX.reachable s →
       (RX.lastSpiResult (vars s) = -1 ∨ RX.lastSpiResult (vars s) = 0
        ∨ RX.lastSpiResult (vars s) = 1)
       ∧ RX.lastSpiResult (vars s) ≠ 2
       ∧ RX.spiStr (RX.lastSpiResult (vars s)) ≠ "FAIL"%string
       ∧ Forall (λ e, ∀ st, e = HttpStatus st → st_spi st ≠ "FAIL"%string)
           (trace s)).
Proof.
  split.
  - intros s Hreach.
    destruct (TXFacts.tx_reachable_result s Hreach) as [Hres Htr].
    split; [done|]. split.
    + destruct Hres as [-> | ->]; discriminate.
    + eapply Forall_impl; [exact Htr|]. intros e He st Hst.
      destruct (He st Hst) as [-> | ->]; discriminate.
  - intros s Hreach.
    destruct (RXFacts.rx_reachable_inv s Hreach) as (_ & _ & _ & Hres & Htr).
    split; [done|]. split; [|split].
    + destruct Hres as [-> | [-> | ->]]; discriminate.
    + destruct Hres as [-> | [-> | ->]]; discriminate.
    + eapply Forall_impl; [exact Htr|]. intros e He st Hst.
      destruct (He st Hst) as [-> | [-> | ->]]; discriminate.
Qed.

(** C3, as the code has it.  A call of [loop()] that reaches the bus
    section with [now - lastTx >= 2000] stores the counter reading in
    [lastTx] / [lastRx], performs exactly one bus transaction and sets
    the result.  The sender counts every transaction; the receiver
    counts a transaction only when it was classified as carrying data.
    The counters are 32-bit, so "one more" is modulo 2^32: a strict
    increase short of 2^32 - 1.  No call of [loop()], whatever request it
    serves, changes a counter in any other way. *)
Theorem bus_step_when_due :
  (∀ o (s : TX.Device),
     restart_requested o = false →
     TX.TX_INTERVAL ≤ u32_sub (millis (bus_t_check o)) (TX.lastTx (vars s)) →
     ∃ s',
       final (TX.loop o s) = Some s'
       ∧ TX.lastTx (vars s') = millis (bus_t_mark o)
       ∧ bus_transactions (trace s') = S (bus_transactions (trace s))
       ∧ TX.lastSpiResult (vars s') = 0
       ∧ TX.txCount (vars s') = u32_add (TX.txCount (vars s)) 1)
  ∧ (∀ o (s : RX.Device),
       RX.sized (vars s) → RX.terminated (vars s) →
       restart_requested o = false →
       RX.RX_INTERVAL ≤ u32_sub (millis (bus_t_check o)) (RX.lastRx (vars s)) →
       ∃ s',
         final (RX.loop o s) = Some s'
         ∧ RX.lastRx (vars s') = millis (bus_t_mark o)
         ∧ bus_transactions (trace s') = S (bus_transactions (trace s))
         ∧ ((∀ i, (i < 32)%nat → sentinel (miso o i)) →
            RX.lastSpiResult (vars s') = 1
            ∧ RX.rxCount (vars s') = RX.rxCount (vars s))
         ∧ ((∃ i, (i < 32)%nat ∧ ¬ sentinel (miso o i)) →
            RX.lastSpiResult (vars s') = 0
            ∧ RX.rxCount (vars s') = u32_add (RX.rxCount (vars s)) 1))
  ∧ (∀ o (s s' : TX.Device),
       final (TX.loop o s) = Some s' →
       (TX.txCount (vars s') = TX.txCount (vars s)
        ∧ bus_transactions (trace s') = bus_transactions (trace s))
       ∨ (TX.txCount (vars s') = u32_add (TX.txCount (vars s)) 1
          ∧ bus_transactions (trace s') = S (bus_transactions (trace s))))
  ∧ (∀ o (s s' : RX.Device),
       RX.sized (vars s) → RX.terminated (vars s) →
       final (RX.loop o s) = Some s' →
       RX.rxCount (vars s') = RX.rxCount (vars s)
       ∨ (RX.rxCount (vars s') = u32_add (RX.rxCount (vars s)) 1
          ∧ bus_transactions (trace s') = S (bus_transactions (trace s))))
  ∧ (∀ n, 0 ≤ n < 2 ^ 32 - 1 → u32_add n 1 = n + 1).
Proof.
  split; [|split; [|split; [|split; [|apply u32_succ_small]]]].
  - intros o s Hreq Hdue.
    destruct (TXFacts.tx_loop_effect o s Hreq)
      as (s' & evs & Hrun & Hlast & Hcnt & Hres & _ & _ & _ & _ & _ & Htr
          & Hbus & _).
    apply Z.leb_le in Hdue. rewrite Hdue in *.
    exists s'. split; [rewrite Hrun; by destruct (_ && _)|].
    repeat (split; [done|]). split; [|done].
    unfold bus_transactions in *. rewrite Htr, occurrences_app, Hbus. lia.
  - intros o s Hsz Hterm Hreq Hdue.
    destruct (RXFacts.rx_loop_effect o s Hsz Hterm Hreq)
      as (s' & evs & Hrun & Hlast & Hcnt & Hres & _ & _ & _ & _ & _ & _ & _
          & _ & _ & Htr & Hbus & _).
    apply Z.leb_le in Hdue. rewrite Hdue in *. cbn [andb] in *.
    exists s'. split; [rewrite Hrun; by destruct (_ && _)|].
    split; [done|]. split; [|split].
    + unfold bus_transactions in *. rewrite Htr, occurrences_app, Hbus. lia.
    + intros Hall. rewrite Hres, Hcnt.
      by rewrite (classified_length_zero o Hall).
    + intros (i & Hi & Hni). rewrite Hres, Hcnt.
      destruct (classified_length (response o)) eqn:Hcl; [|done].
      pose proof (classified_length_spec (response o)) as Hspec.
      rewrite Hcl, Forall_lookup in Hspec. destruct Hni.
      apply (Hspec i). by apply response_lookup.
  - intros o s s' Hfin. destruct (restart_requested o) eqn:Hreq.
    + destruct (TXFacts.tx_loop_restart_requested o s Hreq)
        as (s2 & evs & Hrun & Hv & Htr & Hbus & _).
      rewrite Hrun in Hfin. injection Hfin as <-. left.
      rewrite Hv. split; [done|].
      unfold bus_transactions in *. rewrite Htr, occurrences_app, Hbus. lia.
    + destruct (TXFacts.tx_loop_effect o s Hreq)
        as (s2 & evs & Hrun & _ & Hcnt & _ & _ & _ & _ & _ & _ & Htr
            & Hbus & _).
      rewrite Hrun in Hfin.
      assert (s2 = s') as -> by (destruct (_ && _); simpl in Hfin; congruence).
      unfold bus_transactions in *. rewrite Htr, occurrences_app, Hbus, Hcnt.
      destruct (_ <=? _); [right | left]; split; (done || lia).
  - intros o s s' Hsz Hterm Hfin. destruct (restart_requested o) eqn:Hreq.
    + destruct (RXFacts.rx_loop_restart_requested o s Hreq)
        as (s2 & evs & Hrun & Hv & _).
      rewrite Hrun in Hfin. injection Hfin as <-. left. by rewrite Hv.
    + destruct (RXFacts.rx_loop_effect o s Hsz Hterm Hreq)
        as (s2 & evs & Hrun & _ & Hcnt & _ & _ & _ & _ & _ & _ & _ & _
            & _ & _ & Htr & Hbus & _).
      rewrite Hrun in Hfin.
      assert (s2 = s') as -> by (destruct (_ && _); simpl in Hfin; congruence).
      unfold bus_transactions in *. rewrite Htr, occurrences_app, Hbus, Hcnt.
      destruct (_ <=? _); cbn [andb]; [|by left].
      destruct (negb _); [right | left]; [split|]; (done || lia).
Qed.

(** C3 as stated fails on the receiver: an exchange that returns only
    zero bytes is a bus transaction, and the result is updated, but the
    counter stays where it was. *)
Lemma rx_empty_exchange_not_counted :
  ∃ s',
    RX.loop (quiet 5000 silence) (rx_after joined store_with_ssid) = Done tt s'
    ∧ RX.RX_INTERVAL
      ≤ u32_sub (millis 5000) (RX.lastRx (vars (rx_after joined store_with_ssid)))
    ∧ bus_transactions (trace s')
      = S (bus_transactions (trace (rx_after joined store_with_ssid)))
    ∧ RX.lastSpiResult (vars s') = 1
    ∧ RX.rxCount (vars s') = RX.rxCount (vars (rx_after joined store_with_ssid)).
Proof.
  eexists. split; [vm_compute; reflexivity|].
  split; [vm_compute; discriminate|].
  split; [|split]; vm_compute; reflexivity.
Qed.

(** C6. In Local (access-point) mode every call of [loop()] that finds
    [now - apStartTime > 300000] restarts the device, so a call that
    returns in Local mode has found the window not exceeded, and it
    leaves the mode and its start time as they were.  In terms of
    uptime: once more than 300000 ms (and less than 2^32 ms) have passed
    since the access point was started, the next call restarts.
    [setup()] enters Local mode, taking the start time, whenever the
    network is not joined. *)
Theorem ap_safety_timeout :
  (∀ o (s : TX.Device),
     TX.apMode (vars s) = true →
     TX.AP_TIMEOUT_MS
     < u32_sub (millis (ap_t_check o)) (TX.apStartTime (vars s)) →
     ∃ s', TX.loop o s = Restarted s')
  ∧ (∀ o (s s' : TX.Device),
       TX.loop o s = Done tt s' →
       TX.apMode (vars s') = TX.apMode (vars s)
       ∧ TX.apStartTime (vars s') = TX.apStartTime (vars s)
       ∧ (TX.apMode (vars s) = true →
          u32_sub (millis (ap_t_check o)) (TX.apStartTime (vars s))
          ≤ TX.AP_TIMEOUT_MS))
  ∧ (∀ o (s : TX.Device) t0,
       TX.apMode (vars s) = true →
       TX.apStartTime (vars s) = millis t0 →
       TX.AP_TIMEOUT_MS < ap_t_check o - t0 < 2 ^ 32 →
       ∃ s', TX.loop o s = Restarted s')
  ∧ (∀ b store,
       wifi_joined b = false →
       ∃ s, TX.setup b (TX.power_on store) = Done tt s
            ∧ TX.apMode (vars s) = true
            ∧ TX.apStartTime (vars s) = millis (ap_t_start b))
  ∧ (∀ o (s : RX.Device),
       RX.sized (vars s) → RX.terminated (vars s) →
       RX.apMode (vars s) = true →
       RX.AP_TIMEOUT_MS
       < u32_sub (millis (ap_t_check o)) (RX.apStartTime (vars s)) →
       ∃ s', RX.loop o s = Restarted s')
  ∧ (∀ o (s s' : RX.Device),
       RX.sized (vars s) → RX.terminated (vars s) →
       RX.loop o s = Done tt s' →
       RX.apMode (vars s') = RX.apMode (vars s)
       ∧ RX.apStartTime (vars s') = RX.apStartTime (vars s)
       ∧ (RX.apMode (vars s) = true →
          u32_sub (millis (ap_t_check o)) (RX.apStartTime (vars s))
          ≤ RX.AP_TIMEOUT_MS))
  ∧ (∀ o (s : RX.Device) t0,
       RX.sized (vars s) → RX.terminated (vars s) →
       RX.apMode (vars s) = true →
       RX.apStartTime (vars s) = millis t0 →
       RX.AP_TIMEOUT_MS < ap_t_check o - t0 < 2 ^ 32 →
       ∃ s', RX.loop o s = Restarted s')
  ∧ (∀ b store,
       wifi_joined b = false →
       ∃ s, RX.setup b (RX.power_on store) = Done tt s
            ∧ RX.apMode (vars s) = true
            ∧ RX.apStartTime (vars s) = millis (ap_t_start b)).
Proof.
  assert (Htx : ∀ o (s : TX.Device),
     TX.apMode (vars s) = true →
     TX.AP_TIMEOUT_MS
     < u32_sub (millis (ap_t_check o)) (TX.apStartTime (vars s)) →
     ∃ s', TX.loop o s = Restarted s').
  { intros o s Hap Hexp. destruct (restart_requested o) eqn:Hreq.
    - destruct (TXFacts.tx_loop_restart_requested o s Hreq) as (s' & ? & -> & _).
      eauto.
    - destruct (TXFacts.tx_loop_effect o s Hreq) as (s' & ? & -> & _).
      rewrite Hap, (proj2 (Z.ltb_lt _ _) Hexp). eauto. }
  assert (Hrx : ∀ o (s : RX.Device),
     RX.sized (vars s) → RX.terminated (vars s) →
     RX.apMode (vars s) = true →
     RX.AP_TIMEOUT_MS
     < u32_sub (millis (ap_t_check o)) (RX.apStartTime (vars s)) →
     ∃ s', RX.loop o s = Restarted s').
  { intros o s Hsz Hterm Hap Hexp. destruct (restart_requested o) eqn:Hreq.
    - destruct (RXFacts.rx_loop_restart_requested o s Hreq) as (s' & ? & -> & _).
      eauto.
    - destruct (RXFacts.rx_loop_effect o s Hsz Hterm Hreq) as (s' & ? & -> & _).
      rewrite Hap, (proj2 (Z.ltb_lt _ _) Hexp). eauto. }
  assert (Htx_ret : ∀ o (s s' : TX.Device),
     TX.loop o s = Done tt s' →
     TX.apMode (vars s') = TX.apMode (vars s)
     ∧ TX.apStartTime (vars s') = TX.apStartTime (vars s)
     ∧ (TX.apMode (vars s) = true →
        u32_sub (millis (ap_t_check o)) (TX.apStartTime (vars s))
        ≤ TX.AP_TIMEOUT_MS)).
  { intros o s s' Hret. destruct (restart_requested o) eqn:Hreq.
    - destruct (TXFacts.tx_loop_restart_requested o s Hreq)
        as (s2 & ? & Hrun & _).
      congruence.
    - destruct (TXFacts.tx_loop_effect o s Hreq)
        as (s2 & evs & Hrun & _ & _ & _ & _ & _ & Hap & Haps & _).
      rewrite Hrun in Hret.
      destruct (TX.apMode (vars s)) eqn:Hmode; cbn [andb] in Hret.
      + destruct (_ <? _) eqn:E; [discriminate|].
        injection Hret as <-. repeat split; [done..|].
        intros _. by apply Z.ltb_ge.
      + injection Hret as <-. by repeat split. }
  assert (Hrx_ret : ∀ o (s s' : RX.Device),
     RX.sized (vars s) → RX.terminated (vars s) →
     RX.loop o s = Done tt s' →
     RX.apMode (vars s') = RX.apMode (vars s)
     ∧ RX.apStartTime (vars s') = RX.apStartTime (vars s)
     ∧ (RX.apMode (vars s) = true →
        u32_sub (millis (ap_t_check o)) (RX.apStartTime (vars s))
        ≤ RX.AP_TIMEOUT_MS)).
  { intros o s s' Hsz Hterm Hret. destruct (restart_requested o) eqn:Hreq.
    - destruct (RXFacts.rx_loop_restart_requested o s Hreq)
        as (s2 & ? & Hrun & _).
      congruence.
    - destruct (RXFacts.rx_loop_effect o s Hsz Hterm Hreq)
        as (s2 & evs & Hrun & _ & _ & _ & _ & _ & Hap & Haps & _).
      rewrite Hrun in Hret.
      destruct (RX.apMode (vars s)) eqn:Hmode; cbn [andb] in Hret.
      + destruct (_ <? _) eqn:E; [discriminate|].
        injection Hret as <-. repeat split; [done..|].
        intros _. by apply Z.ltb_ge.
      + injection Hret as <-. by repeat split. }
  split; [exact Htx|]. split; [exact Htx_ret|]. split.
  { intros o s t0 Hap Hstart Hwin. apply Htx; [done|].
    rewrite Hstart, u32_sub_elapsed; unfold TX.AP_TIMEOUT_MS in *; lia. }
  split; [apply TXFacts.tx_setup_local|].
  split; [exact Hrx|]. split; [exact Hrx_ret|]. split.
  { intros o s t0 Hsz Hterm Hap Hstart Hwin. apply Hrx; try done.
    rewrite Hstart, u32_sub_elapsed; unfold RX.AP_TIMEOUT_MS in *; lia. }
  apply RXFacts.rx_setup_local.
Qed.

(** C6, scenario B of the specification: the sender booted without a
    network at 15600 ms restarts in the first call of [loop()] after
    315600 ms, and not in a call at 315600 ms sharp. *)
Lemma ap_safety_timeout_scenario :
  (∃ s', TX.loop (quiet 315601 silence) (tx_after stranded ∅) = Restarted s')
  ∧ (∃ s', TX.loop (quiet 315600 silence) (tx_after stranded ∅) = Done tt s').
Proof.
  split.
  - apply (proj1 ap_safety_timeout); vm_compute; reflexivity.
  - eexists. vm_compute. reflexivity.
Defined.

(** C7. [mqttReconnect()] does nothing when no endpoint is configured or
    the link is up.  When it is eligible (endpoint configured, link down,
    at least 5000 ms since the last attempt) it stores the counter
    reading taken before the connect call in [lastMqttReconnect] and
    calls [mqtt.connect] exactly once, with the credentials exactly when
    a user name is configured; a second call less than 5000 ms after
    that reading does nothing, so the two calls make one connect
    attempt. *)
Theorem mqtt_reconnect_once_per_window :
  (∀ o (s : TX.Device),
     is_empty (cfgMqttServer (cfg s)) = true ∨ rc_mqtt_up o = true →
     TX.mqttReconnect o s = Done tt s)
  ∧ (∀ o1 o2 (s : TX.Device),
       is_empty (cfgMqttServer (cfg s)) = false →
       rc_mqtt_up o1 = false →
       TX.MQTT_RECONNECT_MS
       ≤ u32_sub (millis (rc_t_check o1)) (TX.lastMqttReconnect (vars s)) →
       0 ≤ rc_t_check o2 - rc_t_mark o1 < TX.MQTT_RECONNECT_MS →
       ∃ s1,
         TX.mqttReconnect o1 s = Done tt s1
         ∧ TX.lastMqttReconnect (vars s1) = millis (rc_t_mark o1)
         ∧ trace s1
           = trace s ++
             [MqttConnect "Hallow_1"
                (if is_empty (cfgMqttUser (cfg s)) then None
                 else Some (cfgMqttUser (cfg s), cfgMqttPass (cfg s)))]
         ∧ TX.mqttReconnect o2 s1 = Done tt s1
         ∧ connect_attempts (trace s1) = S (connect_attempts (trace s)))
  ∧ (∀ o (s : RX.Device),
       is_empty (cfgMqttServer (cfg s)) = true ∨ rc_mqtt_up o = true →
       RX.mqttReconnect o s = Done tt s)
  ∧ (∀ o1 o2 (s : RX.Device),
       is_empty (cfgMqttServer (cfg s)) = false →
       rc_mqtt_up o1 = false →
       RX.MQTT_RECONNECT_MS
       ≤ u32_sub (millis (rc_t_check o1)) (RX.lastMqttReconnect (vars s)) →
       0 ≤ rc_t_check o2 - rc_t_mark o1 < RX.MQTT_RECONNECT_MS →
       ∃ s1,
         RX.mqttReconnect o1 s = Done tt s1
         ∧ RX.lastMqttReconnect (vars s1) = millis (rc_t_mark o1)
         ∧ trace s1
           = trace s ++
             [MqttConnect "Hallow_2"
                (if is_empty (cfgMqttUser (cfg s)) then None
                 else Some (cfgMqttUser (cfg s), cfgMqttPass (cfg s)))]
         ∧ RX.mqttReconnect o2 s1 = Done tt s1
         ∧ connect_attempts (trace s1) = S (connect_attempts (trace s))).
Proof.
  split; [|split; [|split]].
  - intros o s [H | H]; rewrite TXFacts.tx_mqttReconnect_eq, H; [done|].
    by destruct (is_empty _).
  - intros o1 o2 s Hsrv Hdown Hdue Hwin.
    eexists. split.
    { rewrite TXFacts.tx_mqttReconnect_eq, Hsrv, Hdown.
      rewrite (proj2 (Z.ltb_ge _ _) Hdue). reflexivity. }
    cbn [cfg vars nvs trace TX.lastMqttReconnect TX.set_mqttConnected
         TX.set_lastMqttReconnect].
    split; [done|]. split; [done|]. split.
    + rewrite TXFacts.tx_mqttReconnect_eq.
      cbn [cfg vars nvs trace TX.lastMqttReconnect TX.set_mqttConnected
           TX.set_lastMqttReconnect].
      rewrite Hsrv. destruct (rc_mqtt_up o2); [done|].
      rewrite u32_sub_elapsed by (unfold TX.MQTT_RECONNECT_MS in *; lia).
      by rewrite (proj2 (Z.ltb_lt _ _) (proj2 Hwin)).
    + unfold connect_attempts. rewrite occurrences_app. simpl. lia.
  - intros o s [H | H]; rewrite RXFacts.rx_mqttReconnect_eq, H; [done|].
    by destruct (is_empty _).
  - intros o1 o2 s Hsrv Hdown Hdue Hwin.
    eexists. split.
    { rewrite RXFacts.rx_mqttReconnect_eq, Hsrv, Hdown.
      rewrite (proj2 (Z.ltb_ge _ _) Hdue). reflexivity. }
    cbn [cfg vars nvs trace RX.lastMqttReconnect RX.set_lastMqttReconnect].
    split; [done|]. split; [done|]. split.
    + rewrite RXFacts.rx_mqttReconnect_eq.
      cbn [cfg vars nvs trace RX.lastMqttReconnect RX.set_lastMqttReconnect].
      rewrite Hsrv. destruct (rc_mqtt_up o2); [done|].
      rewrite u32_sub_elapsed by (unfold RX.MQTT_RECONNECT_MS in *; lia).
      by rewrite (proj2 (Z.ltb_lt _ _) (proj2 Hwin)).
    + unfold connect_attempts. rewrite occurrences_app. simpl. lia.
Qed.

(** C7 on the sender with a broker configured: an attempt at 6000 ms,
    then a call at 8000 ms that does nothing. *)
Lemma mqtt_reconnect_twice :
  ∃ s1,
    TX.mqttReconnect (quiet 6000 silence) (tx_after joined store_with_broker)
    = Done tt s1
    ∧ TX.mqttReconnect (quiet 8000 silence) s1 = Done tt s1
    ∧ connect_attempts (trace s1) = 1%nat.
Proof.
  destruct (proj1 (proj2 mqtt_reconnect_once_per_window)
              (quiet 6000 silence) (quiet 8000 silence)
              (tx_after joined store_with_broker))
    as (s1 & Hfirst & _ & _ & Hsecond & Hcount).
  - vm_compute. reflexivity.
  - reflexivity.
  - vm_compute. discriminate.
  - vm_compute. split; [discriminate | reflexivity].
  - exists s1. split; [exact Hfirst|]. split; [exact Hsecond|].
    rewrite Hcount. vm_compute. reflexivity.
Defined.

(** C2, as the code has it.  The interval test of the bus transaction
    and the backoff test of the reconnect are [now - last >= interval],
    the test of the access-point window is [now - start > 300000], all
    three on the 32-bit difference of two counter readings; so each of
    them decides by the time that really passed since the mark, however
    often the counter wrapped, as long as less than 2^32 ms passed. *)
Theorem timers_wrap_safe :
  (∀ o (s : TX.Device) t_last,
     restart_requested o = false →
     TX.lastTx (vars s) = millis t_last →
     0 ≤ bus_t_check o - t_last < 2 ^ 32 →
     ∃ s',
       final (TX.loop o s) = Some s'
       ∧ bus_transactions (trace s')
         = (bus_transactions (trace s)
            + if (TX.TX_INTERVAL <=? bus_t_check o - t_last)%Z
                then 1 else 0)%nat)
  ∧ (∀ o (s : TX.Device) t_last,
       is_empty (cfgMqttServer (cfg s)) = false →
       rc_mqtt_up o = false →
       TX.lastMqttReconnect (vars s) = millis t_last →
       0 ≤ rc_t_check o - t_last < 2 ^ 32 →
       ∃ s',
         TX.mqttReconnect o s = Done tt s'
         ∧ connect_attempts (trace s')
           = (connect_attempts (trace s)
              + if (TX.MQTT_RECONNECT_MS <=? rc_t_check o - t_last)%Z
                then 1 else 0)%nat)
  ∧ (∀ o (s : TX.Device) t0,
       restart_requested o = false →
       TX.apMode (vars s) = true →
       TX.apStartTime (vars s) = millis t0 →
       0 ≤ ap_t_check o - t0 < 2 ^ 32 →
       ∃ s',
         TX.loop o s
         = if TX.AP_TIMEOUT_MS <? ap_t_check o - t0
           then Restarted s' else Done tt s')
  ∧ (∀ o (s : RX.Device) t_last,
       RX.sized (vars s) → RX.terminated (vars s) →
       restart_requested o = false →
       RX.lastRx (vars s) = millis t_last →
       0 ≤ bus_t_check o - t_last < 2 ^ 32 →
       ∃ s',
         final (RX.loop o s) = Some s'
         ∧ bus_transactions (trace s')
           = (bus_transactions (trace s)
              + if (RX.RX_INTERVAL <=? bus_t_check o - t_last)%Z
                then 1 else 0)%nat)
  ∧ (∀ o (s : RX.Device) t_last,
       is_empty (cfgMqttServer (cfg s)) = false →
       rc_mqtt_up o = false →
       RX.lastMqttReconnect (vars s) = millis t_last →
       0 ≤ rc_t_check o - t_last < 2 ^ 32 →
       ∃ s',
         RX.mqttReconnect o s = Done tt s'
         ∧ connect_attempts (trace s')
           = (connect_attempts (trace s)
              + if (RX.MQTT_RECONNECT_MS <=? rc_t_check o - t_last)%Z
                then 1 else 0)%nat)
  ∧ (∀ o (s : RX.Device) t0,
       RX.sized (vars s) → RX.terminated (vars s) →
       restart_requested o = false →
       RX.apMode (vars s) = true →
       RX.apStartTime (vars s) = millis t0 →
       0 ≤ ap_t_check o - t0 < 2 ^ 32 →
       ∃ s',
         RX.loop o s
         = if RX.AP_TIMEOUT_MS <? ap_t_check o - t0
           then Restarted s' else Done tt s').
Proof.
  split; [|split; [|split; [|split; [|split]]]].
  - intros o s t_last Hreq Hlast Hwin.
    destruct (TXFacts.tx_loop_effect o s Hreq)
      as (s' & evs & Hrun & _ & _ & _ & _ & _ & _ & _ & _ & Htr & Hbus & _).
    exists s'. split; [rewrite Hrun; by destruct (_ && _)|].
    unfold bus_transactions in *. rewrite Htr, occurrences_app, Hbus.
    by rewrite Hlast, u32_sub_elapsed.
  - intros o s t_last Hsrv Hdown Hlast Hwin.
    rewrite TXFacts.tx_mqttReconnect_eq, Hsrv, Hdown, Hlast, u32_sub_elapsed
      by done.
    rewrite Z.ltb_antisym. destruct (_ <=? _); cbn [negb]; eexists;
      (split; [reflexivity|]); cbn [trace]; unfold connect_attempts;
      rewrite ?occurrences_app; simpl; lia.
  - intros o s t0 Hreq Hap Hstart Hwin.
    destruct (TXFacts.tx_loop_effect o s Hreq) as (s' & evs & Hrun & _).
    exists s'. by rewrite Hrun, Hap, Hstart, u32_sub_elapsed.
  - intros o s t_last Hsz Hterm Hreq Hlast Hwin.
    destruct (RXFacts.rx_loop_effect o s Hsz Hterm Hreq)
      as (s' & evs & Hrun & _ & _ & _ & _ & _ & _ & _ & _ & _ & _ & _ & _
          & Htr & Hbus & _).
    exists s'. split; [rewrite Hrun; by destruct (_ && _)|].
    unfold bus_transactions in *. rewrite Htr, occurrences_app, Hbus.
    by rewrite Hlast, u32_sub_elapsed.
  - intros o s t_last Hsrv Hdown Hlast Hwin.
    rewrite RXFacts.rx_mqttReconnect_eq, Hsrv, Hdown, Hlast, u32_sub_elapsed
      by done.
    rewrite Z.ltb_antisym. destruct (_ <=? _); cbn [negb]; eexists;
      (split; [reflexivity|]); cbn [trace]; unfold connect_attempts;
      rewrite ?occurrences_app; simpl; lia.
  - intros o s t0 Hsz Hterm Hreq Hap Hstart Hwin.
    destruct (RXFacts.rx_loop_effect o s Hsz Hterm Hreq) as (s' & evs & Hrun & _).
    exists s'. by rewrite Hrun, Hap, Hstart, u32_sub_elapsed.
Qed.

(** C2 across the wrap: a sender whose last transaction was 1000 ms
    before the counter wrapped is due again 1000 ms after it. *)
Lemma timers_wrap_safe_across_wrap :
  ∃ s',
    final (TX.loop (quiet (2 ^ 32 + 1000) silence)
             (mkMachine (cfg (tx_after joined store_with_ssid))
                (TX.set_lastTx (millis (2 ^ 32 - 1000))
                   (vars (tx_after joined store_with_ssid)))
                ∅ []))
    = Some s'
    ∧ bus_transactions (trace s') = 1%nat.
Proof.
  destruct (proj1 timers_wrap_safe (quiet (2 ^ 32 + 1000) silence)
              (mkMachine (cfg (tx_after joined store_with_ssid))
                 (TX.set_lastTx (millis (2 ^ 32 - 1000))
                    (vars (tx_after joined store_with_ssid)))
                 ∅ [])
              (2 ^ 32 - 1000))
    as (s' & Hfin & Hbus).
  - reflexivity.
  - reflexivity.
  - vm_compute. split; [discriminate | reflexivity].
  - exists s'. split; [exact Hfin|]. rewrite Hbus. vm_compute. reflexivity.
Defined.

(** C2 as stated fails twice.  The indicator is not timed by a
    difference: armed 10 ms before the counter wraps, its deadline
    wraps to 40 and the LED test of the very same call, with no time
    passed, switches it off.  And the access-point window is tested
    with [>], not [>=]: exactly 300000 ms after the start the device
    does not restart. *)
Lemma timers_not_all_elapsed_tests :
  (∃ s',
     TX.loop (quiet before_wrap silence) (tx_after joined store_with_ssid)
     = Done tt s'
     ∧ TX.lastLedOff (vars s') = 40
     ∧ u32_sub (millis before_wrap) (millis before_wrap) = 0
     ∧ TX.ledOn (vars s') = false)
  ∧ (∃ s',
       TX.loop (quiet 300000 silence) tx_local_since_0 = Done tt s'
       ∧ TX.apMode (vars tx_local_since_0) = true
       ∧ TX.AP_TIMEOUT_MS
         ≤ u32_sub (millis 300000) (TX.apStartTime (vars tx_local_since_0))).
Proof.
  split; eexists.
  - split; [vm_compute; reflexivity|]. repeat split; vm_compute; reflexivity.
  - split; [vm_compute; reflexivity|]. split; [reflexivity|].
    vm_compute. discriminate.
Qed.

(** C8 at the wrap of the counter.  A transaction due 10 ms before the
    32-bit millisecond counter wraps arms the indicator with the
    deadline [(2^32 - 10 + flash) mod 2^32]; the LED test of the same
    call, reading the same time, finds [now >= deadline] and switches
    the indicator off at once: the last two calls of the invocation
    switch the LED on and off.  Both sketches do so. *)
Theorem indicator_disarmed_at_wrap :
  (∃ s',
     TX.loop (quiet before_wrap silence) (tx_after joined store_with_ssid)
     = Done tt s'
     ∧ TX.lastTx (vars s') = millis before_wrap
     ∧ TX.lastLedOff (vars s') = 40
     ∧ TX.ledOn (vars s') = false
     ∧ drop (length (trace s') - 2) (trace s')
       = [DigitalWrite TX.LED_PIN TX.LOW; DigitalWrite TX.LED_PIN TX.HIGH])
  ∧ (∃ s',
       RX.loop (quiet before_wrap hello) (rx_after joined store_with_ssid)
       = Done tt s'
       ∧ RX.lastRx (vars s') = millis before_wrap
       ∧ RX.lastLedOff (vars s') = 70
       ∧ RX.ledOn (vars s') = false
       ∧ drop (length (trace s') - 2) (trace s')
         = [DigitalWrite RX.LED_PIN RX.LOW; DigitalWrite RX.LED_PIN RX.HIGH]).
Proof.
  split; eexists.
  - split; [vm_compute; reflexivity|].
    repeat split; vm_compute; reflexivity.
  - split; [vm_compute; reflexivity|].
    repeat split; vm_compute; reflexivity.
Qed.

(** C5, as the code has it.  [handleSave()] stores [toInt] of the [mp]
    field, cut to 16 bits; for a value that does not start with a number
    that is 0, in the configuration and in the store that survives the
    restart.  A string field that is present is stored as
    [toCharArray] leaves it: a value without NUL is kept up to the
    first [size - 1] characters of its array, whole when it fits. *)
Theorem save_port_and_strings {V} (r : Request) (m : Machine V) :
  ∃ m',
    handleSave r m = Restarted m'
    ∧ (hasArg r "mp" = true →
       cfgMqttPort (cfg m') = wrap16 (toInt (arg r "mp"))
       ∧ (unparsable (arg r "mp") → cfgMqttPort (cfg m') = 0))
    ∧ nvs m' !! "mqttPort"%string = Some (NvsU16 (cfgMqttPort (cfg m')))
    ∧ (hasArg r "ssid" = true → cfgSSID (cfg m') = toCharArray (arg r "ssid") 33)
    ∧ (hasArg r "pass" = true → cfgPass (cfg m') = toCharArray (arg r "pass") 65)
    ∧ (hasArg r "ms" = true
       → cfgMqttServer (cfg m') = toCharArray (arg r "ms") 65)
    ∧ (hasArg r "mt" = true
       → cfgMqttTopic (cfg m') = toCharArray (arg r "mt") 65)
    ∧ (hasArg r "mu" = true
       → cfgMqttUser (cfg m') = toCharArray (arg r "mu") 33)
    ∧ (hasArg r "mw" = true
       → cfgMqttPass (cfg m') = toCharArray (arg r "mw") 65)
    ∧ (∀ v bufsize,
         Forall (λ c, c ≠ NUL) (list_ascii_of_string v) →
         toCharArray v bufsize
         = string_of_list_ascii (take (bufsize - 1) (list_ascii_of_string v))
         ∧ ((String.length v < bufsize)%nat → toCharArray v bufsize = v)).
Proof.
  rewrite handleSave_eq. cbv zeta. eexists. split; [reflexivity|].
  cbn [cfg nvs cfgSSID cfgPass cfgMqttServer cfgMqttPort cfgMqttTopic
       cfgMqttUser cfgMqttPass].
  split; [|split].
  - intros ->. split; [done|]. intros Hu.
    by rewrite (toInt_unparsable _ Hu).
  - rewrite lookup_insert_ne by done. rewrite lookup_insert_ne by done.
    rewrite lookup_insert_ne by done. by rewrite lookup_insert_eq.
  - repeat (split; [by intros ->|]).
    intros v bufsize Hv. split.
    + by apply toCharArray_prefix.
    + intros Hlen. by apply toCharArray_verbatim.
Qed.

(** C5 as stated fails: a POST to /save with [mp=abc] leaves port 0, not
    1883, in the configuration and in the store, and the sender comes
    back from the restart with port 0. *)
Lemma save_unparsable_port_is_zero :
  unparsable (arg save_bad_port "mp")
  ∧ ∃ s' : TX.Device,
      TX.handleClient
        (mkObs (Some save_bad_port) false 0 false false 0 0 false 0 0 silence
           0 false 0 0)
        (TX.power_on ∅)
      = Restarted s'
      ∧ cfgMqttPort (cfg s') = 0
      ∧ cfgMqttPort (cfg s') ≠ 1883
      ∧ nvs s' !! "mqttPort"%string = Some (NvsU16 0)
      ∧ cfgSSID (cfg s') = "home"%string
      ∧ cfgMqttPort (cfg (tx_after joined (nvs s'))) = 0.
Proof.
  split; [reflexivity|]. eexists.
  split; [vm_compute; reflexivity|].
  split; [reflexivity|]. split; [discriminate|].
  split; [vm_compute; reflexivity|].
  split; [reflexivity|]. vm_compute. reflexivity.
Qed.

End Claims.

(** ** Facts about the formatted text *)

Module TextFacts.
Import Platform Runtime Text WordFacts RunFacts.

Lemma digit_of_dec_digit d : 0 ≤ d < 10 → digit_of (dec_digit d) = Some d.
Proof.
  intros H. unfold digit_of, dec_digit.
  rewrite N_ascii_embedding by lia.
  replace ((48 <=? Z.to_N (48 + d)) && (Z.to_N (48 + d) <=? 57))%N with true.
  - f_equal. lia.
  - symmetry. apply andb_true_iff. split; apply N.leb_le; lia.
Qed.

Lemma digit_of_range c d : digit_of c = Some d → (48 ≤ N_of_ascii c ≤ 57)%N.
Proof.
  unfold digit_of.
  destruct ((48 <=? N_of_ascii c) && (N_of_ascii c <=? 57))%N eqn:E; [|done].
  intros _. apply andb_true_iff in E as [H1 H2].
  apply N.leb_le in H1, H2. lia.
Qed.

(** A decimal digit is neither white space nor a sign. *)
Lemma digit_not_space c d : digit_of c = Some d → isspace c = false.
Proof.
  intros H. apply digit_of_range in H. unfold isspace.
  apply orb_false_iff. split.
  - apply andb_false_iff. right. apply N.leb_gt. lia.
  - apply N.eqb_neq. lia.
Qed.

Lemma digit_not_sign c d :
  digit_of c = Some d → Ascii.eqb c "-" = false ∧ Ascii.eqb c "+" = false.
Proof.
  intros H. apply digit_of_range in H.
  split; apply Ascii.eqb_neq; intros ->; simpl in H; lia.
Qed.

Lemma dec_go_S fuel n acc :
  dec_go (S fuel) n acc
  = if n / 10 =? 0 then dec_digit (n mod 10) :: acc
    else dec_go fuel (n / 10) (dec_digit (n mod 10) :: acc).
Proof. reflexivity. Qed.

(** What [dec_go] puts before [acc]: at least one digit, and digits that
    read back as [n]. *)
Lemma dec_go_spec fuel : ∀ n acc,
  0 ≤ n < 10 ^ Z.of_nat (S fuel) →
  ∃ ds,
    dec_go (S fuel) n acc = ds ++ acc
    ∧ (1 ≤ length ds ≤ S fuel)%nat
    ∧ Forall (λ c, is_Some (digit_of c)) ds
    ∧ ∀ a rest,
        read_digits (ds ++ rest) a
        = read_digits rest (a * 10 ^ Z.of_nat (length ds) + n).
Proof.
  induction fuel as [|fuel IH]; intros n acc Hn.
  - exists [dec_digit n].
    assert (n / 10 = 0) as Hq by (apply Z.div_small; lia).
    assert (n mod 10 = n) as Hr by (apply Z.mod_small; lia).
    rewrite dec_go_S, Hq, Hr. cbn [Z.eqb dec_go].
    split; [done|]. split; [simpl; lia|]. split.
    + constructor; [|constructor]. rewrite digit_of_dec_digit by lia. eauto.
    + intros a rest. cbn [app read_digits length].
      rewrite digit_of_dec_digit by lia. f_equal. lia.
  - rewrite dec_go_S.
    destruct (Z.eqb_spec (n / 10) 0) as [Hq | Hq].
    + exists [dec_digit (n mod 10)].
      assert (n mod 10 = n) as Hr.
      { pose proof (Z.div_mod n 10 ltac:(lia)). lia. }
      rewrite Hr.
      assert (0 ≤ n < 10) as Hsmall.
      { pose proof (Z.mod_pos_bound n 10 ltac:(lia)). lia. }
      split; [done|]. split; [simpl; lia|]. split.
      * constructor; [|constructor]. rewrite digit_of_dec_digit by lia. eauto.
      * intros a rest. cbn [app read_digits length].
        rewrite digit_of_dec_digit by lia. f_equal. lia.
    + assert (0 ≤ n / 10 < 10 ^ Z.of_nat (S fuel)) as Hdiv.
      { split; [apply Z.div_pos; lia|].
        apply Z.div_lt_upper_bound; [lia|].
        replace (Z.of_nat (S (S fuel))) with (Z.of_nat (S fuel) + 1) in Hn by lia.
        rewrite Z.pow_add_r in Hn by lia. lia. }
      destruct (IH (n / 10) (dec_digit (n mod 10) :: acc) Hdiv)
        as (ds & Heq & Hlen & Hdig & Hread).
      exists (ds ++ [dec_digit (n mod 10)]).
      pose proof (Z.mod_pos_bound n 10 ltac:(lia)) as Hmod.
      split; [by rewrite Heq, <- app_assoc|].
      split; [rewrite length_app; simpl; lia|]. split.
      * apply Forall_app. split; [done|].
        constructor; [|constructor]. rewrite digit_of_dec_digit by lia. eauto.
      * intros a rest. rewrite <- app_assoc, Hread.
        cbn [app read_digits]. rewrite digit_of_dec_digit by lia.
        f_equal. rewrite length_app. cbn [length].
        replace (Z.of_nat (length ds + 1)) with (Z.of_nat (length ds) + 1) by lia.
        rewrite Z.pow_add_r by lia.
        pose proof (Z.div_mod n 10 ltac:(lia)). lia.
Qed.

(** The number of digits [dec_go] adds. *)
Lemma dec_go_length fuel : ∀ n acc k,
  (1 ≤ k)%nat → 0 ≤ n < 10 ^ Z.of_nat k →
  (length (dec_go fuel n acc) ≤ k + length acc)%nat.
Proof.
  induction fuel as [|fuel IH]; intros n acc k Hk Hn; [simpl; lia|].
  rewrite dec_go_S. destruct (Z.eqb_spec (n / 10) 0) as [Hq | Hq].
  - simpl. lia.
  - destruct k as [|[|k]]; [lia| |].
    + destruct Hq. apply Z.div_small.
      exact Hn.
    + etrans.
      * apply (IH (n / 10) _ (S k)); [lia|].
        split; [apply Z.div_pos; lia|].
        apply Z.div_lt_upper_bound; [lia|].
        replace (Z.of_nat (S (S k))) with (Z.of_nat (S k) + 1) in Hn by lia.
        rewrite Z.pow_add_r in Hn by lia. lia.
      * simpl. lia.
Qed.

Lemma fmt_lu_length n k :
  (1 ≤ k)%nat → 0 ≤ n < 10 ^ Z.of_nat k → (length (fmt_lu n) ≤ k)%nat.
Proof.
  intros Hk Hn. pose proof (dec_go_length 10 n [] k Hk Hn) as H.
  cbn [length] in H. unfold fmt_lu. lia.
Qed.

Lemma fmt_lu_spec n :
  0 ≤ n < 10 ^ 10 →
  (1 ≤ length (fmt_lu n) ≤ 10)%nat
  ∧ Forall (λ c, is_Some (digit_of c)) (fmt_lu n)
  ∧ ∀ a rest,
      read_digits (fmt_lu n ++ rest) a
      = read_digits rest (a * 10 ^ Z.of_nat (length (fmt_lu n)) + n).
Proof.
  intros Hn. destruct (dec_go_spec 9 n [] Hn) as (ds & Heq & Hlen & Hdig & Hread).
  unfold fmt_lu. rewrite Heq, app_nil_r. done.
Qed.

(** A [uint32_t] prints with one to ten digits, an [int] with at most
    eleven characters. *)
Lemma fmt_lu_u32 n : 0 ≤ n < 2 ^ 32 → (1 ≤ length (fmt_lu n) ≤ 10)%nat.
Proof. intros H. apply fmt_lu_spec. lia. Qed.

Lemma fmt_d_int z : - 2 ^ 31 ≤ z < 2 ^ 31 → (1 ≤ length (fmt_d z) ≤ 11)%nat.
Proof.
  intros H. unfold fmt_d. destruct (Z.ltb_spec z 0).
  - pose proof (fmt_lu_u32 (- z) ltac:(lia)). simpl. lia.
  - pose proof (fmt_lu_u32 z ltac:(lia)). lia.
Qed.

(** [atol] reads a printed number back, whatever follows it, as long as
    that is no further digit; beyond [LONG_MAX] it saturates. *)
Lemma atol_fmt_lu n rest :
  0 ≤ n < 10 ^ 10 →
  match rest with [] => True | c :: _ => digit_of c = None end →
  atol (fmt_lu n ++ rest) = Z.min n LONG_MAX.
Proof.
  intros Hn Hrest. destruct (fmt_lu_spec n Hn) as (Hlen & Hdig & Hread).
  destruct (fmt_lu n) as [|c ds] eqn:Hf; [simpl in Hlen; lia|].
  apply Forall_cons in Hdig as [[d Hd] _].
  unfold atol. cbn [app skip_spaces]. rewrite (digit_not_space c d Hd).
  destruct (digit_not_sign c d Hd) as [-> ->].
  change (c :: ds ++ rest) with ((c :: ds) ++ rest). rewrite Hread.
  replace (read_digits rest _) with n.
  - unfold clamp_long, LONG_MIN, LONG_MAX. lia.
  - destruct rest as [|x rest]; simpl; [lia|]. rewrite Hrest. lia.
Qed.

Lemma toInt_fmt_lu n rest :
  0 ≤ n < 10 ^ 10 →
  match rest with [] => True | c :: _ => digit_of c = None end →
  toInt (string_of_list_ascii (fmt_lu n ++ rest)) = Z.min n LONG_MAX.
Proof.
  intros. unfold toInt. rewrite list_ascii_of_string_of_list_ascii.
  by apply atol_fmt_lu.
Qed.

(** [snprintf] keeps a text that fits and cuts one that does not. *)
Lemma snprintf_whole size text :
  (length text < size)%nat → snprintf size text = text.
Proof. intros H. unfold snprintf. apply take_ge. lia. Qed.

Lemma snprintf_cut size text :
  (size ≤ length text)%nat → length (snprintf size text) = (size - 1)%nat.
Proof. intros H. unfold snprintf. rewrite length_take. lia. Qed.

Lemma length_lit s : length (lit s) = String.length s.
Proof. unfold lit. induction s; simpl; congruence. Qed.

Lemma length_key k : length (key k) = (String.length k + 3)%nat.
Proof. unfold key. cbn [length]. rewrite length_app, length_lit. simpl. lia. Qed.

Lemma length_quoted s : length (quoted s) = (length s + 2)%nat.
Proof. unfold quoted. cbn [length]. rewrite length_app. simpl. lia. Qed.

Lemma length_json_bool b : (length (json_bool b) ≤ 5)%nat.
Proof. destruct b; simpl; lia. Qed.

(** The numbers of the uptime: minutes and seconds stay below 60, the
    hours of a 32-bit millisecond count below 1194, and together they
    are the uptime in seconds. *)
Lemma uptime_fields_spec ms :
  0 ≤ ms < 2 ^ 32 →
  ∃ h m s,
    uptime_fields ms = (h, m, s)
    ∧ 0 ≤ h ≤ 1193 ∧ 0 ≤ m < 60 ∧ 0 ≤ s < 60
    ∧ 3600 * h + 60 * m + s = ms / 1000.
Proof.
  intros Hms. unfold uptime_fields. cbv zeta. eexists _, _, _.
  split; [reflexivity|].
  pose proof (Z.div_mod ms 1000 ltac:(lia)) as H1.
  pose proof (Z.mod_pos_bound ms 1000 ltac:(lia)) as H1'.
  pose proof (Z.div_mod (ms / 1000) 60 ltac:(lia)) as H2.
  pose proof (Z.mod_pos_bound (ms / 1000) 60 ltac:(lia)) as H2'.
  pose proof (Z.div_mod (ms / 1000 / 60) 60 ltac:(lia)) as H3.
  pose proof (Z.mod_pos_bound (ms / 1000 / 60) 60 ltac:(lia)) as H3'.
  lia.
Qed.

Lemma uptime_text_length ms :
  0 ≤ ms < 2 ^ 32 → (length (uptime_text ms) ≤ 13)%nat.
Proof.
  intros Hms. destruct (uptime_fields_spec ms Hms) as (h & m & s & Hf & Hh & Hm & Hs & _).
  unfold uptime_text. rewrite Hf.
  rewrite !length_app, !length_lit. cbn [String.length].
  pose proof (fmt_lu_length h 4 ltac:(lia) ltac:(lia)).
  pose proof (fmt_lu_length m 2 ltac:(lia) ltac:(lia)).
  pose proof (fmt_lu_length s 2 ltac:(lia) ltac:(lia)).
  lia.
Qed.

End TextFacts.

(** ** One call of the sender, event by event *)

Module TXShape.
Import Platform Runtime TX WordFacts RunFacts TXFacts Observe.

(** [server.handleClient()]: the request is answered and nothing else
    happens; only a POST to /save touches the configuration and the
    store, and only /save and /reboot restart. *)
Lemma tx_handleClient_shape o (s : Device) :
  ∃ s' evs,
    handleClient o s = (if restart_requested o then Restarted s' else Done tt s')
    ∧ vars s' = vars s
    ∧ trace s' = trace s ++ evs
    ∧ Forall (λ e, is_http e = true) evs
    ∧ (saving o = false → cfg s' = cfg s ∧ nvs s' = nvs s)
    ∧ Forall (λ e, ∀ st, e = HttpStatus st →
                st = mkStatus (txCount (vars s)) (spiStr (lastSpiResult (vars s)))
                       (status_mqtt_up o) (millis (status_t o)) None) evs.
Proof.
  unfold restart_requested, saving, handleClient. open_state s.
  destruct (pending o) as [rq|].
  2:{ exists (mkMachine c (mkVars ap wc mc n ltx lled lrc aps on r) store tr), [].
      rewrite app_nil_r. repeat split; constructor. }
  destruct (String.eqb_spec (uri rq) "/") as [->|_]; simpl.
  { unfold handleRoot, handleConfig. run. destruct ap; simpl;
      eexists _, _; (split; [reflexivity|]); simpl; repeat split;
      repeat constructor; intros; discriminate. }
  destruct (String.eqb_spec (uri rq) "/config") as [->|_]; simpl.
  { unfold handleConfig. run.
    eexists _, _; (split; [reflexivity|]); simpl; repeat split;
      repeat constructor; intros; discriminate. }
  destruct (String.eqb (uri rq) "/save" && is_post (method rq)) eqn:Hsave; simpl.
  { rewrite handleSave_eq. cbv zeta. eexists _, _.
    split; [reflexivity|]. simpl. repeat split; try discriminate;
      repeat constructor; intros; discriminate. }
  destruct (String.eqb_spec (uri rq) "/api/status") as [->|_]; simpl.
  { unfold handleStatus. run.
    eexists _, _; (split; [reflexivity|]); simpl; repeat split;
      repeat constructor. intros st [= <-]. reflexivity. }
  destruct (String.eqb (uri rq) "/reboot"); simpl.
  { unfold handleReboot. run. eexists _, _.
    split; [reflexivity|]. simpl. repeat split;
      repeat constructor; intros; discriminate. }
  unfold handleRoot, handleConfig. run. destruct ap; simpl;
    eexists _, _; (split; [reflexivity|]); simpl; repeat split;
    repeat constructor; intros; discriminate.
Qed.

(** The MQTT section calls only into the MQTT client, and not at all
    without the station link. *)
Lemma tx_loop_mqtt_shape o (s : Device) :
  ∃ s1 evs x y,
    loop_mqtt o s = Done tt s1
    ∧ cfg s1 = cfg s ∧ nvs s1 = nvs s
    ∧ vars s1 = set_mqttConnected x (set_lastMqttReconnect y (vars s))
    ∧ trace s1 = trace s ++ evs
    ∧ Forall (λ e, is_network e = true) evs
    ∧ (wifiConnected (vars s) = false → evs = []).
Proof.
  rewrite tx_loop_mqtt_eq. open_state s. fields.
  destruct wc.
  2:{ eexists _, [], _, _. split; [reflexivity|]. fields.
      rewrite app_nil_r. repeat split; constructor. }
  destruct (loop_mqtt_up o).
  { eexists _, [MqttLoop], _, _. split; [reflexivity|]. fields.
    repeat split; try done; repeat constructor. }
  rewrite tx_mqttReconnect_eq. fields.
  destruct (is_empty _);
    [|destruct (rc_mqtt_up o); [|destruct (_ <? _)]].
  1-3: eexists _, [MqttLoop], _, _; (split; [reflexivity|]); fields;
    repeat split; try done; repeat constructor.
  eexists _, [_; MqttLoop], _, _. split; [reflexivity|].
  fields. rewrite <- app_assoc.
  repeat split; try done; repeat constructor.
Qed.


(** One call of [loop()], event by event: what precedes the bus section
    answers the request and keeps the network libraries going; a due
    transmission follows, then the LED is switched off when its time has
    come. *)
Lemma tx_loop_shape o (s : Device) :
  let reached := negb (restart_requested o) in
  let due :=
    reached
    && (TX_INTERVAL <=? u32_sub (millis (bus_t_check o)) (lastTx (vars s))) in
  let on2 := if due then true else ledOn (vars s) in
  let off2 := if due then u32_add (millis (led_t_arm o)) LED_FLASH_MS
              else lastLedOff (vars s) in
  let led_off := reached && on2 && (off2 <=? millis (led_t_check o)) in
  ∃ s' pre,
    final (loop o s) = Some s'
    ∧ trace s'
      = trace s ++ pre
        ++ (if due
            then [DigitalWrite SPI_CS LOW; SpiBeginTransaction]
                 ++ map (λ i, SpiTransfer (nth i HELLO_PAYLOAD "000"%byte)
                                (miso o i)) (seq 0 HELLO_LEN)
                 ++ [SpiEndTransaction; DigitalWrite SPI_CS HIGH;
                     DigitalWrite LED_PIN LOW]
                 ++ (if pub_mqtt_up o
                     then [MqttPublish (cfgMqttTopic (cfg s))
                             (PubTx (u32_add (txCount (vars s)) 1))]
                     else [])
            else [])
        ++ (if led_off then [DigitalWrite LED_PIN HIGH] else [])
    ∧ Forall (λ e, is_http e || is_network e = true) pre
    ∧ (wifiConnected (vars s) = false → Forall (λ e, is_http e = true) pre)
    ∧ Forall (λ e, ∀ st, e = HttpStatus st →
                st = mkStatus (txCount (vars s)) (spiStr (lastSpiResult (vars s)))
                       (status_mqtt_up o) (millis (status_t o)) None) pre
    ∧ (saving o = false → cfg s' = cfg s ∧ nvs s' = nvs s)
    ∧ txCount (vars s')
      = (if due then u32_add (txCount (vars s)) 1 else txCount (vars s))
    ∧ ledOn (vars s') = (if led_off then false else on2)
    ∧ apMode (vars s') = apMode (vars s)
    ∧ wifiConnected (vars s') = wifiConnected (vars s).
Proof.
  intros reached due on2 off2 led_off. unfold loop.
  rewrite (bind_done _ _ _ _ _ (tx_loop_ota_eq s)).
  destruct (tx_handleClient_shape o
              (mkMachine (cfg s) (vars s) (nvs s)
                 (trace s ++ if wifiConnected (vars s) then [OtaHandle] else [])))
    as (s1 & evs & Hweb & Hv1 & Htr1 & Hhttp & Hsave & Hst).
  cbn [cfg vars nvs trace] in *.
  assert (Hota : Forall (λ e, is_http e || is_network e = true)
                   (if wifiConnected (vars s) then [OtaHandle] else []))
    by (destruct (wifiConnected (vars s)); repeat constructor).
  assert (Hweb' : Forall (λ e, is_http e || is_network e = true) evs)
    by (eapply Forall_impl; [exact Hhttp|]; by intros e ->).
  subst reached due on2 off2 led_off.
  destruct (restart_requested o) eqn:Hreq; cbn [negb andb].
  { rewrite (bind_restarted _ _ _ _ Hweb).
    exists s1, ((if wifiConnected (vars s) then [OtaHandle] else []) ++ evs).
    split; [done|]. rewrite Htr1, Hv1, !app_nil_r, <- app_assoc.
    split; [done|]. split; [by apply Forall_app|]. split.
    { intros ->. by rewrite app_nil_l. }
    split; [apply Forall_app; split; [|done];
            destruct (wifiConnected _); repeat constructor; intros; discriminate|].
    done. }
  rewrite (bind_done _ _ _ _ _ Hweb).
  destruct (tx_loop_mqtt_shape o s1)
    as (s2 & evs2 & x & y & Hmq & Hc2 & Hn2 & Hv2 & Htr2 & Hnet & Hoff).
  rewrite (bind_done _ _ _ _ _ Hmq).
  rewrite Hv1 in Hv2, Hoff.
  assert (Hpre : trace s2
                 = trace s ++ ((if wifiConnected (vars s) then [OtaHandle] else [])
                               ++ evs ++ evs2))
    by (rewrite Htr2, Htr1; by rewrite <- !app_assoc).
  assert (Hq : Forall (λ e, is_http e || is_network e = true)
                 ((if wifiConnected (vars s) then [OtaHandle] else [])
                  ++ evs ++ evs2)).
  { rewrite !Forall_app. repeat split; try done.
    eapply Forall_impl; [exact Hnet|]. intros e ->. apply orb_true_r. }
  assert (Hap : wifiConnected (vars s) = false →
                Forall (λ e, is_http e = true)
                  ((if wifiConnected (vars s) then [OtaHandle] else [])
                   ++ evs ++ evs2)).
  { intros Hw. rewrite (Hoff Hw), Hw, app_nil_r. done. }
  assert (Hsnap : Forall (λ e, ∀ st, e = HttpStatus st →
                st = mkStatus (txCount (vars s)) (spiStr (lastSpiResult (vars s)))
                       (status_mqtt_up o) (millis (status_t o)) None)
                  ((if wifiConnected (vars s) then [OtaHandle] else [])
                   ++ evs ++ evs2)).
  { rewrite !Forall_app. repeat split; try done.
    - destruct (wifiConnected _); repeat constructor; intros; discriminate.
    - eapply Forall_impl; [exact Hnet|]. intros e He st ->. discriminate. }
  assert (Hcfg : saving o = false → cfg s2 = cfg s ∧ nvs s2 = nvs s).
  { intros Hs. destruct (Hsave Hs) as [<- <-]. done. }
  assert (Htopic : cfg s2 = cfg s).
  { rewrite Hc2. unfold restart_requested, saving in *.
    destruct (pending o) as [rq|]; [|by apply Hsave].
    apply Hsave. apply orb_false_iff in Hreq. tauto. }
  change ((loop_bus o ≫= λ _, loop_led o ≫= λ _, loop_ap o) s2)
    with (match loop_bus o s2 with
          | Done _ s3 =>
              match loop_led o s3 with
              | Done _ s4 => loop_ap o s4
              | other => other
              end
          | other => other
          end).
  rewrite tx_loop_bus_eq, Hv2.
  cbn [lastTx set_mqttConnected set_lastMqttReconnect].
  destruct (TX_INTERVAL <=? _) eqn:Hdue.
  - rewrite tx_spiTransmit_eq. fields.
    rewrite tx_loop_led_eq. fields. cbn [andb].
    destruct (_ <=? millis (led_t_check o)) eqn:Hled;
      rewrite tx_loop_ap_eq; fields;
      eexists _, ((if wifiConnected (vars s) then [OtaHandle] else [])
                  ++ evs ++ evs2);
      (split; [destruct (apMode _ && _); reflexivity|]); fields;
      (split; [rewrite Hpre, Htopic, <- !app_assoc, ?app_nil_r; reflexivity|]);
      (split; [exact Hq|]); (split; [exact Hap|]); (split; [exact Hsnap|]);
      (split; [exact Hcfg|]); done.
  - rewrite tx_loop_led_eq, Hv2. fields.
    destruct (ledOn (vars s) && _) eqn:Hled;
      rewrite tx_loop_ap_eq; fields;
      eexists _, ((if wifiConnected (vars s) then [OtaHandle] else [])
                  ++ evs ++ evs2);
      (split; [destruct (apMode _ && _); reflexivity|]); fields;
      (split; [rewrite Hpre, <- ?app_assoc, ?app_nil_r; reflexivity|]);
      (split; [exact Hq|]); (split; [exact Hap|]); (split; [exact Hsnap|]);
      (split; [exact Hcfg|]); rewrite ?Hv2; done.
Qed.

(** [loadConfig()]: every string passes through [toCharArray], a
    missing key gives the default. *)
Lemma tx_loadConfig_eq (s : Device) :
  loadConfig s
  = Done tt
      (mkMachine
         (mkConfig
            (toCharArray (getString (nvs s) "ssid" "") 33)
            (toCharArray (getString (nvs s) "pass" "") 65)
            (toCharArray (getString (nvs s) "mqttSrv" "") 65)
            (getUShort (nvs s) "mqttPort" 1883)
            (toCharArray (getString (nvs s) "mqttTopic" "halow/tx") 65)
            (toCharArray (getString (nvs s) "mqttUser" "") 33)
            (toCharArray (getString (nvs s) "mqttPass" "") 65))
         (vars s) (nvs s) (trace s)).
Proof.
  destruct s as [c v store tr]. unfold loadConfig.
  do 7 step. reflexivity.
Qed.

(** [setup()] after power-on, call by call. *)
Lemma tx_setup_eq b store :
  let c' :=
    mkConfig
      (toCharArray (getString store "ssid" "") 33)
      (toCharArray (getString store "pass" "") 65)
      (toCharArray (getString store "mqttSrv" "") 65)
      (getUShort store "mqttPort" 1883)
      (toCharArray (getString store "mqttTopic" "halow/tx") 65)
      (toCharArray (getString store "mqttUser" "") 33)
      (toCharArray (getString store "mqttPass" "") 65) in
  let named := negb (is_empty (cfgSSID c')) in
  let station := named && wifi_joined b in
  setup b (power_on store)
  = Done tt
      (mkMachine c'
         (if station
          then mkVars false true false 0 0 0 0 0 false (-1)
          else mkVars true false false 0 0 0 0 (millis (ap_t_start b)) false (-1))
         store
         ([DigitalWrite LED_PIN HIGH; DigitalWrite SPI_CS HIGH]
          ++ (if named then [WifiBegin (cfgSSID c') (cfgPass c')] else [])
          ++ (if station
              then if is_empty (cfgMqttServer c') then []
                   else [MqttSetServer (cfgMqttServer c') (cfgMqttPort c')]
              else [WifiSoftAP]))).
Proof.
  intros c' named station. unfold setup, power_on.
  step. step. eapply bind_step; [apply tx_loadConfig_eq|]. fields.
  fold c'. step. subst station named.
  destruct (is_empty (cfgSSID c')) eqn:Hssid; cbn [negb andb].
  - unfold startAP. repeat step. reflexivity.
  - unfold connectWiFi. destruct (wifi_joined b).
    + step. step. unfold setupMQTT. cbn [when]. step.
      destruct (is_empty (cfgMqttServer c')); prim; fields;
        by rewrite ?app_nil_r.
    + unfold startAP. repeat step. reflexivity.
Qed.

End TXShape.

(** ** One call of the receiver, event by event *)

Module RXShape.
Import Platform Runtime RX WordFacts RunFacts BufferFacts Spec RXFacts Observe.

(** The calls of one exchange on the bus. *)
Lemma rx_spiReceive_run o (s : Device) :
  sized (vars s) →
  ∃ s',
    spiReceive o s = Done tt s'
    ∧ trace s'
      = trace s
        ++ [DigitalWrite SPI_CS LOW; SpiBeginTransaction]
        ++ map (λ i, SpiTransfer "000"%byte (miso o i)) (seq 0 32)
        ++ [SpiEndTransaction; DigitalWrite SPI_CS HIGH]
        ++ (if classified_length (response o) is O then []
            else DigitalWrite LED_PIN LOW ::
                 if pub_mqtt_up o
                 then [MqttPublish (cfgMqttTopic (cfg s))
                         (PubRx (u32_add (rxCount (vars s)) 1)
                            (hex_field (payload (response o)))
                            (ascii_field (payload (response o))))]
                 else []).
Proof.
  intros [Hd Ha]. open_state s. simpl in Hd, Ha.
  destruct dat as [|x0 dat]; [discriminate|].
  destruct asc as [|y0 asc]; [discriminate|].
  rewrite (rx_spiReceive_prefix o c
             (mkVars buf len ap wc n lrx lled lrc aps on r (x0 :: dat) (y0 :: asc))
             store tr x0 dat y0 asc eq_refl eq_refl).
  cbv zeta. fields.
  pose proof (classified_length_bound (response o)) as Hbound.
  rewrite response_length in Hbound.
  unfold payload.
  destruct (classified_length (response o)) as [|k] eqn:Hn.
  - eexists. split.
    { step. reflexivity. }
    fields. by rewrite app_nil_r.
  - assert (Hmin : (S k `min` RX_BUF_LEN)%nat = S k)
      by (unfold RX_BUF_LEN; lia).
    assert (Hlen : length (take (S k) (response o)) = S k)
      by (rewrite length_take, response_length; lia).
    assert (Hne : take (S k) (response o) ≠ [])
      by (intros E; rewrite E in Hlen; discriminate).
    set (chunks := flat_map (λ b, take 3 (fmt_02X_sp b)) (take (S k) (response o))).
    set (text := map printable_or_dot (take (S k) (response o))).
    assert (Hchunks : length chunks = S (3 * k + 2)).
    { unfold chunks. rewrite hex_chars_length, Hlen. lia. }
    assert (Htext : length text = S k)
      by (unfold text; by rewrite length_map).
    assert (Hrender :
      ∃ s2,
        (when (bool_decide (S k ≠ 0%nat) && (0 <? S k)%nat)
           (pa ← for_loop 0 (S k `min` RX_BUF_LEN)
              (λ i (pa : nat * nat),
                 b ← rxBuf_at i;
                 d ← var lastRxData;
                 dk ← checked (sprintf_02X_sp d pa.1 b);
                 with_vars (set_lastRxData dk.1);;
                 upd_lastRxAscii (λ d, poke d pa.2 (printable_or_dot b));;
                 mret ((pa.1 + dk.2)%nat, S pa.2)) (0%nat, 0%nat);
            upd_lastRxAscii (λ d, poke d pa.2 NUL);;
            when (0 <? pa.1)%nat
              (upd_lastRxData (λ d, poke d (pa.1 - 1) NUL))))
          (mkMachine c
             (mkVars (response o) (S k) ap wc n lrx lled lrc aps on r
                (NUL :: dat) (NUL :: asc))
             store
             (tr ++ [DigitalWrite SPI_CS LOW; SpiBeginTransaction]
                 ++ map (λ i, SpiTransfer "000"%byte (miso o i)) (seq 0 32)
                 ++ [SpiEndTransaction; DigitalWrite SPI_CS HIGH]))
        = Done tt s2
        ∧ s2 = mkMachine c
             (mkVars (response o) (S k) ap wc n lrx lled lrc aps on r
                (<[(3 * k + 2)%nat:=NUL]> (chunks ++ NUL :: drop (3 * S k + 1) (NUL :: dat)))
                (<[S k:=NUL]> (text ++ drop (S k) (NUL :: asc))))
             store
             (tr ++ [DigitalWrite SPI_CS LOW; SpiBeginTransaction]
                 ++ map (λ i, SpiTransfer "000"%byte (miso o i)) (seq 0 32)
                 ++ [SpiEndTransaction; DigitalWrite SPI_CS HIGH])).
    { eexists. split; [|reflexivity].
      cbn [bool_decide decide_rel andb Nat.ltb Nat.leb when].
      rewrite Hmin.
      eapply bind_step.
      { lazymatch goal with
        | |- for_loop _ _ _ _ (mkMachine ?c ?v ?st ?tr) = _ =>
            exact (rx_render_loop (response o) (NUL :: dat) (NUL :: asc) (S k)
                     0 c v st tr eq_refl Hd Ha
                     ltac:(rewrite response_length; lia) ltac:(lia)
                     eq_refl eq_refl)
        end. }
      fields. change (0 + S k)%nat with (S k). fold chunks text.
      eapply bind_step.
      { prim. fields. rewrite poke_ok; [reflexivity|].
        rewrite length_app, Htext, length_drop. simpl in Ha |- *. lia. }
      fields.
      replace (3 * S k - 1)%nat with (3 * k + 2)%nat by lia.
      replace (3 * S k)%nat with (S (3 * k + 2)) by lia.
      cbv beta iota. prim. fields.
      rewrite poke_ok; [reflexivity|].
      rewrite length_app, Hchunks. simpl. lia. }
    destruct Hrender as (s2 & Hrender & ->).
    assert (Hhex : c_str (<[(3 * k + 2)%nat:=NUL]>
                            (chunks ++ NUL :: drop (3 * S k + 1) (NUL :: dat)))
                   = Some (hex_field (take (S k) (response o)))).
    { rewrite (rx_c_str_trimmed _ _ _ Hchunks) by apply hex_chars_not_nul.
      f_equal. rewrite <- (hex_field_trim _ Hne). unfold chunks.
      f_equal. rewrite Hlen. lia. }
    assert (Htxt : c_str (<[S k:=NUL]> (text ++ drop (S k) (NUL :: asc)))
                   = Some (ascii_field (take (S k) (response o)))).
    { rewrite <- Htext at 1 2. rewrite rx_c_str_closed.
      - unfold text. by rewrite printable_or_dot_spec.
      - unfold text. rewrite printable_or_dot_spec. apply ascii_field_not_nul.
      - rewrite Htext. simpl in Ha |- *. lia. }
    destruct (pub_mqtt_up o) eqn:Hpub.
    + eexists. split.
      { step. eapply bind_step; [exact Hrender|].
        cbn [bool_decide decide_rel]. do 5 step.
        step. step. step. step.
        eapply bind_step; [prim; rewrite Hhex; reflexivity|].
        eapply bind_step; [prim; rewrite Htxt; reflexivity|].
        reflexivity. }
      fields. by rewrite <- !app_assoc.
    + eexists. split.
      { step. eapply bind_step; [exact Hrender|].
        cbn [bool_decide decide_rel]. do 5 step.
        reflexivity. }
      fields. by rewrite <- !app_assoc.
Qed.

(** [server.handleClient()]: the request is answered and nothing else
    happens; only a POST to /save touches the configuration and the
    store, and only /save and /reboot restart. *)
Lemma rx_handleClient_shape o (s : Device) :
  terminated (vars s) →
  ∃ s' evs,
    handleClient o s = (if restart_requested o then Restarted s' else Done tt s')
    ∧ vars s' = vars s
    ∧ trace s' = trace s ++ evs
    ∧ Forall (λ e, is_http e = true) evs
    ∧ (saving o = false → cfg s' = cfg s ∧ nvs s' = nvs s)
    ∧ Forall (λ e, ∀ st, e = HttpStatus st →
                ∃ hex txt,
                  c_str (lastRxData (vars s)) = Some hex
                  ∧ c_str (lastRxAscii (vars s)) = Some txt
                  ∧ st = mkStatus (rxCount (vars s))
                           (spiStr (lastSpiResult (vars s)))
                           (status_mqtt_up o) (millis (status_t o))
                           (Some (hex, txt))) evs.
Proof.
  intros [[hex Hhex] [txt Htxt]].
  unfold restart_requested, saving, handleClient. open_state s.
  simpl in Hhex, Htxt.
  destruct (pending o) as [rq|].
  2:{ eexists _, []. split; [reflexivity|].
      rewrite app_nil_r. repeat split; constructor. }
  destruct (String.eqb_spec (uri rq) "/") as [->|_]; simpl.
  { unfold handleRoot, handleConfig. run. destruct ap; simpl;
      eexists _, _; (split; [reflexivity|]); simpl; repeat split;
      repeat constructor; intros; discriminate. }
  destruct (String.eqb_spec (uri rq) "/config") as [->|_]; simpl.
  { unfold handleConfig. run.
    eexists _, _; (split; [reflexivity|]); simpl; repeat split;
      repeat constructor; intros; discriminate. }
  destruct (String.eqb (uri rq) "/save" && is_post (method rq)) eqn:Hsave; simpl.
  { rewrite handleSave_eq. cbv zeta. eexists _, _.
    split; [reflexivity|]. simpl. repeat split; try discriminate;
      repeat constructor; intros; discriminate. }
  destruct (String.eqb_spec (uri rq) "/api/status") as [->|_]; simpl.
  { unfold handleStatus. run. rewrite Hhex, Htxt.
    eexists _, _; (split; [reflexivity|]); simpl; repeat split;
      repeat constructor. intros st [= <-]. by exists hex, txt. }
  destruct (String.eqb (uri rq) "/reboot"); simpl.
  { unfold handleReboot. run. eexists _, _.
    split; [reflexivity|]. simpl. repeat split;
      repeat constructor; intros; discriminate. }
  unfold handleRoot, handleConfig. run. destruct ap; simpl;
    eexists _, _; (split; [reflexivity|]); simpl; repeat split;
    repeat constructor; intros; discriminate.
Qed.

(** The MQTT section calls only into the MQTT client, and not at all
    without the station link. *)
Lemma rx_loop_mqtt_shape o (s : Device) :
  ∃ s1 evs x,
    loop_mqtt o s = Done tt s1
    ∧ cfg s1 = cfg s ∧ nvs s1 = nvs s
    ∧ vars s1 = set_lastMqttReconnect x (vars s)
    ∧ trace s1 = trace s ++ evs
    ∧ Forall (λ e, is_network e = true) evs
    ∧ (wifiConnected (vars s) = false → evs = []).
Proof.
  rewrite rx_loop_mqtt_eq. open_state s. fields.
  destruct wc.
  2:{ eexists _, [], _. split; [reflexivity|]. fields.
      rewrite app_nil_r. repeat split; constructor. }
  destruct (loop_mqtt_up o).
  { eexists _, [MqttLoop], _. split; [reflexivity|]. fields.
    repeat split; try done; repeat constructor. }
  rewrite rx_mqttReconnect_eq. fields.
  destruct (is_empty _);
    [|destruct (rc_mqtt_up o); [|destruct (_ <? _)]].
  1-3: eexists _, [MqttLoop], _; (split; [reflexivity|]); fields;
    repeat split; try done; repeat constructor.
  eexists _, [_; MqttLoop], _. split; [reflexivity|].
  fields. rewrite <- app_assoc.
  repeat split; try done; repeat constructor.
Qed.

(** One call of [loop()], event by event. *)
Lemma rx_loop_shape o (s : Device) :
  sized (vars s) → terminated (vars s) →
  let reached := negb (restart_requested o) in
  let due :=
    reached
    && (RX_INTERVAL <=? u32_sub (millis (bus_t_check o)) (lastRx (vars s))) in
  let got := due && negb (classified_length (response o) =? 0)%nat in
  let on2 := if got then true else ledOn (vars s) in
  let off2 := if got then u32_add (millis (led_t_arm o)) LED_FLASH_MS
              else lastLedOff (vars s) in
  let led_off := reached && on2 && (off2 <=? millis (led_t_check o)) in
  ∃ s' pre,
    final (loop o s) = Some s'
    ∧ trace s'
      = trace s ++ pre
        ++ (if due
            then [DigitalWrite SPI_CS LOW; SpiBeginTransaction]
                 ++ map (λ i, SpiTransfer "000"%byte (miso o i)) (seq 0 32)
                 ++ [SpiEndTransaction; DigitalWrite SPI_CS HIGH]
                 ++ (if got
                     then DigitalWrite LED_PIN LOW ::
                          if pub_mqtt_up o
                          then [MqttPublish (cfgMqttTopic (cfg s))
                                  (PubRx (u32_add (rxCount (vars s)) 1)
                                     (hex_field (payload (response o)))
                                     (ascii_field (payload (response o))))]
                          else []
                     else [])
            else [])
        ++ (if led_off then [DigitalWrite LED_PIN HIGH] else [])
    ∧ Forall (λ e, is_http e || is_network e = true) pre
    ∧ (wifiConnected (vars s) = false → Forall (λ e, is_http e = true) pre)
    ∧ Forall (λ e, ∀ st, e = HttpStatus st →
                ∃ hex txt,
                  c_str (lastRxData (vars s)) = Some hex
                  ∧ c_str (lastRxAscii (vars s)) = Some txt
                  ∧ st = mkStatus (rxCount (vars s))
                           (spiStr (lastSpiResult (vars s)))
                           (status_mqtt_up o) (millis (status_t o))
                           (Some (hex, txt))) pre
    ∧ (saving o = false → cfg s' = cfg s ∧ nvs s' = nvs s)
    ∧ rxCount (vars s')
      = (if got then u32_add (rxCount (vars s)) 1 else rxCount (vars s))
    ∧ ledOn (vars s') = (if led_off then false else on2)
    ∧ apMode (vars s') = apMode (vars s)
    ∧ wifiConnected (vars s') = wifiConnected (vars s)
    ∧ rxBuf (vars s') = (if due then response o else rxBuf (vars s))
    ∧ rxLen (vars s')
      = (if due then classified_length (response o) else rxLen (vars s))
    ∧ c_str (lastRxData (vars s'))
      = (if due then Some (hex_field (payload (response o)))
         else c_str (lastRxData (vars s)))
    ∧ c_str (lastRxAscii (vars s'))
      = (if due then Some (ascii_field (payload (response o)))
         else c_str (lastRxAscii (vars s)))
    ∧ lastSpiResult (vars s')
      = (if due then (if got then 0 else 1) else lastSpiResult (vars s))
    ∧ sized (vars s').
Proof.
  intros Hsz Hterm reached due got on2 off2 led_off. unfold loop.
  rewrite (bind_done _ _ _ _ _ (rx_loop_ota_eq s)).
  destruct (rx_handleClient_shape o
              (mkMachine (cfg s) (vars s) (nvs s)
                 (trace s ++ if wifiConnected (vars s) then [OtaHandle] else []))
              Hterm)
    as (s1 & evs & Hweb & Hv1 & Htr1 & Hhttp & Hsave & Hst).
  cbn [cfg vars nvs trace] in *.
  assert (Hota : Forall (λ e, is_http e || is_network e = true)
                   (if wifiConnected (vars s) then [OtaHandle] else []))
    by (destruct (wifiConnected (vars s)); repeat constructor).
  assert (Hweb' : Forall (λ e, is_http e || is_network e = true) evs)
    by (eapply Forall_impl; [exact Hhttp|]; by intros e ->).
  subst reached due got on2 off2 led_off.
  destruct (restart_requested o) eqn:Hreq; cbn [negb andb].
  { rewrite (bind_restarted _ _ _ _ Hweb).
    exists s1, ((if wifiConnected (vars s) then [OtaHandle] else []) ++ evs).
    split; [done|]. rewrite Htr1, Hv1, !app_nil_r, <- app_assoc.
    split; [done|]. split; [by apply Forall_app|]. split.
    { intros ->. by rewrite app_nil_l. }
    split; [apply Forall_app; split; [|done];
            destruct (wifiConnected _); repeat constructor; intros; discriminate|].
    done. }
  rewrite (bind_done _ _ _ _ _ Hweb).
  destruct (rx_loop_mqtt_shape o s1)
    as (s2 & evs2 & x & Hmq & Hc2 & Hn2 & Hv2 & Htr2 & Hnet & Hoff).
  rewrite (bind_done _ _ _ _ _ Hmq).
  rewrite Hv1 in Hv2, Hoff.
  set (pre := (if wifiConnected (vars s) then [OtaHandle] else []) ++ evs ++ evs2).
  assert (Hpre : trace s2 = trace s ++ pre)
    by (unfold pre; rewrite Htr2, Htr1; by rewrite <- !app_assoc).
  assert (Hq : Forall (λ e, is_http e || is_network e = true) pre).
  { unfold pre. rewrite !Forall_app. repeat split; try done.
    eapply Forall_impl; [exact Hnet|]. intros e ->. apply orb_true_r. }
  assert (Hap : wifiConnected (vars s) = false →
                Forall (λ e, is_http e = true) pre).
  { intros Hw. unfold pre. rewrite (Hoff Hw), Hw, app_nil_r. done. }
  assert (Hsnap : Forall (λ e, ∀ st, e = HttpStatus st →
                ∃ hex txt,
                  c_str (lastRxData (vars s)) = Some hex
                  ∧ c_str (lastRxAscii (vars s)) = Some txt
                  ∧ st = mkStatus (rxCount (vars s))
                           (spiStr (lastSpiResult (vars s)))
                           (status_mqtt_up o) (millis (status_t o))
                           (Some (hex, txt))) pre).
  { unfold pre. rewrite !Forall_app. repeat split; try done.
    - destruct (wifiConnected _); repeat constructor; intros; discriminate.
    - eapply Forall_impl; [exact Hnet|]. intros e He st ->. discriminate. }
  assert (Hcfg : saving o = false → cfg s2 = cfg s ∧ nvs s2 = nvs s).
  { intros Hs. destruct (Hsave Hs) as [<- <-]. done. }
  assert (Htopic : cfg s2 = cfg s).
  { rewrite Hc2. unfold restart_requested, saving in *.
    destruct (pending o) as [rq|]; [|by apply Hsave].
    apply Hsave. apply orb_false_iff in Hreq. tauto. }
  clearbody pre. clear Hweb Hmq Htr1 Htr2 Hhttp Hst Hnet Hoff Hota Hweb' Hsave.
  change ((loop_bus o ≫= λ _, loop_led o ≫= λ _, loop_ap o) s2)
    with (match loop_bus o s2 with
          | Done _ s3 =>
              match loop_led o s3 with
              | Done _ s4 => loop_ap o s4
              | other => other
              end
          | other => other
          end).
  rewrite rx_loop_bus_eq, Hv2. fields.
  destruct (RX_INTERVAL <=? _) eqn:Hdue.
  - assert (Hsz3 : sized (vars (mkMachine (cfg s2)
                     (set_lastRx (millis (bus_t_mark o))
                        (set_lastMqttReconnect x (vars s)))
                     (nvs s2) (trace s2))))
      by (destruct Hsz; split; fields; done).
    destruct (rx_spiReceive_effect o _ Hsz3)
      as (s4 & evsE & Hrun & Hc4 & Hn4 & Hbuf & Hlen & Hhex & Htxt & Hsz4 & Hr
          & Hcnt & Hon & Hoff & Hapm & Hwc & _).
    destruct (rx_spiReceive_run o _ Hsz3) as (s4' & Hrun' & Htr4).
    rewrite Hrun in Hrun'. injection Hrun' as <-.
    rewrite Hrun. fields_all.
    rewrite rx_loop_led_eq, Hon, Hoff.
    assert (Hgot : negb (classified_length (response o) =? 0)%nat
                   = (if classified_length (response o) is O then false else true))
      by (by destruct (classified_length (response o))).
    rewrite Hgot.
    destruct (classified_length (response o)) as [|k] eqn:Hcl.
    + destruct (ledOn (vars s) && _) eqn:Hled;
        rewrite rx_loop_ap_eq; fields; rewrite Hapm;
        eexists _, pre;
        (split; [destruct (apMode _ && _); reflexivity|]); fields;
        cbn [andb]; rewrite ?Hled;
        (split; [rewrite Htr4, Hpre, <- ?app_assoc, ?app_nil_r; reflexivity|]);
        (split; [exact Hq|]); (split; [exact Hap|]); (split; [exact Hsnap|]);
        (split; [by rewrite Hc4, Hn4|]);
        rewrite ?Hcnt, ?Hon, ?Hapm, ?Hwc, ?Hbuf, ?Hlen, ?Hhex, ?Htxt, ?Hr, ?Hcl;
        repeat (split; [done|]); done.
    + cbn [andb].
      destruct (_ <=? millis (led_t_check o)) eqn:Hled;
        rewrite rx_loop_ap_eq; fields; rewrite Hapm;
        eexists _, pre;
        (split; [destruct (apMode _ && _); reflexivity|]); fields;
        cbn [andb]; rewrite ?Hled;
        (split; [rewrite Htr4, Hpre, Htopic, <- ?app_assoc, ?app_nil_r;
                 reflexivity|]);
        (split; [exact Hq|]); (split; [exact Hap|]); (split; [exact Hsnap|]);
        (split; [by rewrite Hc4, Hn4|]);
        rewrite ?Hcnt, ?Hon, ?Hapm, ?Hwc, ?Hbuf, ?Hlen, ?Hhex, ?Htxt, ?Hr, ?Hcl;
        repeat (split; [done|]); done.
  - rewrite rx_loop_led_eq, Hv2. fields.
    destruct (ledOn (vars s) && _) eqn:Hled;
      rewrite rx_loop_ap_eq; fields;
      eexists _, pre;
      (split; [destruct (apMode _ && _); reflexivity|]); fields;
      cbn [andb]; rewrite ?Hled;
      (split; [rewrite Hpre, <- ?app_assoc, ?app_nil_r; reflexivity|]);
      (split; [exact Hq|]); (split; [exact Hap|]); (split; [exact Hsnap|]);
      (split; [exact Hcfg|]); rewrite ?Hv2; fields;
      destruct Hsz; repeat (split; [done|]); done.
Qed.

(** [loadConfig()]: a stored string that does not fit its array leaves
    the array as it was; an empty topic is replaced by the default. *)
Lemma rx_loadConfig_eq (s : Device) :
  loadConfig s
  = Done tt
      (mkMachine
         (mkConfig
            (getString_into (nvs s) "ssid" 33 (cfgSSID (cfg s)))
            (getString_into (nvs s) "pass" 65 (cfgPass (cfg s)))
            (getString_into (nvs s) "mqttSrv" 65 (cfgMqttServer (cfg s)))
            (getUShort (nvs s) "mqttPort" 1883)
            (if is_empty (getString_into (nvs s) "mqttTopic" 65
                            (cfgMqttTopic (cfg s)))
             then "halow/rx"
             else getString_into (nvs s) "mqttTopic" 65 (cfgMqttTopic (cfg s)))
            (getString_into (nvs s) "mqttUser" 33 (cfgMqttUser (cfg s)))
            (getString_into (nvs s) "mqttPass" 65 (cfgMqttPass (cfg s))))
         (vars s) (nvs s) (trace s)).
Proof.
  destruct s as [[c1 c2 c3 c4 c5 c6 c7] v store tr]. unfold loadConfig.
  cbv [mbind M_bind mret M_ret with_cfg modify gets config when].
  cbn [cfg vars nvs trace cfgSSID cfgPass cfgMqttServer cfgMqttPort
       cfgMqttTopic cfgMqttUser cfgMqttPass set_cfgSSID set_cfgPass
       set_cfgMqttServer set_cfgMqttPort set_cfgMqttTopic set_cfgMqttUser
       set_cfgMqttPass].
  by destruct (is_empty _).
Qed.

(** [setup()] after power-on, call by call. *)
Lemma rx_setup_eq b store :
  let c' :=
    mkConfig
      (getString_into store "ssid" 33 "")
      (getString_into store "pass" 65 "")
      (getString_into store "mqttSrv" 65 "")
      (getUShort store "mqttPort" 1883)
      (if is_empty (getString_into store "mqttTopic" 65 "halow/rx")
       then "halow/rx"
       else getString_into store "mqttTopic" 65 "halow/rx")
      (getString_into store "mqttUser" 33 "")
      (getString_into store "mqttPass" 65 "") in
  let named := negb (is_empty (cfgSSID c')) in
  let station := named && wifi_joined b in
  setup b (power_on store)
  = Done tt
      (mkMachine c'
         (mkVars (replicate RX_BUF_LEN "000"%byte) 0 (negb station) station
            0 0 0 0 (if station then 0 else millis (ap_t_start b)) false (-1)
            (replicate (RX_BUF_LEN * 3 + 1) NUL)
            (replicate (RX_BUF_LEN + 1) NUL))
         store
         ([DigitalWrite LED_PIN HIGH; DigitalWrite SPI_CS HIGH]
          ++ (if named then [WifiBegin (cfgSSID c') (cfgPass c')] else [])
          ++ (if station
              then if is_empty (cfgMqttServer c') then []
                   else [MqttSetServer (cfgMqttServer c') (cfgMqttPort c')]
              else [WifiSoftAP]))).
Proof.
  intros c' named station. unfold setup, power_on.
  step. step.
  eapply bind_step; [reflexivity|]. eapply bind_step; [reflexivity|].
  eapply bind_step; [apply rx_loadConfig_eq|].
  cbn [cfg vars nvs trace cfgSSID cfgPass cfgMqttServer cfgMqttPort
       cfgMqttTopic cfgMqttUser cfgMqttPass].
  fold c'. step. subst station named.
  destruct (is_empty (cfgSSID c')) eqn:Hssid; cbn [negb andb].
  - unfold startAP. repeat step. reflexivity.
  - unfold connectWiFi. destruct (wifi_joined b).
    + step. step. unfold setupMQTT. cbn [when]. step.
      destruct (is_empty (cfgMqttServer c')); prim; fields;
        by rewrite ?app_nil_r.
    + unfold startAP. repeat step. reflexivity.
Qed.

End RXShape.

(** ** What the traces of the sender keep *)

Module ObserveFacts.
Import Platform Runtime Observe RunFacts.

Lemma http_or_network_quiet e :
  is_http e || is_network e = true → is_quiet e = true.
Proof. by destruct e. Qed.

Lemma bus_log_app cs tr evs :
  bus_log cs (tr ++ evs) = fold_left (bus_step cs) evs (bus_log cs tr).
Proof. unfold bus_log. apply fold_left_app. Qed.

Lemma pin_level_app pin tr evs :
  pin_level pin (tr ++ evs) = fold_left (pin_step pin) evs (pin_level pin tr).
Proof. unfold pin_level. apply fold_left_app. Qed.

(** Quiet events leave the bus and the pins as they are. *)
Lemma bus_fold_quiet cs evs : ∀ st,
  Forall (λ e, is_quiet e = true) evs →
  fold_left (bus_step cs) evs st = st.
Proof.
  induction evs as [|e evs IH]; intros st Hq; [done|].
  apply Forall_cons in Hq as [He Hq]. cbn [fold_left].
  rewrite <- (IH st Hq) at 2. f_equal.
  destruct st as [[ph fs]|]; [|done]. by destruct e.
Qed.

Lemma pin_fold_quiet pin evs : ∀ st,
  Forall (λ e, is_quiet e = true) evs →
  fold_left (pin_step pin) evs st = st.
Proof.
  induction evs as [|e evs IH]; intros st Hq; [done|].
  apply Forall_cons in Hq as [He Hq]. cbn [fold_left].
  rewrite <- (IH st Hq) at 2. f_equal. by destruct e.
Qed.

Lemma occurrences_none f evs :
  Forall (λ e, f e = false) evs → occurrences f evs = 0%nat.
Proof.
  induction 1 as [|e evs He _ IH]; [done|]. simpl. by rewrite He, IH.
Qed.

Lemma occurrences_quiet f evs :
  (∀ e, is_quiet e = true → f e = false) →
  Forall (λ e, is_quiet e = true) evs → occurrences f evs = 0%nat.
Proof.
  intros Hf Hq. apply occurrences_none.
  eapply Forall_impl; [exact Hq|]. exact Hf.
Qed.

End ObserveFacts.

Module TXInv.
Import Platform Runtime TX WordFacts RunFacts TXFacts Observe ObserveFacts TXShape.

(** The frame of one transmission: HELLO out, whatever the module
    answers in. *)
Local Abbreviation frame_of o :=
  [("H"%byte, miso o 0%nat); ("E"%byte, miso o 1%nat); ("L"%byte, miso o 2%nat);
   ("L"%byte, miso o 3%nat); ("O"%byte, miso o 4%nat)].

Local Abbreviation block_of o pubs :=
  ([DigitalWrite SPI_CS LOW; SpiBeginTransaction]
   ++ map (λ i, SpiTransfer (nth i HELLO_PAYLOAD "000"%byte) (miso o i))
        (seq 0 HELLO_LEN)
   ++ [SpiEndTransaction; DigitalWrite SPI_CS HIGH; DigitalWrite LED_PIN LOW]
   ++ pubs).

Lemma tx_block_bus o pubs fs :
  Forall (λ e, is_publish e = true) pubs →
  fold_left (bus_step SPI_CS) (block_of o pubs) (Some (Released, fs))
  = Some (Released, fs ++ [frame_of o]).
Proof.
  intros Hp. rewrite !app_assoc, fold_left_app.
  lazymatch goal with
  | |- fold_left _ pubs ?inner = _ =>
      change inner with (Some (Released, fs ++ [frame_of o]))
  end.
  induction Hp as [|e pubs He _ IH]; [done|].
  cbn [fold_left]. destruct e; try discriminate. exact IH.
Qed.

Lemma tx_block_pin o pubs st :
  Forall (λ e, is_publish e = true) pubs →
  fold_left (pin_step LED_PIN) (block_of o pubs) st = Some LOW.
Proof.
  intros Hp. rewrite !app_assoc, fold_left_app.
  lazymatch goal with
  | |- fold_left _ pubs ?inner = _ => change inner with (Some LOW)
  end.
  induction Hp as [|e pubs He _ IH]; [done|].
  cbn [fold_left]. destruct e; try discriminate. exact IH.
Qed.

Lemma tx_block_count f o pubs :
  occurrences f (block_of o pubs)
  = (occurrences f (block_of o []) + occurrences f pubs)%nat.
Proof. rewrite !app_assoc, !occurrences_app. simpl. lia. Qed.

Lemma tx_led_off_bus (b : bool) st :
  fold_left (bus_step SPI_CS) (if b then [DigitalWrite LED_PIN HIGH] else []) st
  = st.
Proof. destruct b; [|done]. by destruct st as [[[]]|]. Qed.

(** The invariant of the sender's trace and counters. *)
Lemma tx_reachable_protocol (s : Device) :
  reachable s →
  ∃ fs,
    bus_log SPI_CS (trace s) = Some (Released, fs)
    ∧ Forall (λ f, map fst f = HELLO_PAYLOAD) fs
    ∧ length fs = bus_transactions (trace s)
    ∧ pin_level LED_PIN (trace s) = Some (negb (ledOn (vars s)))
    ∧ txCount (vars s) = wrap32 (Z.of_nat (bus_transactions (trace s)))
    ∧ occurrences (is_flash LED_PIN) (trace s) = bus_transactions (trace s)
    ∧ (occurrences is_publish (trace s) ≤ bus_transactions (trace s))%nat
    ∧ apMode (vars s) = negb (wifiConnected (vars s))
    ∧ (apMode (vars s) = true → Forall (λ e, is_network e = false) (trace s)).
Proof.
  revert s.
  assert (Hstep : ∀ o s s',
    (∃ fs,
      bus_log SPI_CS (trace s) = Some (Released, fs)
      ∧ Forall (λ f, map fst f = HELLO_PAYLOAD) fs
      ∧ length fs = bus_transactions (trace s)
      ∧ pin_level LED_PIN (trace s) = Some (negb (ledOn (vars s)))
      ∧ txCount (vars s) = wrap32 (Z.of_nat (bus_transactions (trace s)))
      ∧ occurrences (is_flash LED_PIN) (trace s) = bus_transactions (trace s)
      ∧ (occurrences is_publish (trace s) ≤ bus_transactions (trace s))%nat
      ∧ apMode (vars s) = negb (wifiConnected (vars s))
      ∧ (apMode (vars s) = true → Forall (λ e, is_network e = false) (trace s))) →
    final (loop o s) = Some s' →
    ∃ fs,
      bus_log SPI_CS (trace s') = Some (Released, fs)
      ∧ Forall (λ f, map fst f = HELLO_PAYLOAD) fs
      ∧ length fs = bus_transactions (trace s')
      ∧ pin_level LED_PIN (trace s') = Some (negb (ledOn (vars s')))
      ∧ txCount (vars s') = wrap32 (Z.of_nat (bus_transactions (trace s')))
      ∧ occurrences (is_flash LED_PIN) (trace s') = bus_transactions (trace s')
      ∧ (occurrences is_publish (trace s') ≤ bus_transactions (trace s'))%nat
      ∧ apMode (vars s') = negb (wifiConnected (vars s'))
      ∧ (apMode (vars s') = true → Forall (λ e, is_network e = false) (trace s'))).
  { intros o s s' (fs & Hbus & Hfs & Hlen & Hpin & Hcnt & Hfl & Hpub & Hmode & Hnet)
      Hfin.
    destruct (tx_loop_shape o s)
      as (s2 & pre & Hrun & Htr & Hpre & Hap & _ & _ & Hcnt' & Hled' & Hap' & Hwc').
    rewrite Hfin in Hrun. injection Hrun as <-.
    cbv zeta in *.
    set (due := negb (restart_requested o)
                && (TX_INTERVAL <=? u32_sub (millis (bus_t_check o)) (lastTx (vars s))))
      in *.
    set (led_off := negb (restart_requested o) && (if due then true else ledOn (vars s))
                    && ((if due then u32_add (millis (led_t_arm o)) LED_FLASH_MS
                         else lastLedOff (vars s)) <=? millis (led_t_check o))) in *.
    set (pubs := if pub_mqtt_up o
                 then [MqttPublish (cfgMqttTopic (cfg s))
                         (PubTx (u32_add (txCount (vars s)) 1))]
                 else []) in *.
    assert (Hpubs : Forall (λ e, is_publish e = true) pubs)
      by (subst pubs; destruct (pub_mqtt_up o); repeat constructor).
    assert (Hpubs1 : (occurrences is_publish pubs ≤ 1)%nat)
      by (subst pubs; destruct (pub_mqtt_up o); simpl; lia).
    assert (Hq : Forall (λ e, is_quiet e = true) pre).
    { eapply Forall_impl; [exact Hpre|]. apply http_or_network_quiet. }
    assert (Hocc : ∀ f, (∀ e, is_quiet e = true → f e = false) →
              occurrences f (trace s')
              = (occurrences f (trace s)
                 + occurrences f (if due then block_of o pubs else [])
                 + occurrences f (if led_off then [DigitalWrite LED_PIN HIGH]
                                  else []))%nat).
    { intros f Hf. rewrite Htr, !occurrences_app.
      rewrite (occurrences_quiet f pre Hf Hq). lia. }
    assert (Hbt : bus_transactions (trace s')
                  = (bus_transactions (trace s) + if due then 1 else 0)%nat).
    { unfold bus_transactions. rewrite Hocc by (by intros []).
      destruct due; [rewrite tx_block_count|];
        try (rewrite (occurrences_none _ pubs)
               by (eapply Forall_impl; [exact Hpubs|]; by intros []));
        destruct led_off; simpl; lia. }
    exists (if due then fs ++ [frame_of o] else fs).
    split; [|split; [|split; [|split; [|split; [|split; [|split; [|split]]]]]]].
    - rewrite Htr, bus_log_app, Hbus, !fold_left_app.
      rewrite (bus_fold_quiet _ pre _ Hq), tx_led_off_bus.
      destruct due; [by apply tx_block_bus | done].
    - destruct due; [|done]. apply Forall_app. split; [done|].
      by repeat constructor.
    - rewrite Hbt. destruct due; [rewrite length_app; simpl|]; lia.
    - rewrite Htr, pin_level_app, Hpin, !fold_left_app.
      rewrite (pin_fold_quiet _ pre _ Hq), Hled'.
      destruct due; [rewrite tx_block_pin by done|]; by destruct led_off.
    - rewrite Hcnt', Hbt, Hcnt. destruct due; [|f_equal; lia].
      unfold u32_add, wrap32. rewrite Zplus_mod_idemp_l. f_equal. lia.
    - rewrite Hbt. rewrite Hocc by (by intros []). rewrite Hfl.
      destruct due; [rewrite tx_block_count|];
        try (rewrite (occurrences_none _ pubs)
               by (eapply Forall_impl; [exact Hpubs|]; by intros []));
        destruct led_off; simpl; lia.
    - rewrite Hbt. rewrite Hocc by (by intros []).
      destruct due; [rewrite tx_block_count|]; destruct led_off; simpl; lia.
    - by rewrite Hap', Hwc'.
    - rewrite Hap'. intros Hmode'. rewrite Htr, !Forall_app.
      split; [by apply Hnet|]. split; [|split].
      + eapply Forall_impl; [apply Hap|]; [|by intros []].
        rewrite Hmode in Hmode'. by destruct (wifiConnected (vars s)).
      + destruct due; [|done]. rewrite !Forall_app. repeat split;
          try by repeat constructor.
        eapply Forall_impl; [exact Hpubs|]. by intros [].
      + destruct led_off; by repeat constructor. }
  intros s0 Hreach.
  induction Hreach as [store b s Hs | o s s' _ IH Hl | o s s' _ IH Hl].
  - rewrite tx_setup_eq in Hs. cbv zeta in Hs. injection Hs as <-.
    exists []. cbn [cfg vars nvs trace].
    destruct (negb _); destruct (wifi_joined b); cbn [andb];
      try destruct (is_empty (toCharArray (getString store "mqttSrv" "") 65));
      cbn [apMode wifiConnected ledOn txCount negb];
      repeat split; try done; try discriminate.
    all: intros _; by repeat constructor.
  - apply (Hstep o s s' IH). by rewrite Hl.
  - apply (Hstep o s s' IH). by rewrite Hl.
Qed.

End TXInv.

(** ** What the traces of the receiver keep *)

Module RXInv.
Import Platform Runtime RX WordFacts RunFacts BufferFacts Spec RXFacts.
Import Observe ObserveFacts RXShape.

(** The calls of one exchange: 32 zero bytes out, the response in. *)
Local Abbreviation exchange_of o :=
  ([DigitalWrite SPI_CS LOW; SpiBeginTransaction]
   ++ map (λ i, SpiTransfer "000"%byte (miso o i)) (seq 0 32)
   ++ [SpiEndTransaction; DigitalWrite SPI_CS HIGH]).

Local Abbreviation frame_of o := (map (λ i, ("000"%byte, miso o i)) (seq 0 32)).

Lemma rx_transfers_bus o n : ∀ from f fs,
  fold_left (bus_step SPI_CS)
    (map (λ i, SpiTransfer "000"%byte (miso o i)) (seq from n))
    (Some (Open f, fs))
  = Some (Open (f ++ map (λ i, ("000"%byte, miso o i)) (seq from n)), fs).
Proof.
  induction n as [|n IH]; intros from f fs.
  - simpl. by rewrite app_nil_r.
  - cbn [seq map fold_left bus_step]. rewrite IH. by rewrite <- app_assoc.
Qed.

Lemma rx_exchange_bus o fs :
  fold_left (bus_step SPI_CS) (exchange_of o) (Some (Released, fs))
  = Some (Released, fs ++ [frame_of o]).
Proof.
  rewrite fold_left_app.
  change (fold_left (bus_step SPI_CS) [DigitalWrite SPI_CS LOW; SpiBeginTransaction]
            (Some (Released, fs)))
    with (Some (Open [], fs)).
  rewrite fold_left_app, rx_transfers_bus. reflexivity.
Qed.

Lemma rx_exchange_pin o st :
  fold_left (pin_step LED_PIN) (exchange_of o) st = st.
Proof.
  rewrite !fold_left_app. cbn [fold_left pin_step].
  change (SPI_CS =? LED_PIN) with false. cbv beta iota.
  generalize (seq 0 32). intros l. revert st.
  induction l as [|i l IH]; intros st; [done|]. cbn [map fold_left pin_step].
  apply IH.
Qed.

Lemma rx_exchange_count f o :
  (∀ mosi miso, f (SpiTransfer mosi miso) = false) →
  occurrences f (exchange_of o)
  = occurrences f [DigitalWrite SPI_CS LOW; SpiBeginTransaction;
                   SpiEndTransaction; DigitalWrite SPI_CS HIGH].
Proof.
  intros Hf. rewrite !occurrences_app.
  rewrite (occurrences_none f (map _ _)).
  - simpl. lia.
  - apply Forall_map, Forall_forall. intros i _. apply Hf.
Qed.

Lemma rx_frame_mosi o : map fst (frame_of o) = replicate 32 "000"%byte.
Proof. reflexivity. Qed.

Lemma rx_frame_miso o : map snd (frame_of o) = response o.
Proof. unfold response. rewrite map_map. reflexivity. Qed.

(** The invariant of the receiver's trace, buffer and counters. *)
Lemma rx_reachable_protocol (s : Device) :
  reachable s →
  ∃ fs,
    bus_log SPI_CS (trace s) = Some (Released, fs)
    ∧ Forall (λ f, map fst f = replicate 32 "000"%byte) fs
    ∧ length fs = bus_transactions (trace s)
    ∧ rxBuf (vars s)
      = from_option (map snd) (replicate 32 "000"%byte) (last fs)
    ∧ pin_level LED_PIN (trace s) = Some (negb (ledOn (vars s)))
    ∧ rxCount (vars s)
      = wrap32 (Z.of_nat (occurrences (is_flash LED_PIN) (trace s)))
    ∧ (occurrences (is_flash LED_PIN) (trace s)
       ≤ bus_transactions (trace s))%nat
    ∧ (occurrences is_publish (trace s)
       ≤ occurrences (is_flash LED_PIN) (trace s))%nat
    ∧ apMode (vars s) = negb (wifiConnected (vars s))
    ∧ (apMode (vars s) = true → Forall (λ e, is_network e = false) (trace s))
    ∧ rxLen (vars s) = classified_length (rxBuf (vars s))
    ∧ c_str (lastRxData (vars s)) = Some (hex_field (payload (rxBuf (vars s))))
    ∧ c_str (lastRxAscii (vars s))
      = Some (ascii_field (payload (rxBuf (vars s))))
    ∧ (lastSpiResult (vars s) = 0 ↔ rxLen (vars s) ≠ 0%nat).
Proof.
  revert s.
  assert (Hstep : ∀ o s s',
    reachable s →
    (∃ fs,
      bus_log SPI_CS (trace s) = Some (Released, fs)
      ∧ Forall (λ f, map fst f = replicate 32 "000"%byte) fs
      ∧ length fs = bus_transactions (trace s)
      ∧ rxBuf (vars s)
        = from_option (map snd) (replicate 32 "000"%byte) (last fs)
      ∧ pin_level LED_PIN (trace s) = Some (negb (ledOn (vars s)))
      ∧ rxCount (vars s)
        = wrap32 (Z.of_nat (occurrences (is_flash LED_PIN) (trace s)))
      ∧ (occurrences (is_flash LED_PIN) (trace s)
         ≤ bus_transactions (trace s))%nat
      ∧ (occurrences is_publish (trace s)
         ≤ occurrences (is_flash LED_PIN) (trace s))%nat
      ∧ apMode (vars s) = negb (wifiConnected (vars s))
      ∧ (apMode (vars s) = true → Forall (λ e, is_network e = false) (trace s))
      ∧ rxLen (vars s) = classified_length (rxBuf (vars s))
      ∧ c_str (lastRxData (vars s)) = Some (hex_field (payload (rxBuf (vars s))))
      ∧ c_str (lastRxAscii (vars s))
        = Some (ascii_field (payload (rxBuf (vars s))))
      ∧ (lastSpiResult (vars s) = 0 ↔ rxLen (vars s) ≠ 0%nat)) →
    final (loop o s) = Some s' →
    ∃ fs,
      bus_log SPI_CS (trace s') = Some (Released, fs)
      ∧ Forall (λ f, map fst f = replicate 32 "000"%byte) fs
      ∧ length fs = bus_transactions (trace s')
      ∧ rxBuf (vars s')
        = from_option (map snd) (replicate 32 "000"%byte) (last fs)
      ∧ pin_level LED_PIN (trace s') = Some (negb (ledOn (vars s')))
      ∧ rxCount (vars s')
        = wrap32 (Z.of_nat (occurrences (is_flash LED_PIN) (trace s')))
      ∧ (occurrences (is_flash LED_PIN) (trace s')
         ≤ bus_transactions (trace s'))%nat
      ∧ (occurrences is_publish (trace s')
         ≤ occurrences (is_flash LED_PIN) (trace s'))%nat
      ∧ apMode (vars s') = negb (wifiConnected (vars s'))
      ∧ (apMode (vars s') = true → Forall (λ e, is_network e = false) (trace s'))
      ∧ rxLen (vars s') = classified_length (rxBuf (vars s'))
      ∧ c_str (lastRxData (vars s')) = Some (hex_field (payload (rxBuf (vars s'))))
      ∧ c_str (lastRxAscii (vars s'))
        = Some (ascii_field (payload (rxBuf (vars s'))))
      ∧ (lastSpiResult (vars s') = 0 ↔ rxLen (vars s') ≠ 0%nat)).
  { intros o s s' Hreach
      (fs & Hbus & Hfs & Hlen & Hbuf & Hpin & Hcnt & Hfl & Hpub & Hmode & Hnet
       & Hrl & Hhex & Htxt & Hres) Hfin.
    destruct (rx_reachable_inv s Hreach) as (Hsz & Hterm & _).
    destruct (rx_loop_shape o s Hsz Hterm)
      as (s2 & pre & Hrun & Htr & Hpre & Hap & _ & _ & Hcnt' & Hled' & Hap'
          & Hwc' & Hbuf' & Hrl' & Hhex' & Htxt' & Hres' & _).
    rewrite Hfin in Hrun. injection Hrun as <-.
    cbv zeta in *.
    set (due := negb (restart_requested o)
                && (RX_INTERVAL <=? u32_sub (millis (bus_t_check o)) (lastRx (vars s))))
      in *.
    assert (Hgot : negb (classified_length (response o) =? 0)%nat
                   = (if classified_length (response o) is O then false else true))
      by (by destruct (classified_length (response o))).
    rewrite Hgot in *. clear Hgot.
    set (got := due && (if classified_length (response o) is O then false else true))
      in *.
    set (led_off := negb (restart_requested o) && (if got then true else ledOn (vars s))
                    && ((if got then u32_add (millis (led_t_arm o)) LED_FLASH_MS
                         else lastLedOff (vars s)) <=? millis (led_t_check o))) in *.
    set (pubs := if pub_mqtt_up o
                 then [MqttPublish (cfgMqttTopic (cfg s))
                         (PubRx (u32_add (rxCount (vars s)) 1)
                            (hex_field (payload (response o)))
                            (ascii_field (payload (response o))))]
                 else []) in *.
    assert (Hpubs : Forall (λ e, is_publish e = true) pubs)
      by (subst pubs; destruct (pub_mqtt_up o); repeat constructor).
    assert (Hpubs1 : (occurrences is_publish pubs ≤ 1)%nat)
      by (subst pubs; destruct (pub_mqtt_up o); simpl; lia).
    assert (Hq : Forall (λ e, is_quiet e = true) pre).
    { eapply Forall_impl; [exact Hpre|]. apply http_or_network_quiet. }
    set (flash := if got then DigitalWrite LED_PIN LOW :: pubs else []) in *.
    assert (Hocc : ∀ f, (∀ e, is_quiet e = true → f e = false) →
              (∀ mosi miso, f (SpiTransfer mosi miso) = false) →
              occurrences f (trace s')
              = (occurrences f (trace s)
                 + (if due
                    then occurrences f [DigitalWrite SPI_CS LOW; SpiBeginTransaction;
                                        SpiEndTransaction; DigitalWrite SPI_CS HIGH]
                         + occurrences f flash
                    else 0)
                 + occurrences f (if led_off then [DigitalWrite LED_PIN HIGH]
                                  else []))%nat).
    { intros f Hf Hf'. rewrite Htr, !occurrences_app.
      rewrite (occurrences_quiet f pre Hf Hq).
      destruct due; [|simpl; lia].
      rewrite !app_assoc, occurrences_app, <- !app_assoc.
      rewrite (rx_exchange_count f o Hf'). lia. }
    assert (Hbt : bus_transactions (trace s')
                  = (bus_transactions (trace s) + if due then 1 else 0)%nat).
    { unfold bus_transactions. rewrite Hocc by first [done | by intros []].
      assert (occurrences is_bus_transaction flash = 0%nat) as ->.
      { subst flash. destruct got; [|done]. simpl.
        apply occurrences_none. eapply Forall_impl; [exact Hpubs|]. by intros []. }
      destruct due, led_off; simpl; lia. }
    assert (Hflash : occurrences (is_flash LED_PIN) (trace s')
                     = (occurrences (is_flash LED_PIN) (trace s)
                        + if got then 1 else 0)%nat).
    { rewrite Hocc by first [done | by intros []].
      assert (occurrences (is_flash LED_PIN) flash = (if got then 1 else 0)%nat) as ->.
      { subst flash. destruct got; [|done]. simpl.
        rewrite occurrences_none; [done|].
        eapply Forall_impl; [exact Hpubs|]. by intros []. }
      subst got. destruct due, led_off; simpl; lia. }
    assert (Hpubl : (occurrences is_publish (trace s')
                     ≤ occurrences is_publish (trace s) + if got then 1 else 0)%nat).
    { rewrite Hocc by first [done | by intros []].
      assert (occurrences is_publish flash ≤ if got then 1 else 0)%nat.
      { subst flash. destruct got; simpl; lia. }
      subst got. destruct due, led_off; simpl in *; lia. }
    exists (if due then fs ++ [frame_of o] else fs).
    split; [|split; [|split; [|split; [|split; [|split; [|split; [|split; [|split; [|split; [|split; [|split; [|split]]]]]]]]]]]].
    - rewrite Htr, bus_log_app, Hbus, !fold_left_app.
      rewrite (bus_fold_quiet _ pre _ Hq).
      assert (Hend : ∀ st,
                fold_left (bus_step SPI_CS)
                  (if led_off then [DigitalWrite LED_PIN HIGH] else []) st = st).
      { intros st. destruct led_off; [|done]. by destruct st as [[[]]|]. }
      rewrite Hend. destruct due; [|done].
      rewrite !app_assoc, fold_left_app, <- !app_assoc, rx_exchange_bus.
      destruct (if classified_length (response o) is O then false else true);
        cbn [andb]; [|done].
      cbn [fold_left bus_step]. change (LED_PIN =? SPI_CS) with false.
      cbv beta iota. clear -Hpubs.
      induction Hpubs as [|e pubs He _ IH]; [done|].
      cbn [fold_left]. destruct e; try discriminate. exact IH.
    - destruct due; [|done]. apply Forall_app. split; [done|].
      by repeat constructor.
    - rewrite Hbt. destruct due; [rewrite length_app; simpl|]; lia.
    - rewrite Hbuf'. destruct due; [|done].
      rewrite last_snoc. cbn [from_option]. by rewrite rx_frame_miso.
    - rewrite Htr, pin_level_app, Hpin, !fold_left_app.
      rewrite (pin_fold_quiet _ pre _ Hq), Hled'.
      assert (Hmid : fold_left (pin_step LED_PIN)
                (if due then exchange_of o ++ flash else [])
                (Some (negb (ledOn (vars s))))
              = Some (negb (if got then true else ledOn (vars s)))).
      { subst flash got. destruct due; [|done].
        rewrite fold_left_app, rx_exchange_pin. cbn [andb].
        destruct (if classified_length (response o) is O then false else true);
          [|done].
        cbn [fold_left pin_step]. change (LED_PIN =? LED_PIN) with true.
        cbv beta iota. clear -Hpubs.
        induction Hpubs as [|e pubs He _ IH]; [done|].
        cbn [fold_left]. destruct e; try discriminate. exact IH. }
      replace (if due
               then [DigitalWrite SPI_CS LOW; SpiBeginTransaction] ++
                    map (λ i, SpiTransfer "000"%byte (miso o i)) (seq 0 32) ++
                    [SpiEndTransaction; DigitalWrite SPI_CS HIGH] ++ flash
               else [])
        with (if due then exchange_of o ++ flash else [])
        by (destruct due; [by rewrite <- !app_assoc|done]).
      rewrite Hmid. by destruct led_off.
    - rewrite Hcnt', Hflash, Hcnt. destruct got; [|f_equal; lia].
      unfold u32_add, wrap32. rewrite Zplus_mod_idemp_l. f_equal. lia.
    - rewrite Hbt, Hflash. subst got. destruct due; cbn [andb]; [|lia].
      destruct (if classified_length (response o) is O then false else true); lia.
    - rewrite Hflash. lia.
    - by rewrite Hap', Hwc'.
    - rewrite Hap'. intros Hmode'. rewrite Htr, !Forall_app.
      split; [by apply Hnet|]. split; [|split].
      + eapply Forall_impl; [apply Hap|]; [|by intros []].
        rewrite Hmode in Hmode'. by destruct (wifiConnected (vars s)).
      + destruct due; [|done]. rewrite !Forall_app.
        split; [by repeat constructor|].
        split; [apply Forall_map, Forall_forall; by intros|].
        split; [by repeat constructor|].
        subst flash. destruct got; [|done]. constructor; [done|].
        eapply Forall_impl; [exact Hpubs|]. by intros [].
      + destruct led_off; by repeat constructor.
    - rewrite Hrl', Hbuf'. by destruct due.
    - rewrite Hhex', Hbuf'. by destruct due.
    - rewrite Htxt', Hbuf'. by destruct due.
    - rewrite Hres', Hrl'. subst got. destruct due; cbn [andb]; [|done].
      destruct (classified_length (response o)); split; (done || lia). }
  intros s0 Hreach.
  induction Hreach as [store b s Hs | o s s' Hr IH Hl | o s s' Hr IH Hl].
  - rewrite rx_setup_eq in Hs. cbv zeta in Hs. injection Hs as <-.
    exists []. cbn [cfg vars nvs trace].
    destruct (negb _); destruct (wifi_joined b); cbn [andb];
      try destruct (is_empty (getString_into store "mqttSrv" 65 ""));
      cbn [apMode wifiConnected ledOn rxCount rxBuf rxLen lastRxData
           lastRxAscii lastSpiResult negb];
      repeat split; try done; try discriminate.
    all: try (intros _; by repeat constructor).
  - apply (Hstep o s s' Hr IH). by rewrite Hl.
  - apply (Hstep o s s' Hr IH). by rewrite Hl.
Qed.

End RXInv.

(** ** The configuration, saved and loaded *)

Module ConfigFacts.
Import Platform Runtime Observe Portal Text RunFacts TextFacts WordFacts.

Lemma nul_free_spec (l : list ascii) :
  forallb (λ c, negb (Ascii.eqb c NUL)) l = true ↔ Forall (λ c, c ≠ NUL) l.
Proof.
  induction l as [|c l IH]; simpl.
  - split; [constructor | done].
  - rewrite andb_true_iff, IH, Forall_cons. 
    destruct (Ascii.eqb_spec c NUL); simpl; split; intros [? ?]; done.
Qed.

Lemma length_list_ascii_of_string s :
  length (list_ascii_of_string s) = String.length s.
Proof. induction s; simpl; congruence. Qed.

Lemma length_string_of_list_ascii l :
  String.length (string_of_list_ascii l) = length l.
Proof. induction l; simpl; congruence. Qed.

Lemma fits_spec size s :
  fits size s = true
  ↔ (String.length s < size)%nat
    ∧ Forall (λ c, c ≠ NUL) (list_ascii_of_string s).
Proof.
  unfold fits. rewrite andb_true_iff, Nat.ltb_lt, nul_free_spec. done.
Qed.

Lemma until_nul_free l : Forall (λ c, c ≠ NUL) (until_nul l).
Proof.
  induction l as [|c l IH]; simpl; [constructor|].
  destruct (Ascii.eqb_spec c NUL); by constructor.
Qed.

Lemma until_nul_length l : (length (until_nul l) ≤ length l)%nat.
Proof.
  induction l as [|c l IH]; simpl; [lia|].
  destruct (Ascii.eqb c NUL); simpl; lia.
Qed.

(** Whatever the string, [toCharArray] leaves one that fits the array. *)
Lemma toCharArray_fits v size : (0 < size)%nat → fits size (toCharArray v size) = true.
Proof.
  intros Hsize. apply fits_spec. unfold toCharArray.
  rewrite length_string_of_list_ascii, list_ascii_of_string_of_list_ascii.
  split; [|apply until_nul_free].
  pose proof (until_nul_length (take (size - 1) (list_ascii_of_string v))) as H.
  rewrite length_take in H. lia.
Qed.

(** A string that fits passes through [toCharArray] unchanged. *)
Lemma toCharArray_id v size : fits size v = true → toCharArray v size = v.
Proof.
  intros [Hlen Hnul]%fits_spec. by apply toCharArray_verbatim.
Qed.

Lemma wrap16_range z : 0 ≤ wrap16 z < 2 ^ 16.
Proof. unfold wrap16. apply Z.mod_pos_bound. lia. Qed.

Lemma Config_ok_spec c :
  Config_ok c = true
  ↔ fits 33 (cfgSSID c) = true ∧ fits 65 (cfgPass c) = true
    ∧ fits 65 (cfgMqttServer c) = true
    ∧ 0 ≤ cfgMqttPort c < 2 ^ 16
    ∧ fits 65 (cfgMqttTopic c) = true ∧ fits 33 (cfgMqttUser c) = true
    ∧ fits 65 (cfgMqttPass c) = true.
Proof.
  unfold Config_ok. rewrite !andb_true_iff, Z.leb_le, Z.ltb_lt. tauto.
Qed.

(** [handleSave()] keeps the configuration within the arrays, whatever
    the request carries. *)
Lemma handleSave_Config_ok {V} r (m m' : Machine V) :
  Config_ok (cfg m) = true →
  handleSave r m = Restarted m' →
  Config_ok (cfg m') = true.
Proof.
  intros Hok. rewrite handleSave_eq. cbv zeta. intros [= <-].
  apply Config_ok_spec in Hok as (H1 & H2 & H3 & H4 & H5 & H6 & H7).
  apply Config_ok_spec. cbn [cfg cfgSSID cfgPass cfgMqttServer cfgMqttPort
    cfgMqttTopic cfgMqttUser cfgMqttPass].
  repeat split;
    try (destruct (hasArg r _); [apply toCharArray_fits; lia | done]).
  - destruct (hasArg r "mp"); [apply wrap16_range | apply H4].
  - destruct (hasArg r "mp"); [apply wrap16_range | apply H4].
Qed.

(** What [saveConfig()] leaves under each key. *)
Lemma saved_lookups (c : Config) (n : gmap string NvsVal) :
  let n' :=
    <["mqttPass" := NvsStr (cfgMqttPass c)]>
    (<["mqttUser" := NvsStr (cfgMqttUser c)]>
    (<["mqttTopic" := NvsStr (cfgMqttTopic c)]>
    (<["mqttPort" := NvsU16 (cfgMqttPort c)]>
    (<["mqttSrv" := NvsStr (cfgMqttServer c)]>
    (<["pass" := NvsStr (cfgPass c)]>
    (<["ssid" := NvsStr (cfgSSID c)]> n)))))) in
  n' !! "ssid"%string = Some (NvsStr (cfgSSID c))
  ∧ n' !! "pass"%string = Some (NvsStr (cfgPass c))
  ∧ n' !! "mqttSrv"%string = Some (NvsStr (cfgMqttServer c))
  ∧ n' !! "mqttPort"%string = Some (NvsU16 (cfgMqttPort c))
  ∧ n' !! "mqttTopic"%string = Some (NvsStr (cfgMqttTopic c))
  ∧ n' !! "mqttUser"%string = Some (NvsStr (cfgMqttUser c))
  ∧ n' !! "mqttPass"%string = Some (NvsStr (cfgMqttPass c)).
Proof.
  cbv zeta. repeat split;
    repeat (rewrite lookup_insert_ne by done); by rewrite lookup_insert_eq.
Qed.

(** [saveConfig()] keeps the store well-formed. *)
Lemma saved_Store_ok (c : Config) (n : gmap string NvsVal) :
  Config_ok c = true → Store_ok n →
  Store_ok
    (<["mqttPass" := NvsStr (cfgMqttPass c)]>
    (<["mqttUser" := NvsStr (cfgMqttUser c)]>
    (<["mqttTopic" := NvsStr (cfgMqttTopic c)]>
    (<["mqttPort" := NvsU16 (cfgMqttPort c)]>
    (<["mqttSrv" := NvsStr (cfgMqttServer c)]>
    (<["pass" := NvsStr (cfgPass c)]>
    (<["ssid" := NvsStr (cfgSSID c)]> n))))))).
Proof.
  intros Hok Hn.
  apply Config_ok_spec in Hok as (H1 & H2 & H3 & H4 & H5 & H6 & H7).
  unfold fits in *.
  apply andb_true_iff in H1 as [_ H1], H2 as [_ H2], H3 as [_ H3],
    H5 as [_ H5], H6 as [_ H6], H7 as [_ H7].
  unfold Store_ok. repeat apply map_Forall_insert_2; done.
Qed.

Lemma getUShort_range (n : gmap string NvsVal) key def :
  Store_ok n → 0 ≤ def < 2 ^ 16 → 0 ≤ getUShort n key def < 2 ^ 16.
Proof.
  intros Hn Hdef. unfold getUShort.
  destruct (n !! key) as [[s|p]|] eqn:Hk; try done.
  exact (Hn key (NvsU16 p) Hk).
Qed.

Lemma getString_into_fits (n : gmap string NvsVal) key size cur :
  Store_ok n → fits size cur = true →
  fits size (RX.getString_into n key size cur) = true.
Proof.
  intros Hn Hcur. unfold RX.getString_into.
  destruct (n !! key) as [[s|p]|] eqn:Hk; try done.
  destruct (Nat.leb_spec (String.length s + 1) size); [|done].
  unfold fits. apply andb_true_iff. split; [apply Nat.ltb_lt; lia|].
  exact (Hn key (NvsStr s) Hk).
Qed.

(** A string that fits is read back whole by the receiver. *)
Lemma getString_into_saved (n : gmap string NvsVal) key size s cur :
  n !! key = Some (NvsStr s) → fits size s = true →
  RX.getString_into n key size cur = s.
Proof.
  intros Hk [Hlen _]%fits_spec. unfold RX.getString_into. rewrite Hk.
  destruct (Nat.leb_spec (String.length s + 1) size); [done | lia].
Qed.

Lemma getString_saved (n : gmap string NvsVal) key s def :
  n !! key = Some (NvsStr s) → getString n key def = s.
Proof. intros Hk. unfold getString. by rewrite Hk. Qed.

Lemma getUShort_saved (n : gmap string NvsVal) key p def :
  n !! key = Some (NvsU16 p) → getUShort n key def = p.
Proof. intros Hk. unfold getUShort. by rewrite Hk. Qed.

(** The sender's configuration after [setup()] fits the arrays. *)
Lemma tx_setup_Config_ok b store (s : TX.Device) :
  Store_ok store →
  TX.setup b (TX.power_on store) = Done tt s →
  Config_ok (cfg s) = true ∧ nvs s = store.
Proof.
  intros Hn. rewrite TXShape.tx_setup_eq. cbv zeta. intros [= <-].
  split; [|done]. apply Config_ok_spec.
  cbn [cfg cfgSSID cfgPass cfgMqttServer cfgMqttPort cfgMqttTopic cfgMqttUser
       cfgMqttPass].
  repeat split; try (apply toCharArray_fits; lia);
    by apply getUShort_range.
Qed.

Lemma rx_setup_Config_ok b store (s : RX.Device) :
  Store_ok store →
  RX.setup b (RX.power_on store) = Done tt s →
  Config_ok (cfg s) = true ∧ nvs s = store.
Proof.
  intros Hn. rewrite RXShape.rx_setup_eq. cbv zeta. intros [= <-].
  split; [|done]. apply Config_ok_spec.
  cbn [cfg cfgSSID cfgPass cfgMqttServer cfgMqttPort cfgMqttTopic cfgMqttUser
       cfgMqttPass].
  repeat split; try (by apply getString_into_fits);
    try (by apply getUShort_range).
  destruct (is_empty _); [done|]. by apply getString_into_fits.
Qed.

(** The sender reloads what [saveConfig()] stored. *)
Lemma tx_reload b (c : Config) (n : gmap string NvsVal) :
  Config_ok c = true →
  ∃ s,
    TX.setup b
      (TX.power_on
         (<["mqttPass" := NvsStr (cfgMqttPass c)]>
         (<["mqttUser" := NvsStr (cfgMqttUser c)]>
         (<["mqttTopic" := NvsStr (cfgMqttTopic c)]>
         (<["mqttPort" := NvsU16 (cfgMqttPort c)]>
         (<["mqttSrv" := NvsStr (cfgMqttServer c)]>
         (<["pass" := NvsStr (cfgPass c)]>
         (<["ssid" := NvsStr (cfgSSID c)]> n))))))))
    = Done tt s
    ∧ cfg s = c.
Proof.
  intros Hok.
  apply Config_ok_spec in Hok as (H1 & H2 & H3 & H4 & H5 & H6 & H7).
  rewrite TXShape.tx_setup_eq. cbv zeta. eexists. split; [reflexivity|].
  cbn [cfg].
  destruct (saved_lookups c n) as (L1 & L2 & L3 & L4 & L5 & L6 & L7).
  cbv zeta in L1, L2, L3, L4, L5, L6, L7.
  rewrite (getString_saved _ _ _ _ L1), (getString_saved _ _ _ _ L2),
    (getString_saved _ _ _ _ L3), (getUShort_saved _ _ _ _ L4),
    (getString_saved _ _ _ _ L5), (getString_saved _ _ _ _ L6),
    (getString_saved _ _ _ _ L7).
  rewrite !toCharArray_id by done. by destruct c.
Qed.

(** The receiver reloads what [saveConfig()] stored, except that an
    empty topic comes back as the default. *)
Lemma rx_reload b (c : Config) (n : gmap string NvsVal) :
  Config_ok c = true →
  ∃ s,
    RX.setup b
      (RX.power_on
         (<["mqttPass" := NvsStr (cfgMqttPass c)]>
         (<["mqttUser" := NvsStr (cfgMqttUser c)]>
         (<["mqttTopic" := NvsStr (cfgMqttTopic c)]>
         (<["mqttPort" := NvsU16 (cfgMqttPort c)]>
         (<["mqttSrv" := NvsStr (cfgMqttServer c)]>
         (<["pass" := NvsStr (cfgPass c)]>
         (<["ssid" := NvsStr (cfgSSID c)]> n))))))))
    = Done tt s
    ∧ cfg s = (if is_empty (cfgMqttTopic c) then set_cfgMqttTopic "halow/rx" c
               else c).
Proof.
  intros Hok.
  apply Config_ok_spec in Hok as (H1 & H2 & H3 & H4 & H5 & H6 & H7).
  rewrite RXShape.rx_setup_eq. cbv zeta. eexists. split; [reflexivity|].
  cbn [cfg].
  destruct (saved_lookups c n) as (L1 & L2 & L3 & L4 & L5 & L6 & L7).
  cbv zeta in L1, L2, L3, L4, L5, L6, L7.
  rewrite (getString_into_saved _ _ _ _ _ L1 H1),
    (getString_into_saved _ _ _ _ _ L2 H2),
    (getString_into_saved _ _ _ _ _ L3 H3), (getUShort_saved _ _ _ _ L4),
    (getString_into_saved _ _ _ _ _ L5 H5),
    (getString_into_saved _ _ _ _ _ L6 H6),
    (getString_into_saved _ _ _ _ _ L7 H7).
  destruct c as [c1 c2 c3 c4 c5 c6 c7]. cbn. by destruct (is_empty c5).
Qed.

(** A call of [loop()] that serves a POST to /save is [handleSave()]
    after the OTA section. *)
Lemma tx_loop_saving o (s : TX.Device) :
  saving o = true →
  ∃ r,
    pending o = Some r
    ∧ TX.loop o s
      = handleSave r
          (mkMachine (cfg s) (vars s) (nvs s)
             (trace s ++ if TX.wifiConnected (vars s) then [OtaHandle] else [])).
Proof.
  unfold saving. destruct (pending o) as [r|] eqn:Hp; [|done].
  intros Hs. exists r. split; [done|].
  apply andb_true_iff in Hs as [Huri Hpost]. apply String.eqb_eq in Huri.
  unfold TX.loop. rewrite (bind_done _ _ _ _ _ (TXFacts.tx_loop_ota_eq s)).
  unfold TX.handleClient. rewrite Hp, Huri, Hpost. cbn [String.eqb Ascii.eqb
    Bool.eqb andb].
  rewrite handleSave_eq. cbv zeta.
  apply bind_restarted. apply handleSave_eq.
Qed.

Lemma rx_loop_saving o (s : RX.Device) :
  saving o = true →
  ∃ r,
    pending o = Some r
    ∧ RX.loop o s
      = handleSave r
          (mkMachine (cfg s) (vars s) (nvs s)
             (trace s ++ if RX.wifiConnected (vars s) then [OtaHandle] else [])).
Proof.
  unfold saving. destruct (pending o) as [r|] eqn:Hp; [|done].
  intros Hs. exists r. split; [done|].
  apply andb_true_iff in Hs as [Huri Hpost]. apply String.eqb_eq in Huri.
  unfold RX.loop. rewrite (bind_done _ _ _ _ _ (RXFacts.rx_loop_ota_eq s)).
  unfold RX.handleClient. rewrite Hp, Huri, Hpost. cbn [String.eqb Ascii.eqb
    Bool.eqb andb].
  rewrite handleSave_eq. cbv zeta.
  apply bind_restarted. apply handleSave_eq.
Qed.




End ConfigFacts.

Module WebFacts.
Import Platform Runtime Text TextFacts WordFacts.

Lemma tx_formatUptime_length ms :
  0 ≤ ms < 2 ^ 32 → (length (TXWeb.formatUptime ms) ≤ 13)%nat.
Proof.
  intros H. unfold TXWeb.formatUptime, snprintf. rewrite length_take.
  pose proof (uptime_text_length ms H). lia.
Qed.

Lemma rx_formatUptime_length ms len :
  0 ≤ ms < 2 ^ 32 → (length (RXWeb.formatUptime ms len) ≤ 13)%nat.
Proof.
  intros H. unfold RXWeb.formatUptime, snprintf. rewrite length_take.
  pose proof (uptime_text_length ms H). lia.
Qed.

Lemma tx_status_text_length st rssi heap :
  0 ≤ st_count st < 2 ^ 32 → (String.length (st_spi st) ≤ 4)%nat →
  0 ≤ st_uptime st < 2 ^ 32 →
  - 2 ^ 31 ≤ rssi < 2 ^ 31 → 0 ≤ heap < 2 ^ 32 →
  (length (TXWeb.status_text st rssi heap) ≤ 105)%nat.
Proof.
  intros Hn Hspi Hup Hrssi Hheap. unfold TXWeb.status_text.
  rewrite !length_app, !length_key, !length_quoted, !length_lit.
  cbn [String.length].
  pose proof (fmt_lu_u32 _ Hn). pose proof (fmt_lu_u32 _ Hheap).
  pose proof (fmt_d_int _ Hrssi). pose proof (length_json_bool (st_mqtt st)).
  pose proof (tx_formatUptime_length _ Hup).
  lia.
Qed.

Lemma rx_status_text_length st rssi heap hex txt :
  st_hex_ascii st = Some (hex, txt) →
  (length hex ≤ 96)%nat → (length txt ≤ 32)%nat →
  0 ≤ st_count st < 2 ^ 32 → (String.length (st_spi st) ≤ 5)%nat →
  0 ≤ st_uptime st < 2 ^ 32 →
  - 2 ^ 31 ≤ rssi < 2 ^ 31 → 0 ≤ heap < 2 ^ 32 →
  (length (RXWeb.status_text st rssi heap) ≤ 254)%nat.
Proof.
  intros Hdisp Hhex Htxt Hn Hspi Hup Hrssi Hheap. unfold RXWeb.status_text.
  rewrite Hdisp. cbv zeta. cbn [default from_option fst snd id].
  rewrite !length_app, !length_key, !length_quoted, !length_lit.
  cbn [String.length].
  pose proof (fmt_lu_u32 _ Hn). pose proof (fmt_lu_u32 _ Hheap).
  pose proof (fmt_d_int _ Hrssi). pose proof (length_json_bool (st_mqtt st)).
  pose proof (rx_formatUptime_length _ 20 Hup).
  lia.
Qed.

Lemma tx_publish_text_length n :
  0 ≤ n < 2 ^ 32 → (length (TXWeb.publish_text n) ≤ 31)%nat.
Proof.
  intros Hn. unfold TXWeb.publish_text.
  rewrite !length_app, !length_key, !length_quoted, !length_lit.
  cbn [String.length]. pose proof (fmt_lu_u32 _ Hn). lia.
Qed.

Lemma rx_publish_text_length n hex txt :
  length (RXWeb.publish_text n hex txt)
  = (27 + length (fmt_lu n) + length hex + length txt)%nat.
Proof.
  unfold RXWeb.publish_text.
  rewrite !length_app, !length_key, !length_quoted, !length_lit.
  cbn [String.length]. lia.
Qed.

End WebFacts.

(** ** Further properties of the code *)

Module Behaviour.
Import Platform Runtime Spec Examples Text Portal Observe Scenarios.
Import WordFacts RunFacts BufferFacts TextFacts ConfigFacts WebFacts ObserveFacts.

(** X1. [formatUptime] prints hours, minutes of the hour and seconds of
    the minute; for every value of the 32-bit millisecond counter the
    minutes and seconds are below 60, the hours at most 1193, the three
    together are the uptime in whole seconds, and the text has at most
    13 characters: neither the 16-byte buffer of the sender nor the
    20-byte buffer of the receiver cuts it. *)
Theorem formatUptime_never_cut ms :
  0 ≤ ms < 2 ^ 32 →
  ∃ h m s,
    uptime_fields ms = (h, m, s)
    ∧ 0 ≤ h ≤ 1193 ∧ 0 ≤ m < 60 ∧ 0 ≤ s < 60
    ∧ 3600 * h + 60 * m + s = ms / 1000
    ∧ (length (uptime_text ms) ≤ 13)%nat
    ∧ TXWeb.formatUptime ms = uptime_text ms
    ∧ RXWeb.formatUptime ms 20 = uptime_text ms.
Proof.
  intros Hms.
  destruct (uptime_fields_spec ms Hms) as (h & m & s & Hf & Hh & Hm & Hs & Hsum).
  pose proof (uptime_text_length ms Hms) as Hlen.
  exists h, m, s.
  split; [exact Hf|]. split; [exact Hh|]. split; [exact Hm|].
  split; [exact Hs|]. split; [exact Hsum|]. split; [exact Hlen|].
  split; apply snprintf_whole; lia.
Qed.

(** X1 at the top of the counter: 49 days and some show as 1193 hours. *)
Lemma formatUptime_at_counter_top :
  TXWeb.formatUptime (2 ^ 32 - 1) = lit "1193h 2m 47s"
  ∧ RXWeb.formatUptime (2 ^ 32 - 1) 20 = lit "1193h 2m 47s".
Proof.
  destruct (formatUptime_never_cut (2 ^ 32 - 1))
    as (h & m & s & _ & _ & _ & _ & _ & _ & Htx & Hrx).
  - split; [discriminate | reflexivity].
  - rewrite Htx, Hrx. split; reflexivity.
Defined.

(** X2. The sender's status answer always fits its buffer: in every
    state the sender reaches, for every RSSI an [int] can hold and every
    heap size, the JSON text [handleStatus()] formats has at most 105
    characters, so [snprintf] into [char buf[256]] sends it whole. *)
Theorem tx_status_body_whole o (s : TX.Device) rssi heap :
  TX.reachable s →
  - 2 ^ 31 ≤ rssi < 2 ^ 31 → 0 ≤ heap < 2 ^ 32 →
  ∃ st,
    TX.handleStatus o s
    = Done tt (mkMachine (cfg s) (vars s) (nvs s) (trace s ++ [HttpStatus st]))
    ∧ (length (TXWeb.status_text st rssi heap) ≤ 105)%nat
    ∧ TXWeb.status_body st rssi heap = TXWeb.status_text st rssi heap.
Proof.
  intros Hreach Hrssi Hheap.
  destruct (TXInv.tx_reachable_protocol s Hreach)
    as (fs & _ & _ & _ & _ & Hcnt & _).
  exists (mkStatus (TX.txCount (vars s)) (TX.spiStr (TX.lastSpiResult (vars s)))
            (status_mqtt_up o) (millis (status_t o)) None).
  assert (Hlen : (length (TXWeb.status_text
                    (mkStatus (TX.txCount (vars s))
                       (TX.spiStr (TX.lastSpiResult (vars s)))
                       (status_mqtt_up o) (millis (status_t o)) None)
                    rssi heap) ≤ 105)%nat).
  { apply tx_status_text_length; cbn [st_count st_spi st_uptime]; try done.
    - rewrite Hcnt. apply wrap32_range.
    - unfold TX.spiStr. destruct (_ =? _); [simpl; lia|].
      destruct (_ <? _); simpl; lia.
    - apply millis_range. }
  split; [|split; [exact Hlen|]].
  - destruct s as [c [] store tr]. reflexivity.
  - apply snprintf_whole. lia.
Qed.

(** X2 on the sender just booted, asked at 5 s. *)
Lemma tx_status_body_booted :
  ∃ st,
    TX.handleStatus (asking_status 5000 silence) (tx_after joined store_with_ssid)
    = Done tt
        (mkMachine (cfg (tx_after joined store_with_ssid))
           (vars (tx_after joined store_with_ssid))
           (nvs (tx_after joined store_with_ssid))
           (trace (tx_after joined store_with_ssid) ++ [HttpStatus st]))
    ∧ length (TXWeb.status_body st (-60) 250000) = 79%nat.
Proof.
  destruct (tx_status_body_whole (asking_status 5000 silence)
              (tx_after joined store_with_ssid) (-60) 250000)
    as (st & Hrun & _ & Hbody).
  - apply (TX.reach_setup store_with_ssid joined). vm_compute. reflexivity.
  - split; [discriminate | reflexivity].
  - split; [discriminate | reflexivity].
  - exists st. split; [exact Hrun|].
    assert (st = mkStatus 0 "IDLE" false 5000 None) as ->.
    { vm_compute in Hrun. injection Hrun as <-. reflexivity. }
    vm_compute. reflexivity.
Defined.

(** X3. The receiver's status answer always fits its buffer: in every
    state the receiver reaches the JSON text of [handleStatus()], the
    two display strings included, has at most 254 characters, so
    [snprintf] into [char buf[384]] sends it whole. *)
Theorem rx_status_body_whole o (s : RX.Device) rssi heap :
  RX.reachable s →
  - 2 ^ 31 ≤ rssi < 2 ^ 31 → 0 ≤ heap < 2 ^ 32 →
  ∃ st,
    RX.handleStatus o s
    = Done tt (mkMachine (cfg s) (vars s) (nvs s) (trace s ++ [HttpStatus st]))
    ∧ (length (RXWeb.status_text st rssi heap) ≤ 254)%nat
    ∧ RXWeb.status_body st rssi heap = RXWeb.status_text st rssi heap.
Proof.
  intros Hreach Hrssi Hheap.
  destruct (RXFacts.rx_reachable_inv s Hreach)
    as ([Hd Ha] & [[hex Hhex] [txt Htxt]] & _).
  destruct (RXInv.rx_reachable_protocol s Hreach)
    as (fs & _ & _ & _ & _ & _ & Hcnt & _).
  exists (mkStatus (RX.rxCount (vars s)) (RX.spiStr (RX.lastSpiResult (vars s)))
            (status_mqtt_up o) (millis (status_t o)) (Some (hex, txt))).
  assert (Hlen : (length (RXWeb.status_text
                    (mkStatus (RX.rxCount (vars s))
                       (RX.spiStr (RX.lastSpiResult (vars s)))
                       (status_mqtt_up o) (millis (status_t o))
                       (Some (hex, txt)))
                    rssi heap) ≤ 254)%nat).
  { apply (rx_status_text_length _ _ _ hex txt);
      cbn [st_count st_spi st_uptime st_hex_ascii]; try done.
    - apply c_str_length in Hhex. rewrite Hd in Hhex. simpl in Hhex. lia.
    - apply c_str_length in Htxt. rewrite Ha in Htxt. simpl in Htxt. lia.
    - rewrite Hcnt. apply wrap32_range.
    - unfold RX.spiStr. repeat (destruct (_ =? _); [simpl; lia|]). simpl. lia.
    - apply millis_range. }
  split; [|split; [exact Hlen|]].
  - by apply RXFacts.rx_handleStatus_eq.
  - apply snprintf_whole. lia.
Qed.

(** X3 on the receiver after a full 32-byte response. *)
Lemma rx_status_body_after_full_buffer :
  ∃ st,
    RX.handleStatus (asking_status 9000 silence)
      (rx_next (quiet 5000 full_of_A) (rx_after joined store_with_ssid))
    = Done tt
        (mkMachine
           (cfg (rx_next (quiet 5000 full_of_A) (rx_after joined store_with_ssid)))
           (vars (rx_next (quiet 5000 full_of_A) (rx_after joined store_with_ssid)))
           (nvs (rx_next (quiet 5000 full_of_A) (rx_after joined store_with_ssid)))
           (trace (rx_next (quiet 5000 full_of_A) (rx_after joined store_with_ssid))
            ++ [HttpStatus st]))
    ∧ RXWeb.status_body st (-60) 250000 = RXWeb.status_text st (-60) 250000.
Proof.
  destruct (rx_status_body_whole (asking_status 9000 silence)
              (rx_next (quiet 5000 full_of_A) (rx_after joined store_with_ssid))
              (-60) 250000)
    as (st & Hrun & _ & Hbody).
  - apply (RX.reach_loop (quiet 5000 full_of_A) (rx_after joined store_with_ssid)).
    + apply (RX.reach_setup store_with_ssid joined). vm_compute. reflexivity.
    + vm_compute. reflexivity.
  - split; [discriminate | reflexivity].
  - split; [discriminate | reflexivity].
  - exists st. split; [exact Hrun | exact Hbody].
Defined.

(** X4. The message the sender publishes always fits its buffer:
    [spiTransmit()], finding the MQTT link up, publishes last, to the
    configured topic, the count it has just incremented; the JSON text
    has at most 31 characters, so [snprintf] into [char buf[48]] leaves
    it whole. *)
Theorem tx_publish_body_whole o (s : TX.Device) :
  pub_mqtt_up o = true →
  ∃ s',
    TX.spiTransmit o s = Done tt s'
    ∧ TX.txCount (vars s') = u32_add (TX.txCount (vars s)) 1
    ∧ last (trace s')
      = Some (MqttPublish (cfgMqttTopic (cfg s)) (PubTx (TX.txCount (vars s'))))
    ∧ (length (TXWeb.publish_text (TX.txCount (vars s'))) ≤ 31)%nat
    ∧ TXWeb.publish_body (TX.txCount (vars s'))
      = TXWeb.publish_text (TX.txCount (vars s')).
Proof.
  intros Hpub. rewrite TXFacts.tx_spiTransmit_eq, Hpub. eexists.
  split; [reflexivity|]. cbn [vars trace TX.txCount TX.set_lastLedOff
    TX.set_ledOn TX.set_txCount].
  split; [reflexivity|]. split.
  - rewrite !app_assoc, last_app. reflexivity.
  - pose proof (tx_publish_text_length (u32_add (TX.txCount (vars s)) 1)
                  (wrap32_range _)) as Hlen.
    split; [exact Hlen|]. apply snprintf_whole. lia.
Qed.

(** X4 on the first transmission of a sender. *)
Lemma tx_publish_body_first :
  ∃ s',
    TX.spiTransmit (publishing 5000 silence) (tx_after joined store_with_broker)
    = Done tt s'
    ∧ TXWeb.publish_body (TX.txCount (vars s')) = TXWeb.publish_text 1.
Proof.
  destruct (tx_publish_body_whole (publishing 5000 silence)
              (tx_after joined store_with_broker))
    as (s' & Hrun & Hcnt & _ & _ & Hbody).
  - reflexivity.
  - exists s'. split; [exact Hrun|]. rewrite Hbody, Hcnt. reflexivity.
Defined.

(** X5. The message the receiver publishes is cut for long payloads.
    [spiReceive()], having classified [n > 0] bytes and finding the MQTT
    link up, publishes last the new count with the hex and ASCII
    strings; the JSON text has [26 + digits + 4 n] characters, and
    [snprintf] into [char buf[128]] keeps 127 of them: a payload of up
    to 22 bytes is published whole, one of 26 bytes or more never. *)
Theorem rx_publish_body_cut o (s : RX.Device) :
  RX.sized (vars s) → pub_mqtt_up o = true →
  classified_length (response o) ≠ 0%nat →
  ∃ s' body text,
    RX.spiReceive o s = Done tt s'
    ∧ RX.rxCount (vars s') = u32_add (RX.rxCount (vars s)) 1
    ∧ last (trace s')
      = Some (MqttPublish (cfgMqttTopic (cfg s))
                (PubRx (RX.rxCount (vars s'))
                   (hex_field (payload (response o)))
                   (ascii_field (payload (response o)))))
    ∧ text = RXWeb.publish_text (RX.rxCount (vars s'))
               (hex_field (payload (response o)))
               (ascii_field (payload (response o)))
    ∧ body = RXWeb.publish_body (RX.rxCount (vars s'))
               (hex_field (payload (response o)))
               (ascii_field (payload (response o)))
    ∧ length text
      = (26 + length (fmt_lu (RX.rxCount (vars s')))
         + 4 * classified_length (response o))%nat
    ∧ (1 ≤ length (fmt_lu (RX.rxCount (vars s'))) ≤ 10)%nat
    ∧ ((classified_length (response o) ≤ 22)%nat → body = text)
    ∧ ((26 ≤ classified_length (response o))%nat →
       length body = 127%nat ∧ (127 < length text)%nat).
Proof.
  intros Hsz Hpub Hdata.
  destruct (RXFacts.rx_spiReceive_effect o s Hsz)
    as (s' & evs & Hrun & _ & _ & _ & _ & _ & _ & _ & _ & Hcnt & _).
  destruct (RXShape.rx_spiReceive_run o s Hsz) as (s2 & Hrun2 & Htr).
  rewrite Hrun in Hrun2. injection Hrun2 as <-.
  assert (Hcnt' : RX.rxCount (vars s') = u32_add (RX.rxCount (vars s)) 1)
    by (rewrite Hcnt; by destruct (classified_length (response o))).
  assert (Hplen : length (payload (response o)) = classified_length (response o)).
  { unfold payload. rewrite length_take.
    pose proof (classified_length_bound (response o)). lia. }
  assert (Hne : payload (response o) ≠ []).
  { intros E. rewrite E in Hplen. cbn [length] in Hplen. congruence. }
  assert (Hdig : (1 ≤ length (fmt_lu (RX.rxCount (vars s'))) ≤ 10)%nat)
    by (apply fmt_lu_u32; rewrite Hcnt'; apply wrap32_range).
  assert (Hlen : length (RXWeb.publish_text (RX.rxCount (vars s'))
                           (hex_field (payload (response o)))
                           (ascii_field (payload (response o))))
                 = (26 + length (fmt_lu (RX.rxCount (vars s')))
                    + 4 * classified_length (response o))%nat).
  { rewrite rx_publish_text_length, hex_field_length by done.
    unfold ascii_field. rewrite length_map, Hplen. lia. }
  eexists s', _, _. split; [exact Hrun|]. split; [exact Hcnt'|]. split.
  { rewrite Htr, Hpub, Hcnt'.
    destruct (classified_length (response o)); [done|].
    rewrite !app_assoc, last_app. reflexivity. }
  split; [reflexivity|]. split; [reflexivity|]. split; [exact Hlen|].
  split; [exact Hdig|]. split.
  - intros Hsmall. apply snprintf_whole. lia.
  - intros Hbig. split; [|lia].
    unfold RXWeb.publish_body. rewrite snprintf_cut; [done | lia].
Qed.

(** X5 at both ends: HELLO is published whole, 32 letters are cut
    to 127 characters. *)
Lemma rx_publish_body_hello_and_full :
  (∃ s',
     RX.spiReceive (publishing 5000 hello) (RX.power_on ∅) = Done tt s'
     ∧ RXWeb.publish_body 1 (hex_field (payload (response (publishing 5000 hello))))
         (ascii_field (payload (response (publishing 5000 hello))))
       = RXWeb.publish_text 1 (lit "48 45 4C 4C 4F") (lit "HELLO"))
  ∧ (∃ s',
       RX.spiReceive (publishing 5000 full_of_A) (RX.power_on ∅) = Done tt s'
       ∧ length (RXWeb.publish_body 1
                   (hex_field (payload (response (publishing 5000 full_of_A))))
                   (ascii_field (payload (response (publishing 5000 full_of_A)))))
         = 127%nat).
Proof.
  split.
  - destruct (rx_publish_body_cut (publishing 5000 hello) (RX.power_on ∅))
      as (s' & body & text & Hrun & Hcnt & _ & -> & -> & _ & _ & Hwhole & _).
    + split; reflexivity.
    + reflexivity.
    + vm_compute. discriminate.
    + exists s'. split; [exact Hrun|].
      rewrite Hcnt in Hwhole.
      change (u32_add (RX.rxCount (vars (RX.power_on ∅))) 1) with 1 in Hwhole.
      rewrite Hwhole; [reflexivity|]. vm_compute. lia.
  - destruct (rx_publish_body_cut (publishing 5000 full_of_A) (RX.power_on ∅))
      as (s' & body & text & Hrun & Hcnt & _ & -> & -> & _ & _ & _ & Hcut).
    + split; reflexivity.
    + reflexivity.
    + vm_compute. discriminate.
    + exists s'. split; [exact Hrun|].
      rewrite Hcnt in Hcut.
      change (u32_add (RX.rxCount (vars (RX.power_on ∅))) 1) with 1 in Hcut.
      apply Hcut. vm_compute. lia.
Defined.

(** X6. [handleSave()] reads the port as a decimal number and keeps its
    low 16 bits: a value that starts with the digits of [n], followed by
    no further digit, stores [n mod 65536]; so 0..65535 are stored as
    given, larger numbers alias smaller ports, and from [LONG_MAX] on
    [toInt] saturates and the port stored is 65535.  The store receives
    the same number. *)
Theorem save_port_numeral {V} (r : Request) (m : Machine V) n rest :
  hasArg r "mp" = true →
  arg r "mp" = string_of_list_ascii (fmt_lu n ++ rest) →
  0 ≤ n < 10 ^ 10 →
  match rest with [] => True | c :: _ => digit_of c = None end →
  ∃ m',
    handleSave r m = Restarted m'
    ∧ cfgMqttPort (cfg m') = Z.min n LONG_MAX mod 2 ^ 16
    ∧ (n < 2 ^ 16 → cfgMqttPort (cfg m') = n)
    ∧ (LONG_MAX ≤ n → cfgMqttPort (cfg m') = 65535)
    ∧ nvs m' !! "mqttPort"%string = Some (NvsU16 (cfgMqttPort (cfg m'))).
Proof.
  intros Hhas Harg Hn Hrest. rewrite handleSave_eq. cbv zeta.
  eexists. split; [reflexivity|].
  cbn [cfg nvs cfgMqttPort]. rewrite Hhas, Harg, toInt_fmt_lu by done.
  unfold wrap16, LONG_MAX. split; [done|]. split; [|split].
  - intros Hsmall. rewrite Z.min_l by lia. apply Z.mod_small. lia.
  - intros Hbig. rewrite Z.min_r by lia. reflexivity.
  - repeat (rewrite lookup_insert_ne by done). by rewrite lookup_insert_eq.
Qed.

(** X6 on a form that asks for port 8883. *)
Lemma save_port_8883 :
  ∃ m' : TX.Device,
    handleSave save_home (TX.power_on ∅) = Restarted m'
    ∧ cfgMqttPort (cfg m') = 8883.
Proof.
  destruct (save_port_numeral save_home (TX.power_on ∅) 8883 [])
    as (m' & Hrun & _ & Hport & _).
  - reflexivity.
  - reflexivity.
  - split; [discriminate | reflexivity].
  - exact I.
  - exists m'. split; [exact Hrun|]. apply Hport. reflexivity.
Defined.



(** X8. The configuration always fits the arrays that hold it.  Booting
    from a store of C strings and 16-bit numbers, [setup()] leaves every
    string shorter than its array and free of NUL and the port within 16
    bits; every call of [loop()] keeps it so, also the call that serves
    a POST to /save, whatever the form carries, and it keeps the store
    well-formed. *)
Theorem config_fits_arrays :
  (∀ b store (s : TX.Device),
     Store_ok store →
     TX.setup b (TX.power_on store) = Done tt s →
     Config_ok (cfg s) = true ∧ Store_ok (nvs s))
  ∧ (∀ o (s s' : TX.Device),
       Config_ok (cfg s) = true → Store_ok (nvs s) →
       final (TX.loop o s) = Some s' →
       Config_ok (cfg s') = true ∧ Store_ok (nvs s'))
  ∧ (∀ b store (s : RX.Device),
       Store_ok store →
       RX.setup b (RX.power_on store) = Done tt s →
       Config_ok (cfg s) = true ∧ Store_ok (nvs s))
  ∧ (∀ o (s s' : RX.Device),
       RX.sized (vars s) → RX.terminated (vars s) →
       Config_ok (cfg s) = true → Store_ok (nvs s) →
       final (RX.loop o s) = Some s' →
       Config_ok (cfg s') = true ∧ Store_ok (nvs s')).
Proof.
  split; [|split; [|split]].
  - intros b store s Hn Hrun.
    destruct (tx_setup_Config_ok b store s Hn Hrun) as [Hok ->]. done.
  - intros o s s' Hok Hn Hfin. destruct (saving o) eqn:Hsave.
    + destruct (tx_loop_saving o s Hsave) as (r & _ & Hrun).
      rewrite Hrun in Hfin.
      destruct (handleSave r _) as [| m' |] eqn:Hs; try discriminate.
      * by rewrite handleSave_eq in Hs.
      * injection Hfin as <-.
        pose proof (λ H, handleSave_Config_ok r _ m' H Hs) as Hok'.
        specialize (Hok' Hok).
        split; [done|]. rewrite handleSave_eq in Hs. injection Hs as <-.
        cbn [nvs cfg] in *. exact (saved_Store_ok _ _ Hok' Hn).
    + destruct (TXShape.tx_loop_shape o s)
        as (s2 & pre & Hrun & _ & _ & _ & _ & Hframe & _).
      rewrite Hfin in Hrun. injection Hrun as <-.
      destruct (Hframe Hsave) as [-> ->]. done.
  - intros b store s Hn Hrun.
    destruct (rx_setup_Config_ok b store s Hn Hrun) as [Hok ->]. done.
  - intros o s s' Hsz Hterm Hok Hn Hfin. destruct (saving o) eqn:Hsave.
    + destruct (rx_loop_saving o s Hsave) as (r & _ & Hrun).
      rewrite Hrun in Hfin.
      destruct (handleSave r _) as [| m' |] eqn:Hs; try discriminate.
      * by rewrite handleSave_eq in Hs.
      * injection Hfin as <-.
        pose proof (λ H, handleSave_Config_ok r _ m' H Hs) as Hok'.
        specialize (Hok' Hok).
        split; [done|]. rewrite handleSave_eq in Hs. injection Hs as <-.
        cbn [nvs cfg] in *. exact (saved_Store_ok _ _ Hok' Hn).
    + destruct (RXShape.rx_loop_shape o s Hsz Hterm)
        as (s2 & pre & Hrun & _ & _ & _ & _ & Hframe & _).
      rewrite Hfin in Hrun. injection Hrun as <-.
      destruct (Hframe Hsave) as [-> ->]. done.
Qed.

(** X8 on a store that names a network and a broker. *)
Lemma config_fits_arrays_booted :
  Config_ok (cfg (tx_after joined store_with_broker)) = true
  ∧ Store_ok (nvs (tx_after joined store_with_broker)).
Proof.
  apply (proj1 config_fits_arrays joined store_with_broker).
  - unfold store_with_broker, store_with_ssid.
    repeat apply map_Forall_insert_2; try reflexivity.
    apply map_Forall_empty.
  - vm_compute. reflexivity.
Defined.

(** X9. What the sender saves it loads again: a call of [loop()] that
    serves a POST to /save restarts the device, and [setup()] on the
    store it leaves comes back with the very configuration
    [handleSave()] had set, whether or not the network is then found. *)
Theorem tx_saved_config_reloads o (s : TX.Device) :
  saving o = true → Config_ok (cfg s) = true →
  ∃ s',
    TX.loop o s = Restarted s'
    ∧ Config_ok (cfg s') = true
    ∧ ∀ b, ∃ s'',
        TX.setup b (TX.power_on (nvs s')) = Done tt s'' ∧ cfg s'' = cfg s'.
Proof.
  intros Hsave Hok. destruct (tx_loop_saving o s Hsave) as (r & _ & Hrun).
  rewrite Hrun.
  destruct (handleSave r _) as [| m' |] eqn:Hs;
    try (by rewrite handleSave_eq in Hs).
  pose proof (λ H, handleSave_Config_ok r _ m' H Hs) as Hok'.
        specialize (Hok' Hok).
  exists m'. split; [done|]. split; [done|]. intros b.
  rewrite handleSave_eq in Hs. cbv zeta in Hs. injection Hs as <-.
  cbn [nvs cfg] in *. exact (tx_reload b _ (nvs s) Hok').
Qed.

(** X9 on the sender booted without a network, saving one. *)
Lemma tx_saved_config_reloads_home :
  ∃ s',
    TX.loop (posting save_home 20000) (tx_after stranded ∅) = Restarted s'
    ∧ ∃ s'',
        TX.setup joined (TX.power_on (nvs s')) = Done tt s''
        ∧ cfg s'' = cfg s'.
Proof.
  destruct (tx_saved_config_reloads (posting save_home 20000) (tx_after stranded ∅))
    as (s' & Hrun & _ & Hload).
  - reflexivity.
  - vm_compute. reflexivity.
  - exists s'. split; [exact Hrun|]. exact (Hload joined).
Defined.

(** X10. What the receiver saves it loads again, but for an empty
    topic: [setup()] on the store a POST to /save leaves comes back with
    the configuration [handleSave()] had set, except that a topic saved
    empty is loaded as "halow/rx", so the receiver never runs with an
    empty topic. *)
Theorem rx_saved_config_reloads o (s : RX.Device) :
  saving o = true → Config_ok (cfg s) = true →
  ∃ s',
    RX.loop o s = Restarted s'
    ∧ Config_ok (cfg s') = true
    ∧ ∀ b, ∃ s'',
        RX.setup b (RX.power_on (nvs s')) = Done tt s''
        ∧ cfg s''
          = (if is_empty (cfgMqttTopic (cfg s'))
             then set_cfgMqttTopic "halow/rx" (cfg s') else cfg s')
        ∧ is_empty (cfgMqttTopic (cfg s'')) = false.
Proof.
  intros Hsave Hok. destruct (rx_loop_saving o s Hsave) as (r & _ & Hrun).
  rewrite Hrun.
  destruct (handleSave r _) as [| m' |] eqn:Hs;
    try (by rewrite handleSave_eq in Hs).
  pose proof (λ H, handleSave_Config_ok r _ m' H Hs) as Hok'.
        specialize (Hok' Hok).
  exists m'. split; [done|]. split; [done|]. intros b.
  rewrite handleSave_eq in Hs. cbv zeta in Hs. injection Hs as <-.
  cbn [nvs cfg] in *.
  destruct (rx_reload b _ (nvs s) Hok') as (s'' & Hsetup & Hcfg).
  exists s''. split; [exact Hsetup|]. split; [exact Hcfg|].
  rewrite Hcfg. by destruct (is_empty _) eqn:E.
Qed.

(** X10 on the receiver, saving an empty topic: the topic is empty until
    the restart and "halow/rx" after it. *)
Lemma rx_saved_empty_topic_reloads_default :
  ∃ s' s'',
    RX.loop (posting save_no_topic 20000) (rx_after stranded ∅) = Restarted s'
    ∧ cfgMqttTopic (cfg s') = ""%string
    ∧ RX.setup joined (RX.power_on (nvs s')) = Done tt s''
    ∧ cfgMqttTopic (cfg s'') = "halow/rx"%string
    ∧ cfgSSID (cfg s'') = "home"%string.
Proof.
  destruct (rx_saved_config_reloads (posting save_no_topic 20000)
              (rx_after stranded ∅))
    as (s' & Hrun & _ & Hload).
  - reflexivity.
  - vm_compute. reflexivity.
  - destruct (Hload joined) as (s'' & Hsetup & Hcfg & _).
    exists s', s''. split; [exact Hrun|].
    assert (Htopic : cfgMqttTopic (cfg s') = ""%string
                     ∧ cfgSSID (cfg s') = "home"%string).
    { vm_compute in Hrun. injection Hrun as <-. split; reflexivity. }
    destruct Htopic as [Htopic Hssid].
    split; [exact Htopic|]. split; [exact Hsetup|].
    rewrite Hcfg, Htopic. cbn [is_empty set_cfgMqttTopic cfgMqttTopic cfgSSID].
    split; [reflexivity | exact Hssid].
Defined.

(** X11. Only a POST to /save changes the configuration or the store:
    any other call of [loop()], whatever request it serves and whatever
    else it does, leaves both as they were.  In particular a request for
    /save that is no POST is answered like an unknown page. *)
Theorem only_save_changes_config :
  (∀ o (s s' : TX.Device),
     saving o = false → final (TX.loop o s) = Some s' →
     cfg s' = cfg s ∧ nvs s' = nvs s)
  ∧ (∀ o (s s' : RX.Device),
       RX.sized (vars s) → RX.terminated (vars s) →
       saving o = false → final (RX.loop o s) = Some s' →
       cfg s' = cfg s ∧ nvs s' = nvs s)
  ∧ (∀ o r,
       pending o = Some r → uri r = "/save"%string →
       is_post (method r) = false →
       saving o = false
       ∧ (∀ s : TX.Device, TX.handleClient o s = TX.handleRoot s)
       ∧ (∀ s : RX.Device, RX.handleClient o s = RX.handleRoot s)).
Proof.
  split; [|split].
  - intros o s s' Hsave Hfin.
    destruct (TXShape.tx_loop_shape o s)
      as (s2 & pre & Hrun & _ & _ & _ & _ & Hframe & _).
    rewrite Hfin in Hrun. injection Hrun as <-. by apply Hframe.
  - intros o s s' Hsz Hterm Hsave Hfin.
    destruct (RXShape.rx_loop_shape o s Hsz Hterm)
      as (s2 & pre & Hrun & _ & _ & _ & _ & Hframe & _).
    rewrite Hfin in Hrun. injection Hrun as <-. by apply Hframe.
  - intros o r Hp Huri Hpost. split; [|split].
    + unfold saving. by rewrite Hp, Hpost, andb_false_r.
    + intros s. unfold TX.handleClient. by rewrite Hp, Huri, Hpost.
    + intros s. unfold RX.handleClient. by rewrite Hp, Huri, Hpost.
Qed.

(** X11 on a GET of /save with form fields: nothing is stored. *)
Lemma get_save_changes_nothing :
  cfg (tx_next (posting get_save 20000) (tx_after stranded ∅))
  = cfg (tx_after stranded ∅)
  ∧ nvs (tx_next (posting get_save 20000) (tx_after stranded ∅))
    = nvs (tx_after stranded ∅).
Proof.
  apply (proj1 only_save_changes_config (posting get_save 20000)
           (tx_after stranded ∅)).
  - reflexivity.
  - vm_compute. reflexivity.
Defined.

(** X12. The device is always in exactly one of its two modes, and in
    access-point mode it never calls into the OTA or MQTT libraries: in
    every state either sketch reaches [apMode] is the negation of
    [wifiConnected], and when [apMode] holds the calls made since
    power-on include no [ArduinoOTA.handle()], [mqtt.setServer()],
    [mqtt.connect()] or [mqtt.loop()]. *)
Theorem mode_is_exclusive :
  (∀ s : TX.Device,
     TX.reachable s →
     TX.apMode (vars s) = negb (TX.wifiConnected (vars s))
     ∧ (TX.apMode (vars s) = true →
        Forall (λ e, is_network e = false) (trace s)))
  ∧ (∀ s : RX.Device,
       RX.reachable s →
       RX.apMode (vars s) = negb (RX.wifiConnected (vars s))
       ∧ (RX.apMode (vars s) = true →
          Forall (λ e, is_network e = false) (trace s))).
Proof.
  split.
  - intros s Hreach.
    destruct (TXInv.tx_reachable_protocol s Hreach)
      as (fs & _ & _ & _ & _ & _ & _ & _ & Hmode & Hnet).
    done.
  - intros s Hreach.
    destruct (RXInv.rx_reachable_protocol s Hreach)
      as (fs & _ & _ & _ & _ & _ & _ & _ & _ & Hmode & Hnet & _).
    done.
Qed.

(** X12 on a sender that did not find its network: a call of [loop()]
    with the broker configured still makes no connect attempt. *)
Lemma mode_is_exclusive_stranded :
  TX.apMode (vars (tx_next (quiet 20000 silence) (tx_after stranded store_with_broker)))
  = true
  ∧ Forall (λ e, is_network e = false)
      (trace (tx_next (quiet 20000 silence) (tx_after stranded store_with_broker))).
Proof.
  destruct (proj1 mode_is_exclusive
              (tx_next (quiet 20000 silence) (tx_after stranded store_with_broker)))
    as [Hmode Hnet].
  - apply (TX.reach_loop (quiet 20000 silence) (tx_after stranded store_with_broker)).
    + apply (TX.reach_setup store_with_broker stranded). vm_compute. reflexivity.
    + vm_compute. reflexivity.
  - split; [reflexivity|]. apply Hnet. reflexivity.
Defined.

(** X13. The sender keeps the bus protocol and sends nothing but HELLO:
    in every state it reaches, the calls made since power-on select the
    chip, begin a transaction, transfer, end it and release the chip in
    that order, the chip is released, and every transaction consists of
    the five bytes of [HELLO_PAYLOAD] in order; there are as many of
    them as transactions were begun. *)
Theorem tx_bus_frames (s : TX.Device) :
  TX.reachable s →
  ∃ fs,
    bus_log TX.SPI_CS (trace s) = Some (Released, fs)
    ∧ length fs = bus_transactions (trace s)
    ∧ Forall (λ f, map fst f = TX.HELLO_PAYLOAD) fs.
Proof.
  intros Hreach.
  destruct (TXInv.tx_reachable_protocol s Hreach) as (fs & Hbus & Hfs & Hlen & _).
  by exists fs.
Qed.

(** X13 after the first transmission. *)
Lemma tx_bus_frames_first :
  ∃ fs,
    bus_log TX.SPI_CS
      (trace (tx_next (quiet 5000 silence) (tx_after joined store_with_ssid)))
    = Some (Released, fs)
    ∧ length fs = 1%nat
    ∧ Forall (λ f, map fst f = list_byte_of_string "HELLO") fs.
Proof.
  destruct (tx_bus_frames
              (tx_next (quiet 5000 silence) (tx_after joined store_with_ssid)))
    as (fs & Hbus & Hlen & Hfs).
  - apply (TX.reach_loop (quiet 5000 silence) (tx_after joined store_with_ssid)).
    + apply (TX.reach_setup store_with_ssid joined). vm_compute. reflexivity.
    + vm_compute. reflexivity.
  - exists fs. split; [exact Hbus|]. split; [|exact Hfs].
    rewrite Hlen. vm_compute. reflexivity.
Defined.

(** X14. The receiver keeps the bus protocol, drives only zero bytes,
    and its buffer is the last response: in every state it reaches the
    calls since power-on follow the order select, begin, transfer...,
    end, release, the chip is released, every transaction consists of 32
    transfers of the byte 0x00, and [rxBuf] holds the 32 bytes the last
    transaction clocked in (zeros before the first). *)
Theorem rx_bus_frames (s : RX.Device) :
  RX.reachable s →
  ∃ fs,
    bus_log RX.SPI_CS (trace s) = Some (Released, fs)
    ∧ length fs = bus_transactions (trace s)
    ∧ Forall (λ f, map fst f = replicate 32 "000"%byte) fs
    ∧ RX.rxBuf (vars s)
      = from_option (map snd) (replicate 32 "000"%byte) (last fs).
Proof.
  intros Hreach.
  destruct (RXInv.rx_reachable_protocol s Hreach)
    as (fs & Hbus & Hfs & Hlen & Hbuf & _).
  by exists fs.
Qed.

(** X14 after a first exchange that returned HELLO. *)
Lemma rx_bus_frames_first :
  ∃ fs,
    bus_log RX.SPI_CS
      (trace (rx_next (quiet 5000 hello) (rx_after joined store_with_ssid)))
    = Some (Released, fs)
    ∧ length fs = 1%nat
    ∧ take 5 (RX.rxBuf (vars (rx_next (quiet 5000 hello)
                               (rx_after joined store_with_ssid))))
      = list_byte_of_string "HELLO".
Proof.
  destruct (rx_bus_frames
              (rx_next (quiet 5000 hello) (rx_after joined store_with_ssid)))
    as (fs & Hbus & Hlen & _ & _).
  - apply (RX.reach_loop (quiet 5000 hello) (rx_after joined store_with_ssid)).
    + apply (RX.reach_setup store_with_ssid joined). vm_compute. reflexivity.
    + vm_compute. reflexivity.
  - exists fs. split; [exact Hbus|]. split.
    + rewrite Hlen. vm_compute. reflexivity.
    + vm_compute. reflexivity.
Defined.

(** X15. The flag [ledOn] mirrors the LED pin: in every state either
    sketch reaches, the level last written to [LED_PIN] is LOW (the LED
    is active LOW) exactly when [ledOn] is set. *)
Theorem led_flag_mirrors_pin :
  (∀ s : TX.Device,
     TX.reachable s →
     pin_level TX.LED_PIN (trace s) = Some (negb (TX.ledOn (vars s))))
  ∧ (∀ s : RX.Device,
       RX.reachable s →
       pin_level RX.LED_PIN (trace s) = Some (negb (RX.ledOn (vars s)))).
Proof.
  split.
  - intros s Hreach.
    by destruct (TXInv.tx_reachable_protocol s Hreach)
      as (fs & _ & _ & _ & Hpin & _).
  - intros s Hreach.
    by destruct (RXInv.rx_reachable_protocol s Hreach)
      as (fs & _ & _ & _ & _ & Hpin & _).
Qed.

(** X15 on a sender 30 ms after a transmission, and 60 ms after it. *)
Lemma led_flag_mirrors_pin_pulse :
  pin_level TX.LED_PIN
    (trace (tx_next (quiet 5030 silence)
              (tx_next (quiet 5000 silence) (tx_after joined store_with_ssid))))
  = Some TX.LOW
  ∧ pin_level TX.LED_PIN
      (trace (tx_next (quiet 5060 silence)
                (tx_next (quiet 5000 silence) (tx_after joined store_with_ssid))))
    = Some TX.HIGH.
Proof.
  assert (Hreach : TX.reachable
            (tx_next (quiet 5000 silence) (tx_after joined store_with_ssid))).
  { apply (TX.reach_loop (quiet 5000 silence) (tx_after joined store_with_ssid)).
    - apply (TX.reach_setup store_with_ssid joined). vm_compute. reflexivity.
    - vm_compute. reflexivity. }
  split.
  - rewrite (proj1 led_flag_mirrors_pin).
    + vm_compute. reflexivity.
    + apply (TX.reach_loop (quiet 5030 silence) _ _ Hreach).
      vm_compute. reflexivity.
  - rewrite (proj1 led_flag_mirrors_pin).
    + vm_compute. reflexivity.
    + apply (TX.reach_loop (quiet 5060 silence) _ _ Hreach).
      vm_compute. reflexivity.
Defined.

(** X16. The counters count what the trace shows.  In every state the
    sender reaches, [txCount] is the number of bus transactions since
    power-on (modulo 2^32), the LED was switched on once per
    transaction, and at most one message was published per transaction.
    In every state the receiver reaches, [rxCount] is the number of
    times the LED was switched on (modulo 2^32), which is at most the
    number of transactions, and at most one message was published per
    flash. *)
Theorem counters_count_the_trace :
  (∀ s : TX.Device,
     TX.reachable s →
     TX.txCount (vars s) = wrap32 (Z.of_nat (bus_transactions (trace s)))
     ∧ occurrences (is_flash TX.LED_PIN) (trace s) = bus_transactions (trace s)
     ∧ (occurrences is_publish (trace s) ≤ bus_transactions (trace s))%nat)
  ∧ (∀ s : RX.Device,
       RX.reachable s →
       RX.rxCount (vars s)
       = wrap32 (Z.of_nat (occurrences (is_flash RX.LED_PIN) (trace s)))
       ∧ (occurrences (is_flash RX.LED_PIN) (trace s)
          ≤ bus_transactions (trace s))%nat
       ∧ (occurrences is_publish (trace s)
          ≤ occurrences (is_flash RX.LED_PIN) (trace s))%nat).
Proof.
  split.
  - intros s Hreach.
    by destruct (TXInv.tx_reachable_protocol s Hreach)
      as (fs & _ & _ & _ & _ & Hcnt & Hfl & Hpub & _).
  - intros s Hreach.
    by destruct (RXInv.rx_reachable_protocol s Hreach)
      as (fs & _ & _ & _ & _ & _ & Hcnt & Hfl & Hpub & _).
Qed.

(** X16 on a receiver after an empty and a full exchange: two
    transactions, one frame counted. *)
Lemma counters_after_two_exchanges :
  RX.rxCount (vars (rx_next (quiet 7000 hello)
                      (rx_next (quiet 5000 silence)
                         (rx_after joined store_with_ssid)))) = 1
  ∧ bus_transactions
      (trace (rx_next (quiet 7000 hello)
                (rx_next (quiet 5000 silence)
                   (rx_after joined store_with_ssid)))) = 2%nat.
Proof.
  assert (Hreach : RX.reachable
            (rx_next (quiet 7000 hello)
               (rx_next (quiet 5000 silence) (rx_after joined store_with_ssid)))).
  { apply (RX.reach_loop (quiet 7000 hello)
             (rx_next (quiet 5000 silence) (rx_after joined store_with_ssid))).
    - apply (RX.reach_loop (quiet 5000 silence) (rx_after joined store_with_ssid)).
      + apply (RX.reach_setup store_with_ssid joined). vm_compute. reflexivity.
      + vm_compute. reflexivity.
    - vm_compute. reflexivity. }
  destruct (proj2 counters_count_the_trace _ Hreach) as (Hcnt & _ & _).
  split.
  - rewrite Hcnt. vm_compute. reflexivity.
  - vm_compute. reflexivity.
Defined.

(** X17. A status answer describes the state at the start of the call:
    [server.handleClient()] runs before the bus section, so every status
    answer a call of [loop()] gives carries the count and the result the
    call found, even when the same call goes on to perform a transaction
    and increments the count; on the receiver it carries the display
    strings the call found. *)
Theorem status_is_taken_before_bus_step :
  (∀ o (s s' : TX.Device),
     final (TX.loop o s) = Some s' →
     ∀ st,
       HttpStatus st ∈ drop (length (trace s)) (trace s') →
       st = mkStatus (TX.txCount (vars s))
              (TX.spiStr (TX.lastSpiResult (vars s)))
              (status_mqtt_up o) (millis (status_t o)) None)
  ∧ (∀ o (s s' : RX.Device),
       RX.sized (vars s) → RX.terminated (vars s) →
       final (RX.loop o s) = Some s' →
       ∀ st,
         HttpStatus st ∈ drop (length (trace s)) (trace s') →
         ∃ hex txt,
           c_str (RX.lastRxData (vars s)) = Some hex
           ∧ c_str (RX.lastRxAscii (vars s)) = Some txt
           ∧ st = mkStatus (RX.rxCount (vars s))
                    (RX.spiStr (RX.lastSpiResult (vars s)))
                    (status_mqtt_up o) (millis (status_t o))
                    (Some (hex, txt))).
Proof.
  assert (Hno : ∀ st evs,
            Forall (λ e, is_http e = false) evs → HttpStatus st ∉ evs).
  { intros st evs H Hin. rewrite Forall_forall in H.
    by specialize (H _ Hin). }
  split.
  - intros o s s' Hfin st Hin.
    destruct (TXShape.tx_loop_shape o s)
      as (s2 & pre & Hrun & Htr & _ & _ & Hsnap & _).
    rewrite Hfin in Hrun. injection Hrun as <-.
    rewrite Htr, drop_app_length in Hin.
    rewrite !elem_of_app in Hin. destruct Hin as [Hin | [Hin | Hin]].
    + rewrite Forall_forall in Hsnap. by apply (Hsnap _ Hin).
    + exfalso. revert Hin. apply Hno.
      destruct (_ && _); [|constructor].
      rewrite !Forall_app. repeat split; try by repeat constructor.
      destruct (pub_mqtt_up o); by repeat constructor.
    + exfalso. revert Hin. apply Hno.
      destruct (_ && _ && _); by repeat constructor.
  - intros o s s' Hsz Hterm Hfin st Hin.
    destruct (RXShape.rx_loop_shape o s Hsz Hterm)
      as (s2 & pre & Hrun & Htr & _ & _ & Hsnap & _).
    rewrite Hfin in Hrun. injection Hrun as <-.
    rewrite Htr, drop_app_length in Hin.
    rewrite !elem_of_app in Hin. destruct Hin as [Hin | [Hin | Hin]].
    + rewrite Forall_forall in Hsnap. by apply (Hsnap _ Hin).
    + exfalso. revert Hin. apply Hno.
      destruct (negb _ && (_ <=? _)); [|constructor].
      rewrite !Forall_app. split; [by repeat constructor|].
      split; [apply Forall_map, Forall_forall; by intros|].
      split; [by repeat constructor|].
      destruct (_ && _); [|constructor].
      destruct (pub_mqtt_up o); by repeat constructor.
    + exfalso. revert Hin. apply Hno.
      lazymatch goal with
      | |- Forall _ (if ?b then _ else _) => destruct b
      end; by repeat constructor.
Qed.

(** X17 on a sender asked for its status in the call that makes the
    first transmission: the answer still says count 0 and IDLE, the
    state the call leaves has count 1. *)
Lemma status_lags_first_transmission :
  TX.txCount (vars (tx_next (asking_status 5000 silence)
                      (tx_after joined store_with_ssid))) = 1
  ∧ ∀ st,
      HttpStatus st
      ∈ drop (length (trace (tx_after joined store_with_ssid)))
          (trace (tx_next (asking_status 5000 silence)
                    (tx_after joined store_with_ssid))) →
      st_count st = 0 ∧ st_spi st = "IDLE"%string.
Proof.
  split; [vm_compute; reflexivity|]. intros st Hin.
  rewrite (proj1 status_is_taken_before_bus_step (asking_status 5000 silence)
             (tx_after joined store_with_ssid)
             (tx_next (asking_status 5000 silence) (tx_after joined store_with_ssid))
             ltac:(vm_compute; reflexivity) st Hin).
  split; reflexivity.
Defined.

(** X18. The receiver's display always renders its buffer: in every
    state it reaches, [rxLen] is the classified length of [rxBuf], the
    hex and ASCII display strings are the renderings of the first
    [rxLen] bytes of [rxBuf], and the result is "data" exactly when
    [rxLen] is not zero. *)
Theorem rx_display_renders_buffer (s : RX.Device) :
  RX.reachable s →
  RX.rxLen (vars s) = classified_length (RX.rxBuf (vars s))
  ∧ c_str (RX.lastRxData (vars s))
    = Some (hex_field (take (RX.rxLen (vars s)) (RX.rxBuf (vars s))))
  ∧ c_str (RX.lastRxAscii (vars s))
    = Some (ascii_field (take (RX.rxLen (vars s)) (RX.rxBuf (vars s))))
  ∧ (RX.lastSpiResult (vars s) = 0 ↔ RX.rxLen (vars s) ≠ 0%nat).
Proof.
  intros Hreach.
  destruct (RXInv.rx_reachable_protocol s Hreach)
    as (fs & _ & _ & _ & _ & _ & _ & _ & _ & _ & _ & Hlen & Hhex & Htxt & Hres).
  rewrite Hlen at 2 3. done.
Qed.

(** X18 after an exchange with data followed by an empty one: the
    display is blank again. *)
Lemma rx_display_blank_after_empty_exchange :
  c_str (RX.lastRxData
           (vars (rx_next (quiet 7000 silence)
                    (rx_next (quiet 5000 hello)
                       (rx_after joined store_with_ssid))))) = Some []
  ∧ RX.lastSpiResult
      (vars (rx_next (quiet 7000 silence)
               (rx_next (quiet 5000 hello) (rx_after joined store_with_ssid))))
    = 1.
Proof.
  assert (Hreach : RX.reachable
            (rx_next (quiet 7000 silence)
               (rx_next (quiet 5000 hello) (rx_after joined store_with_ssid)))).
  { apply (RX.reach_loop (quiet 7000 silence)
             (rx_next (quiet 5000 hello) (rx_after joined store_with_ssid))).
    - apply (RX.reach_loop (quiet 5000 hello) (rx_after joined store_with_ssid)).
      + apply (RX.reach_setup store_with_ssid joined). vm_compute. reflexivity.
      + vm_compute. reflexivity.
    - vm_compute. reflexivity. }
  destruct (rx_display_renders_buffer _ Hreach) as (_ & Hhex & _ & _).
  split.
  - rewrite Hhex. vm_compute. reflexivity.
  - vm_compute. reflexivity.
Defined.

(** X19. What [setup()] calls.  With no network name stored it starts
    the access point without trying to join; with one it calls
    [WiFi.begin] with the stored name and password, and starts the
    access point when the network is not joined.  [mqtt.setServer] is
    called only in station mode and only when a broker is named, with
    the stored host and port.  The pins for the LED and the chip select
    are written HIGH first, and no bus transaction is made. *)
Theorem setup_calls :
  (∀ b store, ∃ s : TX.Device,
     TX.setup b (TX.power_on store) = Done tt s
     ∧ nvs s = store
     ∧ TX.wifiConnected (vars s)
       = negb (is_empty (cfgSSID (cfg s))) && wifi_joined b
     ∧ trace s
       = [DigitalWrite TX.LED_PIN TX.HIGH; DigitalWrite TX.SPI_CS TX.HIGH]
         ++ (if is_empty (cfgSSID (cfg s)) then []
             else [WifiBegin (cfgSSID (cfg s)) (cfgPass (cfg s))])
         ++ (if TX.wifiConnected (vars s)
             then if is_empty (cfgMqttServer (cfg s)) then []
                  else [MqttSetServer (cfgMqttServer (cfg s))
                          (cfgMqttPort (cfg s))]
             else [WifiSoftAP]))
  ∧ (∀ b store, ∃ s : RX.Device,
       RX.setup b (RX.power_on store) = Done tt s
       ∧ nvs s = store
       ∧ RX.wifiConnected (vars s)
         = negb (is_empty (cfgSSID (cfg s))) && wifi_joined b
       ∧ trace s
         = [DigitalWrite RX.LED_PIN RX.HIGH; DigitalWrite RX.SPI_CS RX.HIGH]
           ++ (if is_empty (cfgSSID (cfg s)) then []
               else [WifiBegin (cfgSSID (cfg s)) (cfgPass (cfg s))])
           ++ (if RX.wifiConnected (vars s)
               then if is_empty (cfgMqttServer (cfg s)) then []
                    else [MqttSetServer (cfgMqttServer (cfg s))
                            (cfgMqttPort (cfg s))]
               else [WifiSoftAP])).
Proof.
  split; intros b store.
  - rewrite TXShape.tx_setup_eq. cbv zeta. eexists. split; [reflexivity|].
    cbn [cfg vars nvs trace cfgSSID cfgPass cfgMqttServer cfgMqttPort].
    split; [reflexivity|].
    destruct (is_empty _), (wifi_joined b); cbn [negb andb TX.wifiConnected];
      by split.
  - rewrite RXShape.rx_setup_eq. cbv zeta. eexists. split; [reflexivity|].
    cbn [cfg vars nvs trace cfgSSID cfgPass cfgMqttServer cfgMqttPort].
    split; [reflexivity|].
    destruct (is_empty _), (wifi_joined b); cbn [negb andb RX.wifiConnected];
      by split.
Qed.

End Behaviour.
